(** * Synthetic review generator with quality guardrails

    A shallow embedding of the generation / evaluation / retry pipeline
    (src/nodes, src/graph, src/config/schema.py, src/state) and the
    properties of its guardrail scorers, aggregator and routing logic.

    Python [float] is IEEE binary64 and is modelled by Rocq's primitive
    floats; Python [int] by [Z]; [str] by [string], every character being
    a code point below 256; [dict]s whose keys the code fixes by records
    of optional fields, the others by association lists. *)

From Stdlib Require Import ZArith List String Ascii Bool Lia Floats Uint63.
From Stdlib Require Import DecimalString.
Import ListNotations.

Set Warnings "-inexact-float".

Local Open Scope string_scope.
Local Open Scope Z_scope.

(** ** Python values and built-ins used by the source *)

Module Py.

(** Exceptions the modelled code can raise. *)
Inductive exn : Type :=
| KeyError (key : string)
| ValueError (msg : string)
| IndexError (msg : string).

Inductive result (A : Type) : Type :=
| Ok (a : A)
| Raise (e : exn).

Arguments Ok {A} a.
Arguments Raise {A} e.

Definition bind {A B : Type} (c : result A) (k : A -> result B) : result B :=
  match c with
  | Ok a => k a
  | Raise e => Raise e
  end.

(** A value as a provider may hand it back: [None], a [str], or an
    object of some other type (named by the text of [type(v)]). *)
Inductive object : Type :=
| PyNone
| PyStr (s : string)
| PyOther (type_repr : string).

(** *** Strings *)

(** [str.isspace] on one character, also the class [\s] of [re]. *)
Definition is_space (c : ascii) : bool :=
  let n := Z.of_N (N_of_ascii c) in
  ((9 <=? n) && (n <=? 13)) || ((28 <=? n) && (n <=? 32))
  || (n =? 133) || (n =? 160).

Definition is_digit (c : ascii) : bool :=
  let n := Z.of_N (N_of_ascii c) in (48 <=? n) && (n <=? 57).

Definition is_upper_char (c : ascii) : bool :=
  let n := Z.of_N (N_of_ascii c) in
  ((65 <=? n) && (n <=? 90)) || ((192 <=? n) && (n <=? 214))
  || ((216 <=? n) && (n <=? 222)).

Definition is_lower_char (c : ascii) : bool :=
  let n := Z.of_N (N_of_ascii c) in
  ((97 <=? n) && (n <=? 122)) || (n =? 170) || (n =? 181) || (n =? 186)
  || ((223 <=? n) && (n <=? 246)) || ((248 <=? n) && (n <=? 255)).

Definition lower_char (c : ascii) : ascii :=
  if is_upper_char c then ascii_of_N (N_of_ascii c + 32) else c.

(** The truth value of a [str]: the empty string is false. *)
Definition truthy (s : string) : bool :=
  match s with EmptyString => false | String _ _ => true end.

(** The truth value of an [Optional[str]]. *)
Definition truthy_opt (o : option string) : bool :=
  match o with None => false | Some s => truthy s end.

Fixpoint lstrip (s : string) : string :=
  match s with
  | EmptyString => EmptyString
  | String c r => if is_space c then lstrip r else s
  end.

Fixpoint rstrip (s : string) : string :=
  match s with
  | EmptyString => EmptyString
  | String c r =>
      match rstrip r with
      | EmptyString => if is_space c then EmptyString else String c EmptyString
      | r' => String c r'
      end
  end.

Definition strip (s : string) : string := lstrip (rstrip s).

Fixpoint lower (s : string) : string :=
  match s with
  | EmptyString => EmptyString
  | String c r => String (lower_char c) (lower r)
  end.

Fixpoint existsb_char (p : ascii -> bool) (s : string) : bool :=
  match s with
  | EmptyString => false
  | String c r => p c || existsb_char p r
  end.

(** [str.isupper]: some cased character, and none of them lower case. *)
Definition isupper (s : string) : bool :=
  existsb_char is_upper_char s && negb (existsb_char is_lower_char s).

(** [s.count(c)] for a one-character [c]. *)
Fixpoint count_char (c : ascii) (s : string) : Z :=
  match s with
  | EmptyString => 0
  | String d r => (if Ascii.eqb c d then 1 else 0) + count_char c r
  end.

(** [sub in s]. *)
Fixpoint contains (sub s : string) : bool :=
  prefix sub s ||
  match s with
  | EmptyString => false
  | String _ r => contains sub r
  end.

(** [s.split()]: the maximal runs of characters that are not white
    space; [cur] is the run being read, reversed. *)
Fixpoint split_aux (s : string) (cur : list ascii) : list string :=
  let flush := match cur with
               | [] => []
               | _ => [string_of_list_ascii (rev cur)]
               end in
  match s with
  | EmptyString => flush
  | String c r =>
      if is_space c then flush ++ split_aux r [] else split_aux r (c :: cur)
  end.

Definition split (s : string) : list string := split_aux s [].

(** [sep.join(parts)]. *)
Fixpoint join (sep : string) (parts : list string) : string :=
  match parts with
  | [] => ""
  | [p] => p
  | p :: rest => p ++ sep ++ join sep rest
  end.

(** [str(n)] for an [int]. *)
Definition str_of_int (n : Z) : string :=
  match n with
  | Z0 => "0"
  | Zpos p => NilZero.string_of_uint (Pos.to_uint p)
  | Zneg p => "-" ++ NilZero.string_of_uint (Pos.to_uint p)
  end.

(** [str(b)] for a [bool]. *)
Definition str_of_bool (b : bool) : string := if b then "True" else "False".

(** [set(words)] as a list without repetition, and the sizes of the
    intersection and the union of two such sets. *)
Definition to_set (l : list string) : list string := nodup string_dec l.

Definition mem (w : string) (l : list string) : bool :=
  existsb (String.eqb w) l.

Definition inter (a b : list string) : list string :=
  filter (fun w => mem w b) a.

Definition union (a b : list string) : list string :=
  a ++ filter (fun w => negb (mem w a)) b.

(** *** Floats *)

(** [float(n)] for a small non-negative [int] (a length or a count). *)
Definition float_of_int (n : Z) : float := PrimFloat.of_uint63 (Uint63.of_Z n).

(** [min(a, b)] and [max(a, b)]: the first argument is kept unless the
    second is strictly smaller (greater). *)
Definition min (a b : float) : float := if PrimFloat.ltb b a then b else a.
Definition max (a b : float) : float := if PrimFloat.ltb a b then b else a.

(** [max(xs)] over a non-empty sequence. *)
Definition max_list (xs : list float) : result float :=
  match xs with
  | [] => Raise (ValueError "max() arg is an empty sequence")
  | x :: rest => Ok (fold_left max rest x)
  end.

(** The integer nearest to [n / d] ([d] positive), ties going to the
    even one. *)
Definition div_half_even (n d : Z) : Z :=
  let q := n / d in
  let r := n mod d in
  if 2 * r <? d then q
  else if d <? 2 * r then q + 1
  else if Z.even q then q else q + 1.

Definition two_digits (n : Z) : string :=
  if n <? 10 then "0" ++ str_of_int n else str_of_int n.

(** [f"{x:.2f}"]: the exact value of [x] rounded to two decimals, ties
    to even; the sign is kept when the digits are all zero. *)
Definition format_2f (x : float) : string :=
  match Prim2SF x with
  | S754_nan => "nan"
  | S754_infinity s => if s then "-inf" else "inf"
  | S754_zero s => if s then "-0.00" else "0.00"
  | S754_finite s m e =>
      let hundredths :=
        if 0 <=? e then Zpos m * 2 ^ e * 100
        else div_half_even (Zpos m * 100) (2 ^ (- e)) in
      (if s then "-" else "") ++ str_of_int (hundredths / 100) ++ "."
      ++ two_digits (hundredths mod 100)
  end.

(** The digits of a numeral of the shape [[0-9.]+]: the integer its
    digits spell, the number of digits after the point, and how many
    points and digits were read. *)
Record numeral : Type := {
  digits_value : Z;
  fraction_len : Z;
  points : Z;
  digits_read : Z
}.

Fixpoint read_numeral (s : string) (acc : numeral) : option numeral :=
  match s with
  | EmptyString => Some acc
  | String c r =>
      if is_digit c then
        read_numeral r
          {| digits_value := 10 * digits_value acc + (Z.of_N (N_of_ascii c) - 48);
             fraction_len := fraction_len acc + (if 0 <? points acc then 1 else 0);
             points := points acc;
             digits_read := digits_read acc + 1 |}
      else if Ascii.eqb c "." then
        read_numeral r
          {| digits_value := digits_value acc;
             fraction_len := fraction_len acc;
             points := points acc + 1;
             digits_read := digits_read acc |}
      else None
  end.

(** The binary64 value nearest to [n / 10 ^ k] ([n] positive): the
    quotient is taken with more than 55 bits and its last bit made odd
    when the division is inexact, then rounded to nearest even. *)
Definition nearest_float (n k : Z) : float :=
  let d := 10 ^ k in
  let s := Z.max 0 (57 + Z.log2 d - Z.log2 n) in
  let q := (n * 2 ^ s) / d in
  let sticky := if (n * 2 ^ s) mod d =? 0 then 0 else 1 in
  SF2Prim (binary_normalize prec emax (2 * q + sticky) (- s - 1) false).

(** [float(s)] for a string of digits and points: [ValueError] unless it
    has a digit and at most one point. *)
Definition float_of_str (s : string) : result float :=
  match read_numeral s {| digits_value := 0; fraction_len := 0;
                          points := 0; digits_read := 0 |} with
  | Some n =>
      if (points n <=? 1) && (1 <=? digits_read n) then
        if digits_value n =? 0 then Ok 0%float
        else Ok (nearest_float (digits_value n) (fraction_len n))
      else Raise (ValueError ("could not convert string to float: " ++ s))
  | None => Raise (ValueError ("could not convert string to float: " ++ s))
  end.

End Py.


(** ** Regular expressions of [parse_realism_score] *)

Module Re.

Fixpoint take_while (p : ascii -> bool) (s : string) : string :=
  match s with
  | EmptyString => EmptyString
  | String c r => if p c then String c (take_while p r) else EmptyString
  end.

Fixpoint drop_while (p : ascii -> bool) (s : string) : string :=
  match s with
  | EmptyString => EmptyString
  | String c r => if p c then drop_while p r else s
  end.

Fixpoint drop (n : nat) (s : string) : string :=
  match n, s with
  | O, _ => s
  | S _, EmptyString => EmptyString
  | S k, String _ r => drop k r
  end.

Definition is_num_char (c : ascii) : bool :=
  Py.is_digit c || Ascii.eqb c ".".

(** [Score:\s*([0-9.]+)] matched at the start of [s]; the result is
    group 1.  White space and the characters of the group are disjoint
    classes, so the greedy match is the only candidate. *)
Definition match_score (s : string) : option string :=
  if prefix "Score:" s then
    match take_while is_num_char (drop_while Py.is_space (drop 6 s)) with
    | EmptyString => None
    | g => Some g
    end
  else None.

(** [([0-9]\.[0-9]+)] matched at the start of [s]. *)
Definition match_decimal (s : string) : option string :=
  match s with
  | String a (String b r) =>
      if Py.is_digit a && Ascii.eqb b "." then
        match take_while Py.is_digit r with
        | EmptyString => None
        | ds => Some (String a (String b ds))
        end
      else None
  | _ => None
  end.

(** [([0-9])] matched at the start of [s]. *)
Definition match_digit (s : string) : option string :=
  match s with
  | String a _ => if Py.is_digit a then Some (String a EmptyString) else None
  | EmptyString => None
  end.

(** [re.search(pattern, s)]: the match at the leftmost position where
    the pattern matches, [None] when there is none. *)
Fixpoint search (pattern : string -> option string) (s : string)
  : option string :=
  match pattern s with
  | Some g => Some g
  | None =>
      match s with
      | EmptyString => None
      | String _ r => search pattern r
      end
  end.

End Re.

(** ** Configuration (src/config/schema.py) *)

(** A [Dict[str, float]] of thresholds, in insertion order. *)
Definition dict (V : Type) : Type := list (string * V).

(** [d[key]]: the first binding of [key], [KeyError] when there is none. *)
Fixpoint getitem {V : Type} (d : dict V) (key : string) : Py.result V :=
  match d with
  | [] => Py.Raise (Py.KeyError key)
  | (k, v) :: rest => if String.eqb k key then Py.Ok v else getitem rest key
  end.

Module Schema.

Record PersonaConfig : Type := {
  name : string;
  tone : string;
  expectations : list string
}.

Record ReviewCharacteristics : Type := {
  length : list string;
  include_pros_cons : bool;
  mention_features : bool
}.

Record ModelConfig : Type := {
  provider : string;
  model : string;
  temperature : float;
  max_tokens : option Z
}.

Record GuardrailConfig : Type := {
  diversity : dict float;
  bias : dict float;
  realism : dict float;
  max_retries : Z
}.

Record DomainConfig : Type := {
  domain : string;
  personas : list PersonaConfig;
  rating_distribution : list (Z * float);
  review_characteristics : ReviewCharacteristics;
  models : list ModelConfig;
  guardrails : GuardrailConfig
}.

End Schema.

(** ** Pipeline state (src/state) *)

(** The three guardrail records of [quality_scores]; a key that a
    record does not hold is [None], read with [.get(key, default)]. *)
Record DiversityScores : Type := {
  vocab_overlap : option float;
  semantic_similarity : option float;
  diversity_pass : option bool
}.

Record BiasScores : Type := {
  sentiment_rating_aligned : option bool;
  sentiment_compound : option float;
  z_score : option float;
  bias_pass : option bool
}.

Record RealismScores : Type := {
  realism_score : option float;
  realism_pass : option bool
}.

Record QualityScores : Type := {
  diversity : option DiversityScores;
  bias : option BiasScores;
  realism : option RealismScores
}.

(** The persona dict of a review, as the sampler builds it. *)
Record Persona : Type := {
  persona_name : string;
  persona_tone : string;
  persona_expectations : list string
}.

Record ReviewState : Type := {
  persona : Persona;
  rating : Z;
  model_id : string;
  review_text : option string;
  quality_scores : QualityScores;
  is_valid : bool;
  rejection_reason : option string;
  generation_time : float;
  evaluation_time : float;
  retry_count : Z
}.

Record ModelMetrics : Type := {
  accepted_count : Z;
  rejected_count : Z;
  total_generation_time : float;
  total_evaluation_time : float;
  total_retries : Z
}.

Record GlobalState : Type := {
  accepted_reviews : list ReviewState;
  rejected_reviews : list ReviewState;
  metrics_per_model : dict ModelMetrics;
  current_review : ReviewState;
  config : Schema.DomainConfig;
  target_size : Z;
  feedback : option string
}.

(** ** The world outside the repository

    What the pipeline consumes from its collaborators: the random
    module, the process environment, the chat-completion capability
    behind [LLMProvider.generate], the wall clock, VADER's compound
    polarity, the sentence-embedding similarities, and numpy's and the
    interpreter's float reductions.  A run is a function of these; the
    theorems quantify over all of them.  [t] is the number of the
    pipeline step that consults the capability. *)

(** What [provider.generate(prompt, ...)] does: it returns a pair of a
    value and a duration, or raises an exception whose text is [msg]. *)
Inductive Outcome : Type :=
| Returned (value : Py.object) (seconds : float)
| Failed (msg : string).

Record Env : Type := {
  (** the [k]-th draw of step [t]; it is reduced modulo the population *)
  random_draw : nat -> nat -> nat;
  (** [os.getenv] *)
  getenv : string -> option string;
  (** [LLMProvider.generate] of the provider built for a model, on a
      prompt, with the temperature and the token limit in force *)
  generate : nat -> Schema.ModelConfig -> string -> float -> option Z -> Outcome;
  (** [time.time() - start_time] as measured during step [t] *)
  elapsed : nat -> float;
  (** [SentimentAnalyzer.analyze(text)["compound"]] *)
  polarity_compound : string -> float;
  (** [EmbeddingModel.batch_similarity] of the embedding of a text
      against the embeddings of the accepted texts *)
  batch_similarity : string -> list string -> list float;
  (** [np.mean], [np.std] and the built-in [sum] on floats *)
  np_mean : list float -> float;
  np_std : list float -> float;
  float_sum : list float -> float
}.

Notation "x <- c ;; k" := (Py.bind c (fun x => k))
  (at level 61, c at next level, right associativity).

Definition newline : string := String (ascii_of_nat 10) EmptyString.

(** ** Providers (src/models/providers.py) *)

Record LLMProvider : Type := {
  provider_config : Schema.ModelConfig;
  api_key : string
}.

(** The constructors of [OpenAIProvider] and [GroqProvider] read the
    key from the environment and raise [ValueError] without one. *)
Definition provider_with_key (E : Env) (cfg : Schema.ModelConfig)
    (variable error_msg : string) : Py.result LLMProvider :=
  match getenv E variable with
  | Some key =>
      if Py.truthy key then Py.Ok {| provider_config := cfg; api_key := key |}
      else Py.Raise (Py.ValueError error_msg)
  | None => Py.Raise (Py.ValueError error_msg)
  end.

Definition create_provider (E : Env) (cfg : Schema.ModelConfig)
  : Py.result LLMProvider :=
  if String.eqb (Schema.provider cfg) "openai" then
    provider_with_key E cfg "OPENAI_API_KEY" "OpenAI API key not found."
  else if String.eqb (Schema.provider cfg) "groq" then
    provider_with_key E cfg "GROQ_API_KEY" "Groq API key not found."
  else
    Py.Raise (Py.ValueError
      ("Unsupported provider: " ++ Schema.provider cfg
       ++ ". Supported providers: 'openai', 'groq'.")).

(** ** Sampling (src/nodes/sampler.py) *)

(** [random.choice(population)]; [IndexError] on an empty one. *)
Definition choice {A : Type} (E : Env) (t k : nat) (population : list A)
  : Py.result A :=
  match nth_error population (Nat.modulo (random_draw E t k) (List.length population)) with
  | Some x => Py.Ok x
  | None => Py.Raise (Py.IndexError "Cannot choose from an empty sequence")
  end.

Definition sample_persona_and_rating (E : Env) (t : nat) (state : GlobalState)
  : Py.result GlobalState :=
  let config := config state in
  persona <- choice E t 0 (Schema.personas config) ;;
  let persona_dict := {| persona_name := Schema.name persona;
                         persona_tone := Schema.tone persona;
                         persona_expectations := Schema.expectations persona |} in
  let ratings := map fst (Schema.rating_distribution config) in
  rating <- choice E t 1 ratings ;;
  model_config <- choice E t 2 (Schema.models config) ;;
  let model_id := Schema.provider model_config ++ ":" ++ Schema.model model_config in
  let review := {| persona := persona_dict;
                   rating := rating;
                   model_id := model_id;
                   review_text := None;
                   quality_scores := {| diversity := None; bias := None; realism := None |};
                   is_valid := false;
                   rejection_reason := None;
                   generation_time := 0%float;
                   evaluation_time := 0%float;
                   retry_count := 0 |} in
  Py.Ok {| accepted_reviews := accepted_reviews state;
           rejected_reviews := rejected_reviews state;
           metrics_per_model := metrics_per_model state;
           current_review := review;
           config := config;
           target_size := target_size state;
           feedback := None |}.

(** ** Item assignment on the state dicts

    [state["current_review"] = review] and [review[key] = value] for the
    keys the nodes write. *)

Definition set_current_review (state : GlobalState) (review : ReviewState)
  : GlobalState :=
  {| accepted_reviews := accepted_reviews state;
     rejected_reviews := rejected_reviews state;
     metrics_per_model := metrics_per_model state;
     current_review := review;
     config := config state;
     target_size := target_size state;
     feedback := feedback state |}.

Definition set_feedback (state : GlobalState) (text : option string)
  : GlobalState :=
  {| accepted_reviews := accepted_reviews state;
     rejected_reviews := rejected_reviews state;
     metrics_per_model := metrics_per_model state;
     current_review := current_review state;
     config := config state;
     target_size := target_size state;
     feedback := text |}.

(** The four keys [generate_review] writes when drafting fails. *)
Definition set_generation_failure (review : ReviewState) (seconds : float)
    (reason : string) : ReviewState :=
  {| persona := persona review;
     rating := rating review;
     model_id := model_id review;
     review_text := None;
     quality_scores := quality_scores review;
     is_valid := false;
     rejection_reason := Some reason;
     generation_time := seconds;
     evaluation_time := evaluation_time review;
     retry_count := retry_count review |}.

(** The two keys [generate_review] writes on a usable response. *)
Definition set_generated_text (review : ReviewState) (text : string)
    (seconds : float) : ReviewState :=
  {| persona := persona review;
     rating := rating review;
     model_id := model_id review;
     review_text := Some text;
     quality_scores := quality_scores review;
     is_valid := is_valid review;
     rejection_reason := rejection_reason review;
     generation_time := seconds;
     evaluation_time := evaluation_time review;
     retry_count := retry_count review |}.

(** [review["quality_scores"] = scores] together with
    [review["evaluation_time"] += seconds], as every scorer ends. *)
Definition set_scores (review : ReviewState) (scores : QualityScores)
    (seconds : float) : ReviewState :=
  {| persona := persona review;
     rating := rating review;
     model_id := model_id review;
     review_text := review_text review;
     quality_scores := scores;
     is_valid := is_valid review;
     rejection_reason := rejection_reason review;
     generation_time := generation_time review;
     evaluation_time := (evaluation_time review + seconds)%float;
     retry_count := retry_count review |}.

(** [review["is_valid"] = valid; review["rejection_reason"] = reason]. *)
Definition set_verdict (review : ReviewState) (valid : bool)
    (reason : option string) : ReviewState :=
  {| persona := persona review;
     rating := rating review;
     model_id := model_id review;
     review_text := review_text review;
     quality_scores := quality_scores review;
     is_valid := valid;
     rejection_reason := reason;
     generation_time := generation_time review;
     evaluation_time := evaluation_time review;
     retry_count := retry_count review |}.

(** ** Drafting (src/nodes/generator.py) *)

(** [model_id.split(":", 1)] unpacked into two names. *)
Fixpoint split_colon (s : string) : option (string * string) :=
  match s with
  | EmptyString => None
  | String c r =>
      if Ascii.eqb c ":" then Some (EmptyString, r)
      else match split_colon r with
           | Some (a, b) => Some (String c a, b)
           | None => None
           end
  end.

Definition find_model (models : list Schema.ModelConfig)
    (provider_name model_name : string) : option Schema.ModelConfig :=
  find (fun m => String.eqb (Schema.provider m) provider_name
                 && String.eqb (Schema.model m) model_name) models.

Definition list_mem (w : string) (l : list string) : bool :=
  existsb (String.eqb w) l.

Definition build_prompt (domain : string) (persona : Persona) (rating : Z)
    (characteristics : Schema.ReviewCharacteristics)
    (feedback : option string) : string :=
  let tone_instruction := "Write in a " ++ persona_tone persona ++ " tone." in
  let expectations_text := Py.join ", " (persona_expectations persona) in
  let expectations_instruction := "Focus on: " ++ expectations_text ++ "." in
  let length_instruction :=
    if list_mem "short" (Schema.length characteristics)
    then "Keep it concise (2-3 sentences)."
    else if list_mem "medium" (Schema.length characteristics)
    then "Write a medium-length review (4-6 sentences)."
    else if list_mem "long" (Schema.length characteristics)
    then "Write a detailed review (7+ sentences)."
    else "" in
  let pros_cons :=
    if Schema.include_pros_cons characteristics
    then "Include both pros and cons." else "" in
  let features :=
    if Schema.mention_features characteristics
    then "Mention specific features of the product." else "" in
  let feedback_section :=
    match feedback with
    | Some f =>
        if Py.truthy f
        then newline ++ newline ++ "Previous attempt feedback: " ++ f ++ newline
             ++ "Please address this feedback in your review."
        else ""
    | None => ""
    end in
  let rating_guidance :=
    if rating =? 5 then "Write a very positive, enthusiastic review."
    else if rating =? 4 then "Write a positive review with minor criticisms."
    else if rating =? 3
    then "Write a balanced, neutral review with both positives and negatives."
    else if rating =? 2
    then "Write a negative review highlighting significant problems."
    else "Write a very negative review expressing strong dissatisfaction." in
  "Write a " ++ Py.str_of_int rating ++ "-star review for a " ++ domain ++ "."
  ++ newline ++ newline
  ++ "Persona: " ++ persona_name persona ++ newline
  ++ tone_instruction ++ newline
  ++ expectations_instruction ++ newline ++ newline
  ++ "Requirements:" ++ newline
  ++ length_instruction ++ newline
  ++ pros_cons ++ newline
  ++ features ++ newline ++ newline
  ++ "Rating Guidance: " ++ rating_guidance ++ newline
  ++ "The review should clearly reflect a " ++ Py.str_of_int rating
  ++ "-star rating (where 1 is very negative and 5 is very positive)."
  ++ newline ++ feedback_section ++ newline ++ newline
  ++ "Write the review now:".

Definition generate_review (E : Env) (t : nat) (state : GlobalState)
  : Py.result GlobalState :=
  let config := config state in
  let review := current_review state in
  let model_id := model_id review in
  match split_colon model_id with
  | None => Py.Raise (Py.ValueError "not enough values to unpack (expected 2, got 1)")
  | Some (provider_name, model_name) =>
      match find_model (Schema.models config) provider_name model_name with
      | None => Py.Raise (Py.ValueError ("Model config not found for " ++ model_id))
      | Some model_config =>
          provider <- create_provider E model_config ;;
          let prompt := build_prompt (Schema.domain config) (persona review)
                          (rating review) (Schema.review_characteristics config)
                          (feedback state) in
          let review' :=
            match generate E t (provider_config provider) prompt
                    (Schema.temperature model_config)
                    (Schema.max_tokens model_config) with
            | Returned Py.PyNone _ =>
                set_generation_failure review (elapsed E t)
                  "Generation error: None response from model"
            | Returned (Py.PyOther type_repr) _ =>
                set_generation_failure review (elapsed E t)
                  ("Generation error: Invalid response type from model: " ++ type_repr)
            | Returned (Py.PyStr review_text) generation_time =>
                if negb (Py.truthy (Py.strip review_text)) then
                  set_generation_failure review (elapsed E t)
                    "Generation error: Empty or whitespace-only response from model"
                else
                  set_generated_text review (Py.strip review_text) generation_time
            | Failed msg =>
                set_generation_failure review (elapsed E t)
                  ("Generation error: " ++ msg)
            end in
          Py.Ok (set_current_review state review')
      end
  end.

(** ** Diversity guardrail (src/nodes/guardrails/diversity.py) *)

Definition set_diversity (scores : QualityScores) (d : DiversityScores)
  : QualityScores :=
  {| diversity := Some d; bias := bias scores; realism := realism scores |}.

Definition set_bias (scores : QualityScores) (b : BiasScores) : QualityScores :=
  {| diversity := diversity scores; bias := Some b; realism := realism scores |}.

Definition set_realism (scores : QualityScores) (r : RealismScores)
  : QualityScores :=
  {| diversity := diversity scores; bias := bias scores; realism := Some r |}.

(** The texts of the accepted reviews that have a non-empty one. *)
Definition accepted_texts_of (accepted : list ReviewState) : list string :=
  flat_map (fun r => match review_text r with
                     | Some text => if Py.truthy text then [text] else []
                     | None => []
                     end) accepted.

(** The Jaccard similarities of the loop over the accepted reviews. *)
Definition vocab_overlaps_of (current_words : list string)
    (accepted : list ReviewState) : list float :=
  flat_map (fun accepted_text =>
              let accepted_words := Py.to_set (Py.split (Py.lower accepted_text)) in
              let n_union := Z.of_nat (List.length (Py.union current_words accepted_words)) in
              let n_inter := Z.of_nat (List.length (Py.inter current_words accepted_words)) in
              if 0 <? n_union
              then [(Py.float_of_int n_inter / Py.float_of_int n_union)%float]
              else [])
           (accepted_texts_of accepted).

Definition check_diversity (E : Env) (t : nat) (state : GlobalState)
  : Py.result GlobalState :=
  let review := current_review state in
  let accepted_reviews := accepted_reviews state in
  let config := config state in
  if negb (Py.truthy_opt (review_text review)) then
    Py.Ok (set_current_review state
             (set_scores review
                (set_diversity (quality_scores review)
                   {| vocab_overlap := Some 1%float;
                      semantic_similarity := Some 1%float;
                      diversity_pass := Some false |})
                (elapsed E t)))
  else if (Z.of_nat (List.length accepted_reviews) =? 0) then
    Py.Ok (set_current_review state
             (set_scores review
                (set_diversity (quality_scores review)
                   {| vocab_overlap := Some 0%float;
                      semantic_similarity := Some 0%float;
                      diversity_pass := Some true |})
                (elapsed E t)))
  else
    let text := match review_text review with Some s => s | None => "" end in
    let current_words := Py.to_set (Py.split (Py.lower text)) in
    let vocab_overlaps := vocab_overlaps_of current_words accepted_reviews in
    let avg_vocab_overlap :=
      match vocab_overlaps with
      | [] => 0%float
      | _ => (float_sum E vocab_overlaps
              / Py.float_of_int (Z.of_nat (List.length vocab_overlaps)))%float
      end in
    let accepted_texts := accepted_texts_of accepted_reviews in
    max_semantic_similarity <-
      match accepted_texts with
      | [] => Py.Ok 0%float
      | _ => Py.max_list (batch_similarity E text accepted_texts)
      end ;;
    vocab_threshold <-
      getitem (Schema.diversity (Schema.guardrails config)) "vocab_overlap_threshold" ;;
    semantic_threshold <-
      getitem (Schema.diversity (Schema.guardrails config))
        "semantic_similarity_threshold" ;;
    let passes :=
      (avg_vocab_overlap <? vocab_threshold)%float
      && (max_semantic_similarity <? semantic_threshold)%float in
    Py.Ok (set_current_review state
             (set_scores review
                (set_diversity (quality_scores review)
                   {| vocab_overlap := Some avg_vocab_overlap;
                      semantic_similarity := Some max_semantic_similarity;
                      diversity_pass := Some passes |})
                (elapsed E t))).

(** ** Bias guardrail (src/nodes/guardrails/bias.py) *)

(** Sentiment against the target rating: the three-way test of
    [check_bias]. *)
Definition sentiment_aligned_of (rating : Z) (compound_score : float) : bool :=
  if 4 <=? rating then (0.1 <=? compound_score)%float
  else if rating <=? 2 then (compound_score <=? -0.1)%float
  else (PrimFloat.abs compound_score <? 0.3)%float.

(** The z-score of the draft's sentiment against the accepted corpus. *)
Definition z_score_of (E : Env) (compound_score : float)
    (accepted : list ReviewState) : float :=
  if 0 <? Z.of_nat (List.length accepted) then
    let accepted_sentiments := map (polarity_compound E) (accepted_texts_of accepted) in
    match accepted_sentiments with
    | [] => 0%float
    | _ =>
        let mean_sentiment := np_mean E accepted_sentiments in
        let std_sentiment :=
          if 1 <? Z.of_nat (List.length accepted_sentiments)
          then np_std E accepted_sentiments else 1%float in
        if (0 <? std_sentiment)%float
        then PrimFloat.abs ((compound_score - mean_sentiment) / std_sentiment)%float
        else 0%float
    end
  else 0%float.

Definition check_bias (E : Env) (t : nat) (state : GlobalState)
  : Py.result GlobalState :=
  let review := current_review state in
  let accepted_reviews := accepted_reviews state in
  let config := config state in
  if negb (Py.truthy_opt (review_text review)) then
    Py.Ok (set_current_review state
             (set_scores review
                (set_bias (quality_scores review)
                   {| sentiment_rating_aligned := Some false;
                      sentiment_compound := None;
                      z_score := Some 0%float;
                      bias_pass := Some false |})
                (elapsed E t)))
  else
    let text := match review_text review with Some s => s | None => "" end in
    let rating := rating review in
    let compound_score := polarity_compound E text in
    let sentiment_aligned := sentiment_aligned_of rating compound_score in
    let z_score := z_score_of E compound_score accepted_reviews in
    z_threshold <-
      getitem (Schema.bias (Schema.guardrails config)) "z_score_threshold" ;;
    let passes :=
      sentiment_aligned
      && ((z_score <? z_threshold)%float || (z_score =? 0)%float) in
    Py.Ok (set_current_review state
             (set_scores review
                (set_bias (quality_scores review)
                   {| sentiment_rating_aligned := Some sentiment_aligned;
                      sentiment_compound := Some compound_score;
                      z_score := Some z_score;
                      bias_pass := Some passes |})
                (elapsed E t))).

(** ** Realism guardrail (src/nodes/guardrails/realism.py) *)

(** The loop that picks the judge: it stops at the first model that is
    a groq model or an openai model whose name contains "gpt". *)
Fixpoint validation_model_of (models : list Schema.ModelConfig)
  : option Schema.ModelConfig :=
  match models with
  | [] => None
  | m :: rest =>
      if String.eqb (Schema.provider m) "groq" then Some m
      else if String.eqb (Schema.provider m) "openai"
              && Py.contains "gpt" (Py.lower (Schema.model m)) then Some m
      else validation_model_of rest
  end.

(** The judge: the model the loop found, else [config.models[0]]. *)
Definition select_validation_model (models : list Schema.ModelConfig)
  : Py.result Schema.ModelConfig :=
  match validation_model_of models with
  | Some m => Py.Ok m
  | None =>
      match models with
      | m :: _ => Py.Ok m
      | [] => Py.Raise (Py.IndexError "list index out of range")
      end
  end.

Definition build_realism_prompt (domain review_text : string) (persona : Persona)
  : string :=
  "Evaluate the realism of this product review on a scale of 0.0 to 1.0."
  ++ newline ++ newline
  ++ "Domain: " ++ domain ++ newline
  ++ "Expected Persona Tone: " ++ persona_tone persona ++ newline ++ newline
  ++ "Review:" ++ newline
  ++ review_text ++ newline ++ newline
  ++ "Consider:" ++ newline
  ++ "1. Does it mention realistic features/concepts for this domain?" ++ newline
  ++ "2. Does it avoid obviously fake or hallucinated details?" ++ newline
  ++ "3. Does the tone match the expected persona tone ("
  ++ persona_tone persona ++ ")?" ++ newline
  ++ "4. Does it sound like a genuine user review?" ++ newline ++ newline
  ++ "Respond with only a single number between 0.0 and 1.0 representing the realism score."
  ++ newline
  ++ "Format: " ++ String (ascii_of_nat 34) "Score: 0.XX"
  ++ String (ascii_of_nat 34) " or just " ++ String (ascii_of_nat 34) "0.XX"
  ++ String (ascii_of_nat 34) newline.

(** The body of the loop over the patterns, once a pattern matched
    with group 1 equal to [group]. *)
Definition normalize_score (group : string) : Py.result float :=
  score <- Py.float_of_str group ;;
  let score :=
    if (1 <? score)%float
    then (if (score <=? 10)%float then (score / 10)%float else 1%float)
    else score in
  Py.Ok (Py.max 0%float (Py.min 1%float score)).

Definition patterns : list (string -> option string) :=
  [Re.match_score; Re.match_decimal; Re.match_digit].

Fixpoint parse_with (patterns : list (string -> option string))
    (response : string) : Py.result float :=
  match patterns with
  | [] => Py.Ok 0.5%float
  | pattern :: rest =>
      match Re.search pattern response with
      | Some group => normalize_score group
      | None => parse_with rest response
      end
  end.

Definition parse_realism_score (response : string) : Py.result float :=
  parse_with patterns response.

Definition domain_terms : list string :=
  ["feature"; "use"; "tool"; "product"; "service"; "app"; "software"; "platform"].

Definition heuristic_realism_score (review_text domain : string) : float :=
  if negb (Py.truthy review_text) || negb (Py.truthy (Py.strip review_text))
  then 0%float
  else
    let score := 0.5%float in
    let word_count := Z.of_nat (List.length (Py.split review_text)) in
    let score :=
      if (10 <=? word_count) && (word_count <=? 200) then (score + 0.2)%float
      else if word_count <? 5 then (score - 0.2)%float
      else score in
    let review_lower := Py.lower review_text in
    let score :=
      if existsb (fun term => Py.contains term review_lower) domain_terms
      then (score + 0.2)%float else score in
    let score :=
      if negb (Py.isupper review_text) && (Py.count_char "!" review_text <? 5)
      then (score + 0.1)%float else score in
    Py.max 0%float (Py.min 1%float score).

(** The [try] block of [check_realism]: any exception inside it (the
    provider cannot be built, the call fails, the response is not a
    string, [float] rejects the matched group) leads to the heuristic. *)
Definition judge_score (E : Env) (t : nat) (validation_model : Schema.ModelConfig)
    (prompt review_text domain : string) : float :=
  match create_provider E validation_model with
  | Py.Raise _ => heuristic_realism_score review_text domain
  | Py.Ok provider =>
      match generate E t (provider_config provider) prompt 0.1%float (Some 100) with
      | Returned (Py.PyStr response) _ =>
          if Py.truthy response && Py.truthy (Py.strip response) then
            match parse_realism_score response with
            | Py.Ok score => score
            | Py.Raise _ => heuristic_realism_score review_text domain
            end
          else heuristic_realism_score review_text domain
      | Returned Py.PyNone _ => heuristic_realism_score review_text domain
      | Returned (Py.PyOther _) _ => heuristic_realism_score review_text domain
      | Failed _ => heuristic_realism_score review_text domain
      end
  end.

Definition check_realism (E : Env) (t : nat) (state : GlobalState)
  : Py.result GlobalState :=
  let review := current_review state in
  let config := config state in
  if negb (Py.truthy_opt (review_text review)) then
    Py.Ok (set_current_review state
             (set_scores review
                (set_realism (quality_scores review)
                   {| realism_score := Some 0%float;
                      realism_pass := Some false |})
                (elapsed E t)))
  else
    let text := match review_text review with Some s => s | None => "" end in
    validation_model <- select_validation_model (Schema.models config) ;;
    let prompt := build_realism_prompt (Schema.domain config) text (persona review) in
    let realism_score :=
      judge_score E t validation_model prompt text (Schema.domain config) in
    threshold <-
      getitem (Schema.realism (Schema.guardrails config)) "realism_score_threshold" ;;
    let passes := (threshold <=? realism_score)%float in
    Py.Ok (set_current_review state
             (set_scores review
                (set_realism (quality_scores review)
                   {| realism_score := Some realism_score;
                      realism_pass := Some passes |})
                (elapsed E t))).

(** ** Aggregation (src/nodes/aggregation.py) *)

(** [d.get(key, default)] on the optional keys of a score record. *)
Definition get {A : Type} (o : option A) (default : A) : A :=
  match o with Some a => a | None => default end.

Definition diversity_pass_of (scores : QualityScores) : bool :=
  match diversity scores with
  | Some d => get (diversity_pass d) false
  | None => false
  end.

Definition bias_pass_of (scores : QualityScores) : bool :=
  match bias scores with
  | Some b => get (bias_pass b) false
  | None => false
  end.

Definition realism_pass_of (scores : QualityScores) : bool :=
  match realism scores with
  | Some r => get (realism_pass r) false
  | None => false
  end.

Definition empty_diversity : DiversityScores :=
  {| vocab_overlap := None; semantic_similarity := None; diversity_pass := None |}.

Definition empty_bias : BiasScores :=
  {| sentiment_rating_aligned := None; sentiment_compound := None;
     z_score := None; bias_pass := None |}.

Definition empty_realism : RealismScores :=
  {| realism_score := None; realism_pass := None |}.

(** The explanation appended for a failing diversity guardrail. *)
Definition diversity_reason (scores : QualityScores)
    (g : Schema.GuardrailConfig) : Py.result string :=
  let diversity_scores := get (diversity scores) empty_diversity in
  let vocab_overlap := get (vocab_overlap diversity_scores) 0%float in
  let semantic_sim := get (semantic_similarity diversity_scores) 0%float in
  vocab_threshold <- getitem (Schema.diversity g) "vocab_overlap_threshold" ;;
  semantic_threshold <- getitem (Schema.diversity g) "semantic_similarity_threshold" ;;
  Py.Ok ("Diversity FAILED: vocab_overlap=" ++ Py.format_2f vocab_overlap
         ++ " (threshold: " ++ Py.format_2f vocab_threshold ++ "), "
         ++ "semantic_sim=" ++ Py.format_2f semantic_sim
         ++ " (threshold: " ++ Py.format_2f semantic_threshold ++ ")").

(** The explanation appended for a failing bias guardrail. *)
Definition bias_reason (scores : QualityScores) (g : Schema.GuardrailConfig)
  : Py.result string :=
  let bias_scores := get (bias scores) empty_bias in
  let z_score := get (z_score bias_scores) 0%float in
  let aligned := get (sentiment_rating_aligned bias_scores) false in
  let compound := get (sentiment_compound bias_scores) 0%float in
  z_threshold <- getitem (Schema.bias g) "z_score_threshold" ;;
  Py.Ok ("Bias FAILED: sentiment_aligned=" ++ Py.str_of_bool aligned
         ++ ", sentiment_compound=" ++ Py.format_2f compound ++ ", "
         ++ "z_score=" ++ Py.format_2f z_score
         ++ " (threshold: " ++ Py.format_2f z_threshold ++ ")").

(** The explanation appended for a failing realism guardrail. *)
Definition realism_reason (scores : QualityScores) (g : Schema.GuardrailConfig)
  : Py.result string :=
  let realism_scores := get (realism scores) empty_realism in
  let realism_score := get (realism_score realism_scores) 0%float in
  threshold <- getitem (Schema.realism g) "realism_score_threshold" ;;
  Py.Ok ("Realism FAILED: score=" ++ Py.format_2f realism_score
         ++ " (threshold: " ++ Py.format_2f threshold ++ ")").

(** [if not passed: reasons.append(explanation)]. *)
Definition append_unless (passed : bool) (explanation : Py.result string)
    (reasons : list string) : Py.result (list string) :=
  if passed then Py.Ok reasons
  else (text <- explanation ;; Py.Ok (reasons ++ [text])%list).

Definition aggregate_guardrails (state : GlobalState) : Py.result GlobalState :=
  let review := current_review state in
  let quality_scores := quality_scores review in
  let review_text := review_text review in
  if negb (Py.truthy_opt review_text)
     || match review_text with
        | Some text => negb (Py.truthy (Py.strip text))
        | None => false
        end
  then
    Py.Ok (set_current_review state
             (set_verdict review false
                (Some "Generation error: Empty or invalid review text")))
  else
    let diversity_pass := diversity_pass_of quality_scores in
    let bias_pass := bias_pass_of quality_scores in
    let realism_pass := realism_pass_of quality_scores in
    let is_valid := diversity_pass && bias_pass && realism_pass in
    rejection_reason <-
      (if negb is_valid then
         let g := Schema.guardrails (config state) in
         reasons <- append_unless diversity_pass (diversity_reason quality_scores g) [] ;;
         reasons <- append_unless bias_pass (bias_reason quality_scores g) reasons ;;
         reasons <- append_unless realism_pass (realism_reason quality_scores g) reasons ;;
         Py.Ok (Some (Py.join "; " reasons))
       else Py.Ok None) ;;
    Py.Ok (set_current_review state (set_verdict review is_valid rejection_reason)).

(** ** Routing (src/nodes/routing.py) *)

Definition new_metrics : ModelMetrics :=
  {| accepted_count := 0; rejected_count := 0;
     total_generation_time := 0%float; total_evaluation_time := 0%float;
     total_retries := 0 |}.

Fixpoint has_key {V : Type} (d : dict V) (key : string) : bool :=
  match d with
  | [] => false
  | (k, _) :: rest => String.eqb k key || has_key rest key
  end.

(** [d[key] = f(d[key])] on a dict that holds [key]. *)
Fixpoint update {V : Type} (d : dict V) (key : string) (f : V -> V) : dict V :=
  match d with
  | [] => []
  | (k, v) :: rest =>
      if String.eqb k key then (k, f v) :: rest else (k, v) :: update rest key f
  end.

(** The metrics entry of the review's model, created when missing and
    then incremented. *)
Definition record_metrics (metrics : dict ModelMetrics) (review : ReviewState)
    (accepted : bool) : dict ModelMetrics :=
  let model_id := model_id review in
  let metrics :=
    if has_key metrics model_id then metrics
    else (metrics ++ [(model_id, new_metrics)])%list in
  update metrics model_id
    (fun m =>
       {| accepted_count := accepted_count m + (if accepted then 1 else 0);
          rejected_count := rejected_count m + (if accepted then 0 else 1);
          total_generation_time :=
            (total_generation_time m + generation_time review)%float;
          total_evaluation_time :=
            (total_evaluation_time m + evaluation_time review)%float;
          total_retries := total_retries m + retry_count review |}).

Definition accept_review (state : GlobalState) : Py.result GlobalState :=
  let review := current_review state in
  Py.Ok {| accepted_reviews := (accepted_reviews state ++ [review])%list;
           rejected_reviews := rejected_reviews state;
           metrics_per_model := record_metrics (metrics_per_model state) review true;
           current_review := current_review state;
           config := config state;
           target_size := target_size state;
           feedback := feedback state |}.

Definition reject_review (state : GlobalState) : Py.result GlobalState :=
  let review := current_review state in
  Py.Ok {| accepted_reviews := accepted_reviews state;
           rejected_reviews := (rejected_reviews state ++ [review])%list;
           metrics_per_model := record_metrics (metrics_per_model state) review false;
           current_review := current_review state;
           config := config state;
           target_size := target_size state;
           feedback := feedback state |}.

Definition prepare_regeneration (state : GlobalState) : Py.result GlobalState :=
  let review := current_review state in
  let retry_count' := retry_count review + 1 in
  let rejection_reason := rejection_reason review in
  let feedback :=
    "Previous attempt failed: "
    ++ match rejection_reason with Some reason => reason | None => "None" end
    ++ ". Please generate a different review." in
  let review' :=
    {| persona := persona review;
       rating := rating review;
       model_id := model_id review;
       review_text := review_text review;
       quality_scores := {| diversity := None; bias := None; realism := None |};
       is_valid := false;
       rejection_reason := None;
       generation_time := generation_time review;
       evaluation_time := evaluation_time review;
       retry_count := retry_count' |} in
  Py.Ok (set_current_review (set_feedback state (Some feedback)) review').

(** The text [should_continue] prints on the standard error stream when
    the safety valve stops the run. *)
Definition safety_warning (total_attempts accepted_count target_size : Z) : string :=
  newline ++ "Warning: Stopping after " ++ Py.str_of_int total_attempts
  ++ " attempts. Only " ++ Py.str_of_int accepted_count ++ "/"
  ++ Py.str_of_int target_size ++ " reviews accepted. "
  ++ "Acceptance rate may be too low.".

(** [should_continue] returns its label; the second component is what
    it printed on the standard error stream. *)
Definition should_continue (state : GlobalState) : string * list string :=
  let target_size := target_size state in
  let accepted_count := Z.of_nat (List.length (accepted_reviews state)) in
  let total_attempts :=
    Z.of_nat (List.length (accepted_reviews state))
    + Z.of_nat (List.length (rejected_reviews state)) in
  if target_size <=? accepted_count then ("finish", [])
  else if target_size * 10 <? total_attempts then
    ("finish", [safety_warning total_attempts accepted_count target_size])
  else ("continue", []).

Definition should_retry (state : GlobalState) : string :=
  let review := current_review state in
  let config := config state in
  let max_retries := Schema.max_retries (Schema.guardrails config) in
  let current_retries := retry_count review in
  if current_retries <? max_retries then "retry" else "reject".

(** ** The graph (src/graph/review_graph.py) *)

Inductive Node : Type :=
| sample
| generate_node
| diversity_check
| bias_check
| realism_check
| aggregate
| accept
| reject
| prepare_retry
| END.

Definition route_after_aggregation (state : GlobalState) : string :=
  let review := current_review state in
  if is_valid review then "accept"
  else
    let retry_decision := should_retry state in
    if String.eqb retry_decision "retry" then "retry" else "reject".

Definition check_continue (state : GlobalState) : string * list string :=
  should_continue state.

(** How a node hands over: by a plain edge, or by a routing function
    with the mapping from its labels to nodes. *)
Inductive Edge : Type :=
| edge (target : Node)
| conditional_edges (path : GlobalState -> string * list string)
    (path_map : dict Node).

(** [create_review_graph]: the node functions and the edges. *)
Definition node_function (E : Env) (t : nat) (n : Node) (state : GlobalState)
  : Py.result GlobalState :=
  match n with
  | sample => sample_persona_and_rating E t state
  | generate_node => generate_review E t state
  | diversity_check => check_diversity E t state
  | bias_check => check_bias E t state
  | realism_check => check_realism E t state
  | aggregate => aggregate_guardrails state
  | accept => accept_review state
  | reject => reject_review state
  | prepare_retry => prepare_regeneration state
  | END => Py.Ok state
  end.

Definition edges (n : Node) : Edge :=
  match n with
  | sample => edge generate_node
  | generate_node => edge diversity_check
  | diversity_check => edge bias_check
  | bias_check => edge realism_check
  | realism_check => edge aggregate
  | aggregate =>
      conditional_edges (fun state => (route_after_aggregation state, []))
        [("accept", accept); ("retry", prepare_retry); ("reject", reject)]
  | accept =>
      conditional_edges check_continue [("continue", sample); ("finish", END)]
  | reject =>
      conditional_edges check_continue [("continue", sample); ("finish", END)]
  | prepare_retry => edge generate_node
  | END => edge END
  end.

Definition entry_point : Node := sample.

(** ** Running the graph *)

(** A configuration of the run: the node about to run, the state it
    will receive, and what the run did so far (the nodes it ran, in
    order, and the lines it printed on the standard error stream). *)
Record Run : Type := {
  node : Node;
  state : GlobalState;
  trace : list Node;
  stderr : list string
}.

(** The node after [n], decided on the state [n] returned. *)
Definition next_node (n : Node) (state : GlobalState)
  : Py.result (Node * list string) :=
  match edges n with
  | edge target => Py.Ok (target, [])
  | conditional_edges path path_map =>
      let (label, printed) := path state in
      target <- getitem path_map label ;;
      Py.Ok (target, printed)
  end.

(** One step: run the node, then follow its edge. *)
Definition step (E : Env) (r : Run) : Py.result Run :=
  state' <- node_function E (List.length (trace r)) (node r) (state r) ;;
  next <- next_node (node r) state' ;;
  Py.Ok {| node := fst next;
           state := state';
           trace := (trace r ++ [node r])%list;
           stderr := (stderr r ++ snd next)%list |}.

(** How [invoke] ends: the run reached [END] and the state is handed
    back; or a node raised and the exception leaves [invoke]; or the
    step limit was used up before [END] ([GraphRecursionError]). *)
Inductive Halt : Type :=
| Finished (r : Run)
| Raised (e : Py.exn) (r : Run)
| RecursionLimit (r : Run).

(** At most [steps] steps from [r], stopping at [END]. *)
Fixpoint run (E : Env) (steps : nat) (r : Run) : Halt :=
  match node r with
  | END => Finished r
  | _ =>
      match steps with
      | O => RecursionLimit r
      | S steps' =>
          match step E r with
          | Py.Ok r' => run E steps' r'
          | Py.Raise e => Raised e r
          end
      end
  end.

Definition start (initial_state : GlobalState) : Run :=
  {| node := entry_point; state := initial_state; trace := []; stderr := [] |}.

(** [graph.invoke(initial_state, {"recursion_limit": limit})]. *)
Definition invoke (E : Env) (recursion_limit : nat) (initial_state : GlobalState)
  : Halt :=
  run E recursion_limit (start initial_state).

(** One attempt: at most [steps] steps from [r], stopping as soon as
    the attempt has been routed to [accept] or [reject]. *)
Fixpoint run_attempt (E : Env) (steps : nat) (r : Run) : Halt :=
  match node r with
  | accept | reject | END => Finished r
  | _ =>
      match steps with
      | O => RecursionLimit r
      | S steps' =>
          match step E r with
          | Py.Ok r' => run_attempt E steps' r'
          | Py.Raise e => Raised e r
          end
      end
  end.

(** The configurations a run passes through. *)
Inductive reaches (E : Env) (r0 : Run) : Run -> Prop :=
| reaches_here : reaches E r0 r0
| reaches_step (r r' : Run) :
    reaches E r0 r -> node r <> END -> step E r = Py.Ok r' -> reaches E r0 r'.


(** ** The specification's vocabulary

    The properties below are stated with these definitions, which
    follow the specification's words rather than the code. *)

(** A draft is blank when it is absent or has white space only. *)
Definition whitespace_only (s : string) : bool :=
  forallb Py.is_space (list_ascii_of_string s).

Definition nonspace (c : ascii) : bool := negb (Py.is_space c).

(** [c in s] for one character. *)
Definition has_char (c : ascii) (s : string) : bool :=
  Py.existsb_char (Ascii.eqb c) s.

Definition draft_blank (text : option string) : bool :=
  match text with
  | None => true
  | Some s => whitespace_only s
  end.

(** The alignment rule of the bias guardrail: rating >= 4 requires
    compound >= 0.1; rating <= 2 requires compound <= -0.1; rating = 3
    requires |compound| < 0.3. *)
Definition alignment_holds (rating : Z) (compound : float) : Prop :=
  (4 <= rating -> (0.1 <=? compound)%float = true)
  /\ (rating <= 2 -> (compound <=? -0.1)%float = true)
  /\ (rating = 3 -> (PrimFloat.abs compound <? 0.3)%float = true).

(** A guardrail's pass flag is recorded and true. *)
Definition diversity_passed (scores : QualityScores) : Prop :=
  exists d, diversity scores = Some d /\ diversity_pass d = Some true.

Definition bias_passed (scores : QualityScores) : Prop :=
  exists b, bias scores = Some b /\ bias_pass b = Some true.

Definition realism_passed (scores : QualityScores) : Prop :=
  exists r, realism scores = Some r /\ realism_pass r = Some true.

(** Every threshold the guardrails read is configured. *)
Definition thresholds_configured (g : Schema.GuardrailConfig) : bool :=
  has_key (Schema.diversity g) "vocab_overlap_threshold"
  && has_key (Schema.diversity g) "semantic_similarity_threshold"
  && has_key (Schema.bias g) "z_score_threshold"
  && has_key (Schema.realism g) "realism_score_threshold".

(** The sentinel each scorer records for an empty draft. *)
Definition diversity_sentinel : DiversityScores :=
  {| vocab_overlap := Some 1%float;
     semantic_similarity := Some 1%float;
     diversity_pass := Some false |}.

Definition bias_sentinel : BiasScores :=
  {| sentiment_rating_aligned := Some false;
     sentiment_compound := None;
     z_score := Some 0%float;
     bias_pass := Some false |}.

Definition realism_sentinel : RealismScores :=
  {| realism_score := Some 0%float; realism_pass := Some false |}.

(** The trivial pass the diversity scorer records on an empty corpus. *)
Definition diversity_bootstrap : DiversityScores :=
  {| vocab_overlap := Some 0%float;
     semantic_similarity := Some 0%float;
     diversity_pass := Some true |}.

(** The thresholds the guardrails read from the configuration. *)
Record Thresholds : Type := {
  vocab_overlap_threshold : float;
  semantic_similarity_threshold : float;
  z_score_threshold : float;
  realism_score_threshold : float
}.

Definition read_thresholds (g : Schema.GuardrailConfig) : Py.result Thresholds :=
  vocab <- getitem (Schema.diversity g) "vocab_overlap_threshold" ;;
  semantic <- getitem (Schema.diversity g) "semantic_similarity_threshold" ;;
  z <- getitem (Schema.bias g) "z_score_threshold" ;;
  score <- getitem (Schema.realism g) "realism_score_threshold" ;;
  Py.Ok {| vocab_overlap_threshold := vocab;
           semantic_similarity_threshold := semantic;
           z_score_threshold := z;
           realism_score_threshold := score |}.

(** The three guardrails, in the order the aggregator reports them. *)
Inductive Guardrail : Type :=
| Diversity
| Bias
| Realism.

Definition guardrails_in_order : list Guardrail := [Diversity; Bias; Realism].

Definition guardrail_name (g : Guardrail) : string :=
  match g with
  | Diversity => "Diversity"
  | Bias => "Bias"
  | Realism => "Realism"
  end.

(** The recorded pass flag of a guardrail; a flag that was never
    recorded counts as a failure. *)
Definition guardrail_passed (scores : QualityScores) (g : Guardrail) : bool :=
  match g with
  | Diversity => diversity_pass_of scores
  | Bias => bias_pass_of scores
  | Realism => realism_pass_of scores
  end.

Definition failing (scores : QualityScores) : list Guardrail :=
  filter (fun g => negb (guardrail_passed scores g)) guardrails_in_order.

(** The explanation of one failing guardrail: its measured values and
    the configured thresholds, each to two decimal places. *)
Definition explanation (scores : QualityScores) (th : Thresholds)
    (g : Guardrail) : string :=
  match g with
  | Diversity =>
      let d := get (diversity scores) empty_diversity in
      "Diversity FAILED: vocab_overlap="
      ++ Py.format_2f (get (vocab_overlap d) 0%float)
      ++ " (threshold: " ++ Py.format_2f (vocab_overlap_threshold th) ++ "), "
      ++ "semantic_sim=" ++ Py.format_2f (get (semantic_similarity d) 0%float)
      ++ " (threshold: " ++ Py.format_2f (semantic_similarity_threshold th) ++ ")"
  | Bias =>
      let b := get (bias scores) empty_bias in
      "Bias FAILED: sentiment_aligned="
      ++ Py.str_of_bool (get (sentiment_rating_aligned b) false)
      ++ ", sentiment_compound=" ++ Py.format_2f (get (sentiment_compound b) 0%float)
      ++ ", " ++ "z_score=" ++ Py.format_2f (get (z_score b) 0%float)
      ++ " (threshold: " ++ Py.format_2f (z_score_threshold th) ++ ")"
  | Realism =>
      let r := get (realism scores) empty_realism in
      "Realism FAILED: score=" ++ Py.format_2f (get (realism_score r) 0%float)
      ++ " (threshold: " ++ Py.format_2f (realism_score_threshold th) ++ ")"
  end.

(** The rejection reason the specification describes: the explanations
    of the failing guardrails, in order, joined with "; ". *)
Definition expected_reason (scores : QualityScores) (th : Thresholds) : string :=
  Py.join "; " (map (explanation scores th) (failing scores)).

(** A character of each guardrail's name that the explanations of the
    other two guardrails never print. *)
Definition mark (g : Guardrail) : ascii :=
  match g with
  | Diversity => "v"%char
  | Bias => "B"%char
  | Realism => "R"%char
  end.

Definition empty_text_reason : string :=
  "Generation error: Empty or invalid review text".

(** ** The controller's transition table

    The state machine of the specification: which stage follows which,
    written out by cases. *)

Definition accepted_total (s : GlobalState) : Z :=
  Z.of_nat (List.length (accepted_reviews s)).

(** The number of finalized attempts: accepted plus rejected. *)
Definition finalized_total (s : GlobalState) : Z :=
  Z.of_nat (List.length (accepted_reviews s))
  + Z.of_nat (List.length (rejected_reviews s)).

(** The continuation check finishes. *)
Definition finishes (s : GlobalState) : bool :=
  (target_size s <=? accepted_total s)
  || (target_size s * 10 <? finalized_total s).

Definition retries_left (s : GlobalState) : bool :=
  retry_count (current_review s) <? Schema.max_retries (Schema.guardrails (config s)).

Definition successor (n : Node) (s : GlobalState) : Node :=
  match n with
  | sample => generate_node
  | generate_node => diversity_check
  | diversity_check => bias_check
  | bias_check => realism_check
  | realism_check => aggregate
  | aggregate =>
      if is_valid (current_review s) then accept
      else if retries_left s then prepare_retry else reject
  | accept | reject => if finishes s then END else sample
  | prepare_retry => generate_node
  | END => END
  end.

(** What the continuation check prints when it is consulted. *)
Definition printed (n : Node) (s : GlobalState) : list string :=
  match n with
  | accept | reject => snd (should_continue s)
  | _ => []
  end.

(** [n] steps from [r], one after the other. *)
Fixpoint steps (E : Env) (n : nat) (r : Run) : Py.result Run :=
  match n with
  | O => Py.Ok r
  | S n' => r' <- step E r ;; steps E n' r'
  end.

(** A provider call that gives no usable text: it raised, or returned
    [None], something that is not a string, or a blank string. *)
Definition unusable (o : Outcome) : bool :=
  match o with
  | Failed _ => true
  | Returned Py.PyNone _ => true
  | Returned (Py.PyOther _) _ => true
  | Returned (Py.PyStr s) _ => whitespace_only s
  end.

(** A model the judge selection prefers: a groq model, or an openai
    model whose name contains "gpt". *)
Definition is_groq (m : Schema.ModelConfig) : bool :=
  String.eqb (Schema.provider m) "groq".

Definition is_openai_gpt (m : Schema.ModelConfig) : bool :=
  String.eqb (Schema.provider m) "openai"
  && Py.contains "gpt" (Py.lower (Schema.model m)).

(** The scores the three scorers leave for an empty draft. *)
Definition sentinel_scores : QualityScores :=
  {| diversity := Some diversity_sentinel;
     bias := Some bias_sentinel;
     realism := Some realism_sentinel |}.

(** The run four steps after a failed draft: the three scorers have
    recorded their sentinels and added their time, and the aggregator
    has marked the attempt invalid.  [clock] is the wall clock. *)
Definition after_empty_scoring (clock : nat -> float) (r : Run) : Run :=
  let n := List.length (trace r) in
  let review := current_review (state r) in
  let review' :=
    {| persona := persona review;
       rating := rating review;
       model_id := model_id review;
       review_text := review_text review;
       quality_scores := sentinel_scores;
       is_valid := false;
       rejection_reason := Some empty_text_reason;
       generation_time := generation_time review;
       evaluation_time :=
         (evaluation_time review + clock n + clock (S n) + clock (S (S n)))%float;
       retry_count := retry_count review |} in
  {| node := if retries_left (state r) then prepare_retry else reject;
     state := set_current_review (state r) review';
     trace := trace r ++ [diversity_check; bias_check; realism_check; aggregate];
     stderr := stderr r |}.

(** ** A step budget for the controller

    Every step of a run lowers [steps_to_go]: the attempts the safety
    valve still allows, each weighed at the longest an attempt can take,
    plus the rank of the current stage within the attempt. *)

Definition max_retries_of (s : GlobalState) : Z :=
  Schema.max_retries (Schema.guardrails (config s)).

Definition attempt_weight (s : GlobalState) : nat :=
  7 * Z.to_nat (max_retries_of s) + 10.

Definition attempts_left (s : GlobalState) : nat :=
  Z.to_nat (target_size s * 10 - finalized_total s).

Definition retry_budget (s : GlobalState) : nat :=
  Z.to_nat (max_retries_of s - retry_count (current_review s)).

Definition stage_rank (n : Node) (s : GlobalState) : nat :=
  match n with
  | sample => 7 * Z.to_nat (max_retries_of s) + 9
  | generate_node => 7 * retry_budget s + 6
  | diversity_check => 7 * retry_budget s + 5
  | bias_check => 7 * retry_budget s + 4
  | realism_check => 7 * retry_budget s + 3
  | aggregate => 7 * retry_budget s + 2
  | prepare_retry => 7 * retry_budget s
  | accept | reject => 1
  | END => 0
  end.

Definition steps_to_go (r : Run) : nat :=
  attempts_left (state r) * attempt_weight (state r)
  + stage_rank (node r) (state r).

(** A recursion limit that no run from [initial_state] exhausts. *)
Definition step_budget (initial_state : GlobalState) : nat :=
  steps_to_go (start initial_state).

(** A retry is prepared only while retries remain. *)
Definition retry_allowed (r : Run) : Prop :=
  node r = prepare_retry ->
  retry_count (current_review (state r)) < max_retries_of (state r).

(** The five stages of one draft, and the stages of an attempt that
    took [k] retries. *)
Definition draft_cycle : list Node :=
  [generate_node; diversity_check; bias_check; realism_check; aggregate].

Fixpoint retry_cycles (k : nat) : list Node :=
  match k with
  | O => []
  | S k' => prepare_retry :: draft_cycle ++ retry_cycles k'
  end.

Definition is_generate (n : Node) : bool :=
  match n with generate_node => true | _ => false end.

Definition is_prepare_retry (n : Node) : bool :=
  match n with prepare_retry => true | _ => false end.

(** The drafts and the retries a trace shows. *)
Definition drafts_in (tr : list Node) : nat := List.length (filter is_generate tr).
Definition retries_in (tr : list Node) : nat :=
  List.length (filter is_prepare_retry tr).

(** The safety valve bounds the finalized attempts of a run from [r0]:
    no more than the larger of what [r0] started with and ten times the
    target while the run goes on, and one more once it has finished. *)
Definition within_valve (r0 r : Run) : Prop :=
  target_size (state r) = target_size (state r0)
  /\ finalized_total (state r)
     <= Z.max (finalized_total (state r0)) (target_size (state r0) * 10)
        + match node r with END => 1 | _ => 0 end.

(** The line the safety valve prints for a state. *)
Definition safety_warning_of (s : GlobalState) : string :=
  safety_warning (finalized_total s) (accepted_total s) (target_size s).

(** The stages of an attempt that took [k] retries, from sampling to
    the last aggregation. *)
Definition attempt_trace (k : nat) : list Node :=
  sample :: draft_cycle ++ retry_cycles k.

(** The retry count stays within the configured maximum, and a retry
    is prepared only below it. *)
Definition retry_count_bounded (r : Run) : Prop :=
  0 <= retry_count (current_review (state r)) <= max_retries_of (state r)
  /\ retry_allowed r.

(** ** Concrete inputs

    The configuration of tests/test_graph.py, the initial state of
    cli/main.py, and a few worlds to run them in. *)

Module Example.

Definition test_persona : Schema.PersonaConfig :=
  {| Schema.name := "Test Persona"; Schema.tone := "neutral";
     Schema.expectations := ["quality"] |}.

Definition openai_model : Schema.ModelConfig :=
  {| Schema.provider := "openai"; Schema.model := "gpt-4o-mini";
     Schema.temperature := 0.7%float; Schema.max_tokens := None |}.

Definition groq_model : Schema.ModelConfig :=
  {| Schema.provider := "groq"; Schema.model := "llama-3.3-70b-versatile";
     Schema.temperature := 0.7%float; Schema.max_tokens := None |}.

Definition test_guardrails : Schema.GuardrailConfig :=
  {| Schema.diversity := [("vocab_overlap_threshold", 0.3%float);
                          ("semantic_similarity_threshold", 0.85%float)];
     Schema.bias := [("sentiment_rating_mismatch_threshold", 0.5%float);
                     ("z_score_threshold", 2%float)];
     Schema.realism := [("realism_score_threshold", 0.7%float)];
     Schema.max_retries := 2 |}.

Definition config_with (models : list Schema.ModelConfig) : Schema.DomainConfig :=
  {| Schema.domain := "Test Domain";
     Schema.personas := [test_persona];
     Schema.rating_distribution :=
       [(1, 0.2%float); (2, 0.2%float); (3, 0.2%float); (4, 0.2%float); (5, 0.2%float)];
     Schema.review_characteristics :=
       {| Schema.length := ["short"; "medium"];
          Schema.include_pros_cons := true;
          Schema.mention_features := true |};
     Schema.models := models;
     Schema.guardrails := test_guardrails |}.

Definition test_config : Schema.DomainConfig := config_with [openai_model].

Definition blank_review : ReviewState :=
  {| persona := {| persona_name := ""; persona_tone := ""; persona_expectations := [] |};
     rating := 0;
     model_id := "";
     review_text := None;
     quality_scores := {| diversity := None; bias := None; realism := None |};
     is_valid := false;
     rejection_reason := None;
     generation_time := 0%float;
     evaluation_time := 0%float;
     retry_count := 0 |}.

(** [initial_state] of [generate_command] for a target size. *)
Definition initial_state (cfg : Schema.DomainConfig) (target : Z) : GlobalState :=
  {| accepted_reviews := [];
     rejected_reviews := [];
     metrics_per_model := [];
     current_review := blank_review;
     config := cfg;
     target_size := target;
     feedback := None |}.

(** A world with both API keys set, in which every draw is [draw], the
    drafting call ends as [draft], the judge (the call with a limit of
    100 tokens) ends as [verdict], and every text has polarity
    [compound]. *)
Definition world (draw : nat) (draft verdict : Outcome) (compound : float) : Env :=
  {| random_draw := fun _ _ => draw;
     getenv := fun _ => Some "key";
     generate := fun _ _ _ _ max_tokens =>
                   match max_tokens with
                   | Some 100 => verdict
                   | _ => draft
                   end;
     elapsed := fun _ => 0.25%float;
     polarity_compound := fun _ => compound;
     batch_similarity := fun _ candidates => map (fun _ => 0.5%float) candidates;
     np_mean := fun _ => 0%float;
     np_std := fun _ => 1%float;
     float_sum := fun xs => fold_left PrimFloat.add xs 0%float |}.

Definition good_text : string :=
  "This product is absolutely wonderful and exceeded every expectation!".

(** The provider is down: every call raises. *)
Definition world_down : Env :=
  world 4 (Failed "OpenAI generation failed: timeout")
    (Failed "OpenAI generation failed: timeout") 0%float.

(** Drafts are fine and the judge answers in words, without a number. *)
Definition world_wordy_judge : Env :=
  world 4 (Returned (Py.PyStr good_text) 0.5%float)
    (Returned (Py.PyStr "no idea") 0.2%float) 0.8%float.

(** Drafts are fine and the judge scores them 0.85. *)
Definition world_happy : Env :=
  world 4 (Returned (Py.PyStr good_text) 0.5%float)
    (Returned (Py.PyStr "Score: 0.85") 0.2%float) 0.8%float.

(** A review as it stands after drafting, and the state that holds it
    with a given accepted corpus. *)
Definition review_with (text : option string) (stars : Z)
    (scores : QualityScores) : ReviewState :=
  {| persona := {| persona_name := "Test Persona"; persona_tone := "neutral";
                   persona_expectations := ["quality"] |};
     rating := stars;
     model_id := "openai:gpt-4o-mini";
     review_text := text;
     quality_scores := scores;
     is_valid := false;
     rejection_reason := None;
     generation_time := 0.5%float;
     evaluation_time := 0%float;
     retry_count := 0 |}.

Definition no_scores : QualityScores :=
  {| diversity := None; bias := None; realism := None |}.

Definition state_with (review : ReviewState) (accepted : list ReviewState)
  : GlobalState :=
  {| accepted_reviews := accepted;
     rejected_reviews := [];
     metrics_per_model := [];
     current_review := review;
     config := test_config;
     target_size := 10;
     feedback := None |}.

Definition test_thresholds : Thresholds :=
  {| vocab_overlap_threshold := 0.3%float;
     semantic_similarity_threshold := 0.85%float;
     z_score_threshold := 2%float;
     realism_score_threshold := 0.7%float |}.

(** The scores of [test_aggregate_some_fail] in tests/test_nodes.py:
    only the bias guardrail fails. *)
Definition some_fail_scores : QualityScores :=
  {| diversity := Some {| vocab_overlap := Some 0.5%float;
                          semantic_similarity := Some 0.9%float;
                          diversity_pass := Some true |};
     bias := Some {| sentiment_rating_aligned := Some true;
                     sentiment_compound := None;
                     z_score := Some 3%float;
                     bias_pass := Some false |};
     realism := Some {| realism_score := Some 0.8%float;
                        realism_pass := Some true |} |}.

Definition some_fail_state : GlobalState :=
  state_with (review_with (Some "Test review") 4 some_fail_scores) [].

(** A short draft, as it stands before the realism check. *)
Definition short_draft_state : GlobalState :=
  state_with (review_with (Some "Great app") 5 no_scores) [].

End Example.

(** ** More concrete inputs *)

Module Scenario.

(** A model of a provider the schema admits and the factory does not
    build. *)
Definition openrouter_model : Schema.ModelConfig :=
  {| Schema.provider := "openrouter";
     Schema.model := "anthropic/claude-3.7-sonnet";
     Schema.temperature := 0.7%float; Schema.max_tokens := None |}.

(** The review the sampler initializes in [Example.world_happy] for a
    model identifier. *)
Definition sampled_review (id : string) : ReviewState :=
  {| persona := {| persona_name := "Test Persona"; persona_tone := "neutral";
                   persona_expectations := ["quality"] |};
     rating := 5;
     model_id := id;
     review_text := None;
     quality_scores := Example.no_scores;
     is_valid := false;
     rejection_reason := None;
     generation_time := 0%float;
     evaluation_time := 0%float;
     retry_count := 0 |}.

End Scenario.

(** ** What the lists hold *)

(** A draft as [generate_review] stores it: trimmed and not blank. *)
Definition trimmed (text : string) : Prop :=
  Py.strip text = text /\ whitespace_only text = false.

(** What a passing diversity record says: the bootstrap values of the
    empty corpus, or an overlap and a similarity below the configured
    thresholds. *)
Definition diversity_met (g : Schema.GuardrailConfig) (d : DiversityScores)
  : Prop :=
  exists overlap similarity,
    vocab_overlap d = Some overlap
    /\ semantic_similarity d = Some similarity
    /\ ((overlap = 0%float /\ similarity = 0%float)
        \/ exists vocab_threshold semantic_threshold,
            getitem (Schema.diversity g) "vocab_overlap_threshold"
              = Py.Ok vocab_threshold
            /\ getitem (Schema.diversity g) "semantic_similarity_threshold"
               = Py.Ok semantic_threshold
            /\ (overlap <? vocab_threshold)%float = true
            /\ (similarity <? semantic_threshold)%float = true).

(** What a passing bias record says of a draft and its rating: the
    recorded sentiment is the polarity of the draft, it agrees with the
    rating, and the z-score is below the threshold or 0.0. *)
Definition bias_met (E : Env) (g : Schema.GuardrailConfig) (text : string)
    (stars : Z) (b : BiasScores) : Prop :=
  sentiment_compound b = Some (polarity_compound E text)
  /\ sentiment_rating_aligned b = Some true
  /\ alignment_holds stars (polarity_compound E text)
  /\ exists z z_threshold,
      z_score b = Some z
      /\ getitem (Schema.bias g) "z_score_threshold" = Py.Ok z_threshold
      /\ ((z <? z_threshold)%float = true \/ (z =? 0)%float = true).

(** What a passing realism record says: a score between 0 and 1 that
    is at least the configured threshold. *)
Definition realism_met (g : Schema.GuardrailConfig) (r : RealismScores) : Prop :=
  exists score threshold,
    realism_score r = Some score
    /\ getitem (Schema.realism g) "realism_score_threshold" = Py.Ok threshold
    /\ (threshold <=? score)%float = true
    /\ (0 <=? score)%float = true
    /\ (score <=? 1)%float = true.

(** A review that passed: it is marked valid and has no rejection
    reason, it holds a trimmed draft, and each of its three records
    passed and says what the guardrail checks. *)
Definition passed_all (E : Env) (g : Schema.GuardrailConfig)
    (review : ReviewState) : Prop :=
  is_valid review = true
  /\ rejection_reason review = None
  /\ exists text d b r,
      review_text review = Some text
      /\ trimmed text
      /\ quality_scores review
         = {| diversity := Some d; bias := Some b; realism := Some r |}
      /\ diversity_pass d = Some true /\ diversity_met g d
      /\ bias_pass b = Some true /\ bias_met E g text (rating review) b
      /\ realism_pass r = Some true /\ realism_met g r.

(** A review that used up its retries: it is marked invalid, carries
    the reason of its last draft, and was retried [max_retries] times. *)
Definition gave_up (max_retries : Z) (review : ReviewState) : Prop :=
  is_valid review = false
  /\ (exists reason, rejection_reason review = Some reason)
  /\ retry_count review = max_retries.

(** The scorers that have run on the draft when the run is at a node. *)
Definition scored_by (scorer n : Node) : bool :=
  match scorer, n with
  | diversity_check, (bias_check | realism_check | aggregate | accept) => true
  | bias_check, (realism_check | aggregate | accept) => true
  | realism_check, (aggregate | accept) => true
  | _, _ => false
  end.

(** What holds of the attempt in flight at every stage: its draft is
    none or trimmed; the records of the scorers that have run say what
    the guardrails check wherever they pass; and at [accept] the attempt
    is valid and without a reason. *)
Definition attempt_ok (E : Env) (r : Run) : Prop :=
  let review := current_review (state r) in
  let g := Schema.guardrails (config (state r)) in
  (node r <> sample ->
   match review_text review with
   | Some text => trimmed text
   | None => True
   end)
  /\ (scored_by diversity_check (node r) = true ->
      exists d, diversity (quality_scores review) = Some d
                /\ (diversity_pass d = Some true -> diversity_met g d))
  /\ (scored_by bias_check (node r) = true ->
      exists b, bias (quality_scores review) = Some b
                /\ (bias_pass b = Some true ->
                    exists text, review_text review = Some text
                                 /\ bias_met E g text (rating review) b))
  /\ (scored_by realism_check (node r) = true ->
      exists x, realism (quality_scores review) = Some x
                /\ (realism_pass x = Some true -> realism_met g x))
  /\ (node r = accept ->
      is_valid review = true
      /\ rejection_reason review = None
      /\ draft_blank (review_text review) = false
      /\ diversity_pass_of (quality_scores review) = true
      /\ bias_pass_of (quality_scores review) = true
      /\ realism_pass_of (quality_scores review) = true).

(** ** Metrics (src/metrics/evaluators.py) *)

(** [[r for r in reviews if r.get("model_id") == model_id]] of
    [calculate_model_metrics]. *)
Definition reviews_of (id : string) (reviews : list ReviewState)
  : list ReviewState :=
  filter (fun r => String.eqb (model_id r) id) reviews.

(** [sum(r.get("retry_count", 0) for r in reviews)]. *)
Definition retries_of (reviews : list ReviewState) : Z :=
  fold_left (fun total r => total + retry_count r) reviews 0.

Module Evaluators.

(** The integer entries of the result of [calculate_global_metrics];
    the rates, which divide one entry by another, are left out. *)
Record GlobalMetrics : Type := {
  total_accepted : Z;
  total_rejected : Z;
  total_attempts : Z;
  total_retries : Z
}.

Definition calculate_global_metrics (accepted_reviews rejected_reviews
    : list ReviewState) : GlobalMetrics :=
  let total_accepted := Z.of_nat (List.length accepted_reviews) in
  let total_rejected := Z.of_nat (List.length rejected_reviews) in
  let total_attempts := total_accepted + total_rejected in
  let total_retries := retries_of (accepted_reviews ++ rejected_reviews) in
  {| total_accepted := total_accepted;
     total_rejected := total_rejected;
     total_attempts := total_attempts;
     total_retries := total_retries |}.

End Evaluators.

(** The per-model metrics agree with the two lists: a model has an
    entry exactly when a review of it was finalized, and the entry
    counts the accepted and the rejected reviews of the model and adds
    up their retries. *)
Definition metrics_match (s : GlobalState) : Prop :=
  forall id : string,
    match getitem (metrics_per_model s) id with
    | Py.Ok m =>
        accepted_count m
        = Z.of_nat (List.length (reviews_of id (accepted_reviews s)))
        /\ rejected_count m
           = Z.of_nat (List.length (reviews_of id (rejected_reviews s)))
        /\ total_retries m
           = retries_of (reviews_of id (accepted_reviews s))
             + retries_of (reviews_of id (rejected_reviews s))
        /\ (0 < accepted_count m + rejected_count m)
    | Py.Raise _ =>
        reviews_of id (accepted_reviews s) = []
        /\ reviews_of id (rejected_reviews s) = []
    end.

(** ** Quality statistics (src/metrics/evaluators.py) *)

(** The three lists [calculate_quality_statistics] collects from the
    reviews: a score enters its list when the review holds the record
    and the record holds the key. *)
Definition diversity_scores_of (reviews : list ReviewState) : list float :=
  flat_map (fun review =>
              match semantic_similarity
                      (get (diversity (quality_scores review)) empty_diversity) with
              | Some x => [x]
              | None => []
              end) reviews.

Definition bias_scores_of (reviews : list ReviewState) : list float :=
  flat_map (fun review =>
              match z_score (get (bias (quality_scores review)) empty_bias) with
              | Some x => [x]
              | None => []
              end) reviews.

Definition realism_scores_of (reviews : list ReviewState) : list float :=
  flat_map (fun review =>
              match realism_score
                      (get (realism (quality_scores review)) empty_realism) with
              | Some x => [x]
              | None => []
              end) reviews.

(** A realism score that meets the configured threshold. *)
Definition meets_realism_threshold (g : Schema.GuardrailConfig) (score : float)
  : Prop :=
  exists threshold,
    getitem (Schema.realism g) "realism_score_threshold" = Py.Ok threshold
    /\ (threshold <=? score)%float = true
    /\ (0 <=? score)%float = true
    /\ (score <=? 1)%float = true.

(** The steps the attempt in flight has taken when the run is at a
    node, after [retries] retries: one for sampling, five for each
    draft, one for each retry. *)
Definition steps_in_flight (n : Node) (retries : Z) : Z :=
  match n with
  | sample | END => 0
  | generate_node => 1 + 6 * retries
  | diversity_check => 2 + 6 * retries
  | bias_check => 3 + 6 * retries
  | realism_check => 4 + 6 * retries
  | aggregate => 5 + 6 * retries
  | accept | reject | prepare_retry => 6 + 6 * retries
  end.

(** The steps of a run so far, by the books: seven for each finalized
    attempt, six more for each of its retries, and those of the attempt
    in flight. *)
Definition steps_accounted (r : Run) : Z :=
  let counts := Evaluators.calculate_global_metrics (accepted_reviews (state r))
                  (rejected_reviews (state r)) in
  7 * Evaluators.total_attempts counts + 6 * Evaluators.total_retries counts
  + steps_in_flight (node r) (retry_count (current_review (state r))).

(** ** The command line (cli/main.py) *)

(** The recursion limit [generate_command] gives the graph. *)
Definition recursion_limit (target_size max_retries : Z) : Z :=
  let max_iterations := target_size * (max_retries + 1) * 5 in
  Z.max 1000 max_iterations.

(** The run of [generate_command]: the graph is invoked on the initial
    state under that limit. *)
Definition generate_command (E : Env) (config : Schema.DomainConfig)
    (target_size : Z) : Halt :=
  invoke E
    (Z.to_nat (recursion_limit target_size
                 (Schema.max_retries (Schema.guardrails config))))
    (Example.initial_state config target_size).

(** ** Prompts *)

(** The feedback [prepare_regeneration] writes for a rejection reason. *)
Definition retry_feedback (reason : string) : string :=
  "Previous attempt failed: " ++ reason ++ ". Please generate a different review.".

(** The prompt [generate_review] builds in a state. *)
Definition prompt_of (s : GlobalState) : string :=
  build_prompt (Schema.domain (config s)) (persona (current_review s))
    (rating (current_review s)) (Schema.review_characteristics (config s))
    (feedback s).

(** ** Validation of the rating distribution (src/config/schema.py) *)

(** [DomainConfig.validate_rating_distribution]; [repr] is the text of
    a float in an f-string. *)
Definition validate_rating_distribution (E : Env) (repr : float -> string)
    (v : list (Z * float)) : Py.result (list (Z * float)) :=
  let valid_ratings := [1; 2; 3; 4; 5] in
  if negb (forallb (fun r => existsb (Z.eqb r) valid_ratings) (map fst v)) then
    Py.Raise (Py.ValueError "Ratings must be between 1 and 5")
  else
    let total := float_sum E (map snd v) in
    if negb ((0.99 <=? total)%float && (total <=? 1.01)%float) then
      Py.Raise (Py.ValueError
                  ("Rating distribution must sum to 1.0, got " ++ repr total))
    else Py.Ok v.

(** The rating of the attempt in flight is one of the distribution. *)
Definition rating_listed (r : Run) : Prop :=
  node r <> sample ->
  In (rating (current_review (state r)))
    (map fst (Schema.rating_distribution (config (state r)))).

(** ** Configurations a run cannot trip over *)



(** While a run goes on it is short of its target, or has finalized
    nothing yet; once it has ended it has finalized an attempt and holds
    no more accepted reviews than the target, or the one of a target
    below 1. *)
Definition short_of_target (r : Run) : Prop :=
  match node r with
  | END =>
      1 <= finalized_total (state r)
      /\ accepted_total (state r) <= Z.max 1 (target_size (state r))
      /\ (target_size (state r) <= 0 -> finalized_total (state r) = 1)
  | _ =>
      accepted_total (state r) < Z.max 1 (target_size (state r))
      /\ (target_size (state r) <= 0 -> finalized_total (state r) = 0)
  end.

(** ** Exceptions *)



(** ** Sentiment labels (src/utils/sentiment.py) *)

(** [SentimentAnalyzer.get_sentiment_label]. *)
Definition get_sentiment_label (E : Env) (text : string) : string :=
  let compound := polarity_compound E text in
  if (0.05 <=? compound)%float then "positive"
  else if (compound <=? -0.05)%float then "negative"
  else "neutral".

(** [SentimentAnalyzer.rating_to_expected_sentiment]. *)
Definition rating_to_expected_sentiment (rating : Z) : string :=
  if 4 <=? rating then "positive"
  else if rating <=? 2 then "negative"
  else "neutral".

(** ** Comparison with real reviews (src/nodes/comparison.py) *)

(** The texts [compare_real_vs_synthetic] keeps of the synthetic
    reviews: those that have a text, and of these the ones that are not
    blank. *)
Definition synthetic_texts_of (synthetic_reviews : list ReviewState)
  : list string :=
  filter (fun t => Py.truthy (Py.strip t)) (accepted_texts_of synthetic_reviews).

(** [r.get("review_text", "")]. *)
Definition text_of (review : ReviewState) : string :=
  get (review_text review) "".

(** ** The summary of the command line (cli/main.py) *)

(** [s.split(sep)[0]] for a separator of one character. *)
Fixpoint first_part (sep : ascii) (s : string) : string :=
  match s with
  | EmptyString => EmptyString
  | String c r =>
      if Ascii.eqb c sep then EmptyString else String c (first_part sep r)
  end.

(** The heading under which the summary of [generate_command] counts a
    rejection reason. *)
Definition main_reason (reason : string) : string :=
  if has_char ":" reason then first_part ":" (first_part ";" reason)
  else "Unknown".

(** What stopped a review: a generation error for a blank draft, else
    the first guardrail that failed, in the order diversity, bias,
    realism. *)
Definition first_failure (review : ReviewState) : string :=
  if draft_blank (review_text review) then "Generation error"
  else match failing (quality_scores review) with
       | g :: _ => guardrail_name g ++ " FAILED"
       | [] => "Unknown"
       end.

(** A rejection reason the summary files under what stopped the
    review. *)
Definition filed_by_cause (review : ReviewState) : Prop :=
  exists reason,
    rejection_reason review = Some reason
    /\ main_reason reason = first_failure review
    /\ In (main_reason reason)
         ["Generation error"; "Diversity FAILED"; "Bias FAILED"; "Realism FAILED"].

(** * Properties *)

(** ** Python helpers *)

Lemma getitem_has_key {V : Type} (d : dict V) (key : string) :
  has_key d key = true -> exists v, getitem d key = Py.Ok v.
Proof.
  induction d as [|[k v] rest IH]; simpl; intros H.
  - discriminate.
  - destruct (String.eqb k key).
    + now exists v.
    + apply IH. exact H.
Qed.

Lemma truthy_opt_some (text : string) :
  text <> "" -> Py.truthy_opt (Some text) = true.
Proof. destruct text; [congruence | reflexivity]. Qed.

(** ** Diversity guardrail *)

(** C10: when the draft text is empty or [None], [check_diversity]
    records vocab_overlap = 1.0, semantic_similarity = 1.0 and
    pass = false whatever the accepted corpus is, the empty corpus
    included: the empty-draft test comes before the bootstrap pass. *)
Theorem check_diversity_empty_draft_first :
  forall (E : Env) (t : nat) (state : GlobalState),
    review_text (current_review state) = None
    \/ review_text (current_review state) = Some "" ->
    exists state',
      check_diversity E t state = Py.Ok state'
      /\ diversity (quality_scores (current_review state')) = Some diversity_sentinel
      /\ (accepted_reviews state = [] ->
          diversity (quality_scores (current_review state')) <> Some diversity_bootstrap).
Proof.
  intros E t state H.
  unfold check_diversity.
  assert (Hf : Py.truthy_opt (review_text (current_review state)) = false)
    by (destruct H as [-> | ->]; reflexivity).
  rewrite Hf. simpl. eexists. split; [reflexivity|]. split; [reflexivity|].
  intros _. simpl. unfold diversity_sentinel, diversity_bootstrap. congruence.
Qed.

Lemma check_diversity_empty_draft_first_witness :
  exists state',
    check_diversity Example.world_down 0
      (Example.initial_state Example.test_config 10) = Py.Ok state'
    /\ diversity (quality_scores (current_review state')) = Some diversity_sentinel
    /\ (accepted_reviews (Example.initial_state Example.test_config 10) = [] ->
        diversity (quality_scores (current_review state')) <> Some diversity_bootstrap).
Proof.
  apply (check_diversity_empty_draft_first Example.world_down 0
           (Example.initial_state Example.test_config 10)).
  left. reflexivity.
Defined.

(** ** Bias guardrail *)

Lemma sentiment_aligned_iff (rating : Z) (compound : float) :
  sentiment_aligned_of rating compound = true <-> alignment_holds rating compound.
Proof.
  unfold sentiment_aligned_of, alignment_holds.
  destruct (4 <=? rating) eqn:H4; [apply Z.leb_le in H4 | apply Z.leb_gt in H4].
  - split.
    + intros H. repeat split; intros; try lia; exact H.
    + intros (H & _ & _). apply H. exact H4.
  - destruct (rating <=? 2) eqn:H2; [apply Z.leb_le in H2 | apply Z.leb_gt in H2].
    + split.
      * intros H. repeat split; intros; try lia; exact H.
      * intros (_ & H & _). apply H. exact H2.
    + split.
      * intros H. repeat split; intros; try lia; exact H.
      * intros (_ & _ & H). apply H. lia.
Qed.

(** A compound score of at least 0.1 is not at most -0.1. *)
Lemma positive_not_negative (c : float) :
  (0.1 <=? c)%float = true -> (c <=? -0.1)%float = false.
Proof.
  rewrite !FloatAxioms.leb_spec.
  replace (Prim2SF 0.1) with (S754_finite false 7205759403792794 (-56))
    by (vm_compute; reflexivity).
  replace (Prim2SF (-0.1)) with (S754_finite true 7205759403792794 (-56))
    by (vm_compute; reflexivity).
  destruct (Prim2SF c) as [s|s| |s m e]; try (destruct s);
    unfold SFleb, SFcompare; intros H; first [reflexivity | discriminate H].
Qed.

Lemma check_bias_nonempty (E : Env) (t : nat) (state : GlobalState)
    (text : string) (z_threshold : float) :
  review_text (current_review state) = Some text ->
  text <> "" ->
  getitem (Schema.bias (Schema.guardrails (config state))) "z_score_threshold"
    = Py.Ok z_threshold ->
  let compound := polarity_compound E text in
  let z := z_score_of E compound (accepted_reviews state) in
  let aligned := sentiment_aligned_of (rating (current_review state)) compound in
  check_bias E t state =
    Py.Ok (set_current_review state
             (set_scores (current_review state)
                (set_bias (quality_scores (current_review state))
                   {| sentiment_rating_aligned := Some aligned;
                      sentiment_compound := Some compound;
                      z_score := Some z;
                      bias_pass :=
                        Some (aligned && ((z <? z_threshold)%float || (z =? 0)%float)) |})
                (elapsed E t))).
Proof.
  intros Htext Hne Hthr. unfold check_bias.
  rewrite Htext, (truthy_opt_some text Hne). simpl negb. cbv iota.
  rewrite Hthr. reflexivity.
Qed.

(** C5: for a non-empty draft the bias scorer passes if and only if the
    alignment rule holds and the z-score is below the configured
    threshold or equal to 0.0; a rating-1 draft of positive sentiment
    fails whatever the z-score and the threshold are. *)
Theorem check_bias_pass_iff :
  forall (E : Env) (t : nat) (state : GlobalState) (text : string)
         (z_threshold : float),
    review_text (current_review state) = Some text ->
    text <> "" ->
    getitem (Schema.bias (Schema.guardrails (config state))) "z_score_threshold"
      = Py.Ok z_threshold ->
    let compound := polarity_compound E text in
    let z := z_score_of E compound (accepted_reviews state) in
    exists state' b passes,
      check_bias E t state = Py.Ok state'
      /\ bias (quality_scores (current_review state')) = Some b
      /\ sentiment_compound b = Some compound
      /\ z_score b = Some z
      /\ bias_pass b = Some passes
      /\ (passes = true <->
          alignment_holds (rating (current_review state)) compound
          /\ ((z <? z_threshold)%float = true \/ (z =? 0)%float = true))
      /\ (rating (current_review state) = 1 ->
          (0.1 <=? compound)%float = true -> passes = false).
Proof.
  intros E t state text z_threshold Htext Hne Hthr compound z.
  eexists _, _, _. split.
  - apply (check_bias_nonempty E t state text z_threshold Htext Hne Hthr).
  - cbn [current_review set_current_review quality_scores set_scores bias set_bias
         sentiment_compound z_score bias_pass].
    split; [reflexivity|]. split; [reflexivity|]. split; [reflexivity|].
    split; [reflexivity|]. split; [split|].
    + intros H. apply andb_prop in H. destruct H as [Ha Hz].
      split; [now apply sentiment_aligned_iff | now apply orb_prop in Hz].
    + intros [Ha Hz]. apply andb_true_intro. split.
      * now apply sentiment_aligned_iff.
      * destruct Hz as [Hz | Hz]; fold compound; fold z; rewrite Hz;
          [reflexivity | apply orb_true_r].
    + intros Hr Hpos. fold compound. unfold sentiment_aligned_of. rewrite Hr.
      change (4 <=? 1) with false. change (1 <=? 2) with true. cbv iota.
      rewrite (positive_not_negative compound Hpos). reflexivity.
Qed.

Lemma check_bias_pass_iff_witness :
  exists state' b passes,
    check_bias Example.world_happy 2
      (Example.state_with
         (Example.review_with (Some Example.good_text) 5 Example.no_scores) [])
      = Py.Ok state'
    /\ bias (quality_scores (current_review state')) = Some b
    /\ sentiment_compound b = Some 0.8%float
    /\ z_score b = Some 0%float
    /\ bias_pass b = Some passes
    /\ (passes = true <->
        alignment_holds 5 0.8%float
        /\ ((0 <? 2)%float = true \/ (0 =? 0)%float = true))
    /\ (5 = 1 -> (0.1 <=? 0.8)%float = true -> passes = false).
Proof.
  apply (check_bias_pass_iff Example.world_happy 2
           (Example.state_with
              (Example.review_with (Some Example.good_text) 5 Example.no_scores) [])
           Example.good_text 2%float).
  - reflexivity.
  - discriminate.
  - reflexivity.
Defined.

(** C4: on an empty accepted corpus a non-empty draft passes the
    diversity scorer with vocab_overlap = 0.0 and
    semantic_similarity = 0.0, and the bias scorer computes
    z_score = 0.0, which satisfies the z-score half of its pass
    condition: the bias verdict is the alignment test alone, whatever
    the sentiment analyser says of the draft. *)
Theorem empty_corpus_bootstrap :
  forall (E : Env) (t : nat) (state : GlobalState) (text : string)
         (z_threshold : float),
    accepted_reviews state = [] ->
    review_text (current_review state) = Some text ->
    text <> "" ->
    getitem (Schema.bias (Schema.guardrails (config state))) "z_score_threshold"
      = Py.Ok z_threshold ->
    (exists state',
        check_diversity E t state = Py.Ok state'
        /\ diversity (quality_scores (current_review state'))
           = Some diversity_bootstrap)
    /\ (exists state' b,
          check_bias E t state = Py.Ok state'
          /\ bias (quality_scores (current_review state')) = Some b
          /\ z_score b = Some 0%float
          /\ ((0 <? z_threshold)%float || (0 =? 0)%float = true)
          /\ bias_pass b
             = Some (sentiment_aligned_of (rating (current_review state))
                       (polarity_compound E text))).
Proof.
  intros E t state text z_threshold Hacc Htext Hne Hthr. split.
  - unfold check_diversity.
    rewrite Htext, (truthy_opt_some text Hne), Hacc.
    eexists. split; reflexivity.
  - eexists _, _. split.
    + apply (check_bias_nonempty E t state text z_threshold Htext Hne Hthr).
    + cbn [current_review set_current_review quality_scores set_scores bias set_bias
           sentiment_compound z_score bias_pass].
      rewrite Hacc. unfold z_score_of.
      change (0 <? Z.of_nat (List.length (@nil ReviewState))) with false. cbv iota.
      split; [reflexivity|]. split; [reflexivity|].
      split; [apply orb_true_r|].
      change (0 =? 0)%float with true. rewrite orb_true_r, andb_true_r.
      reflexivity.
Qed.

Lemma empty_corpus_bootstrap_witness :
  (exists state',
      check_diversity Example.world_happy 2
        (Example.state_with
           (Example.review_with (Some Example.good_text) 1 Example.no_scores) [])
        = Py.Ok state'
      /\ diversity (quality_scores (current_review state'))
         = Some diversity_bootstrap)
  /\ (exists state' b,
        check_bias Example.world_happy 2
          (Example.state_with
             (Example.review_with (Some Example.good_text) 1 Example.no_scores) [])
          = Py.Ok state'
        /\ bias (quality_scores (current_review state')) = Some b
        /\ z_score b = Some 0%float
        /\ ((0 <? 2)%float || (0 =? 0)%float = true)
        /\ bias_pass b = Some (sentiment_aligned_of 1 0.8%float)).
Proof.
  apply (empty_corpus_bootstrap Example.world_happy 2
           (Example.state_with
              (Example.review_with (Some Example.good_text) 1 Example.no_scores) [])
           Example.good_text 2%float).
  - reflexivity.
  - reflexivity.
  - discriminate.
  - reflexivity.
Defined.

(** ** Aggregation *)

Lemma whitespace_only_spec (s : string) :
  whitespace_only s = negb (Py.existsb_char nonspace s).
Proof.
  unfold whitespace_only.
  induction s as [|c r IH]; [reflexivity|].
  cbn [list_ascii_of_string forallb Py.existsb_char].
  rewrite IH. unfold nonspace. now destruct (Py.is_space c).
Qed.

Lemma rstrip_nonspace (s : string) :
  Py.existsb_char nonspace (Py.rstrip s) = Py.existsb_char nonspace s.
Proof.
  induction s as [|c r IH]; [reflexivity|].
  cbn [Py.rstrip Py.existsb_char]. rewrite <- IH.
  destruct (Py.rstrip r) as [|c' r'].
  - unfold nonspace. destruct (Py.is_space c) eqn:Hc;
      cbn [Py.existsb_char]; rewrite ?Hc; reflexivity.
  - reflexivity.
Qed.

Lemma lstrip_truthy (s : string) :
  Py.truthy (Py.lstrip s) = Py.existsb_char nonspace s.
Proof.
  induction s as [|c r IH]; [reflexivity|].
  cbn [Py.lstrip Py.existsb_char]. unfold nonspace at 1.
  destruct (Py.is_space c); [exact IH | reflexivity].
Qed.

(** Stripping leaves something exactly when some character is not
    white space. *)
Lemma strip_truthy (s : string) :
  Py.truthy (Py.strip s) = negb (whitespace_only s).
Proof.
  unfold Py.strip.
  rewrite lstrip_truthy, rstrip_nonspace, whitespace_only_spec.
  now rewrite negb_involutive.
Qed.

(** The aggregator's early-exit test is the blank-draft test. *)
Lemma early_exit_blank (text : option string) :
  negb (Py.truthy_opt text)
  || match text with
     | Some s => negb (Py.truthy (Py.strip s))
     | None => false
     end
  = draft_blank text.
Proof.
  destruct text as [s|]; [|reflexivity].
  cbn [draft_blank]. rewrite strip_truthy, negb_involutive.
  destruct s; reflexivity.
Qed.

Lemma read_thresholds_ok (g : Schema.GuardrailConfig) :
  thresholds_configured g = true -> exists th, read_thresholds g = Py.Ok th.
Proof.
  unfold thresholds_configured, read_thresholds. intros H.
  apply andb_prop in H. destruct H as [H Hr].
  apply andb_prop in H. destruct H as [H Hz].
  apply andb_prop in H. destruct H as [Hv Hs].
  destruct (getitem_has_key _ _ Hv) as [v ->].
  destruct (getitem_has_key _ _ Hs) as [s ->].
  destruct (getitem_has_key _ _ Hz) as [z ->].
  destruct (getitem_has_key _ _ Hr) as [r ->].
  eexists. reflexivity.
Qed.

Lemma read_thresholds_inv (g : Schema.GuardrailConfig) (th : Thresholds) :
  read_thresholds g = Py.Ok th ->
  getitem (Schema.diversity g) "vocab_overlap_threshold"
    = Py.Ok (vocab_overlap_threshold th)
  /\ getitem (Schema.diversity g) "semantic_similarity_threshold"
     = Py.Ok (semantic_similarity_threshold th)
  /\ getitem (Schema.bias g) "z_score_threshold" = Py.Ok (z_score_threshold th)
  /\ getitem (Schema.realism g) "realism_score_threshold"
     = Py.Ok (realism_score_threshold th).
Proof.
  unfold read_thresholds.
  destruct (getitem (Schema.diversity g) "vocab_overlap_threshold") as [v|];
    [|discriminate].
  destruct (getitem (Schema.diversity g) "semantic_similarity_threshold") as [s|];
    [|discriminate].
  destruct (getitem (Schema.bias g) "z_score_threshold") as [z|]; [|discriminate].
  destruct (getitem (Schema.realism g) "realism_score_threshold") as [r|];
    [|discriminate].
  cbn [Py.bind]. intros H. injection H as <-. repeat split.
Qed.

Lemma diversity_reason_ok scores g th :
  read_thresholds g = Py.Ok th ->
  diversity_reason scores g = Py.Ok (explanation scores th Diversity).
Proof.
  intros H. destruct (read_thresholds_inv g th H) as (Hv & Hs & _ & _).
  unfold diversity_reason. rewrite Hv, Hs. reflexivity.
Qed.

Lemma bias_reason_ok scores g th :
  read_thresholds g = Py.Ok th ->
  bias_reason scores g = Py.Ok (explanation scores th Bias).
Proof.
  intros H. destruct (read_thresholds_inv g th H) as (_ & _ & Hz & _).
  unfold bias_reason. rewrite Hz. reflexivity.
Qed.

Lemma realism_reason_ok scores g th :
  read_thresholds g = Py.Ok th ->
  realism_reason scores g = Py.Ok (explanation scores th Realism).
Proof.
  intros H. destruct (read_thresholds_inv g th H) as (_ & _ & _ & Hr).
  unfold realism_reason. rewrite Hr. reflexivity.
Qed.

(** What the aggregator returns once the thresholds can be read. *)
Lemma aggregate_guardrails_ok (state : GlobalState) (th : Thresholds) :
  read_thresholds (Schema.guardrails (config state)) = Py.Ok th ->
  let review := current_review state in
  let scores := quality_scores review in
  aggregate_guardrails state =
    Py.Ok (set_current_review state
             (if draft_blank (review_text review)
              then set_verdict review false (Some empty_text_reason)
              else if diversity_pass_of scores && bias_pass_of scores
                      && realism_pass_of scores
                   then set_verdict review true None
                   else set_verdict review false (Some (expected_reason scores th)))).
Proof.
  intros Hth review scores. unfold aggregate_guardrails.
  fold review. fold scores. rewrite early_exit_blank.
  destruct (draft_blank (review_text review)); [reflexivity|].
  rewrite (diversity_reason_ok scores _ th Hth), (bias_reason_ok scores _ th Hth),
    (realism_reason_ok scores _ th Hth).
  unfold expected_reason, failing, guardrails_in_order, append_unless.
  cbn [filter guardrail_passed].
  destruct (diversity_pass_of scores), (bias_pass_of scores),
    (realism_pass_of scores); reflexivity.
Qed.

Lemma diversity_pass_of_iff scores :
  diversity_pass_of scores = true <-> diversity_passed scores.
Proof.
  unfold diversity_pass_of, diversity_passed. split.
  - destruct (diversity scores) as [d|]; [|discriminate].
    destruct (diversity_pass d) as [[|]|] eqn:Hp; try discriminate.
    intros _. now exists d.
  - intros (d & -> & Hp). now rewrite Hp.
Qed.

Lemma bias_pass_of_iff scores :
  bias_pass_of scores = true <-> bias_passed scores.
Proof.
  unfold bias_pass_of, bias_passed. split.
  - destruct (bias scores) as [b|]; [|discriminate].
    destruct (bias_pass b) as [[|]|] eqn:Hp; try discriminate.
    intros _. now exists b.
  - intros (b & -> & Hp). now rewrite Hp.
Qed.

Lemma realism_pass_of_iff scores :
  realism_pass_of scores = true <-> realism_passed scores.
Proof.
  unfold realism_pass_of, realism_passed. split.
  - destruct (realism scores) as [r|]; [|discriminate].
    destruct (realism_pass r) as [[|]|] eqn:Hp; try discriminate.
    intros _. now exists r.
  - intros (r & -> & Hp). now rewrite Hp.
Qed.

(** C1: the aggregator sets is_valid to true if and only if the draft
    is not blank and the diversity, bias and realism pass flags are all
    true; on a blank draft it sets is_valid to false with the fixed
    reason at once, whatever the guardrails recorded (and whether or
    not the thresholds can be read). *)
Theorem aggregate_valid_iff :
  forall state : GlobalState,
    let review := current_review state in
    let scores := quality_scores review in
    (draft_blank (review_text review) = true ->
     aggregate_guardrails state =
       Py.Ok (set_current_review state
                (set_verdict review false (Some empty_text_reason))))
    /\ (thresholds_configured (Schema.guardrails (config state)) = true ->
        exists state',
          aggregate_guardrails state = Py.Ok state'
          /\ (is_valid (current_review state') = true <->
              draft_blank (review_text review) = false
              /\ diversity_passed scores
              /\ bias_passed scores
              /\ realism_passed scores)).
Proof.
  intros state review scores. split.
  - intros Hb. unfold aggregate_guardrails. fold review.
    rewrite early_exit_blank, Hb. reflexivity.
  - intros Hcfg. destruct (read_thresholds_ok _ Hcfg) as [th Hth].
    eexists. split; [apply (aggregate_guardrails_ok state th Hth)|].
    fold review. fold scores. cbn [current_review set_current_review].
    rewrite <- diversity_pass_of_iff, <- bias_pass_of_iff, <- realism_pass_of_iff.
    destruct (draft_blank (review_text review)).
    + cbn [is_valid set_verdict]. split; [discriminate|]. intros [H _]. discriminate.
    + destruct (diversity_pass_of scores), (bias_pass_of scores),
        (realism_pass_of scores); cbn [andb is_valid set_verdict]; split;
        try discriminate; try tauto; intros (_ & H1 & H2 & H3); discriminate.
Qed.

Lemma aggregate_valid_iff_witness :
  exists state',
    aggregate_guardrails
      (Example.state_with
         (Example.review_with (Some Example.good_text) 5
            {| diversity := Some diversity_bootstrap;
               bias := None;
               realism := Some realism_sentinel |}) [])
      = Py.Ok state'
    /\ is_valid (current_review state') = false.
Proof.
  destruct (aggregate_valid_iff
              (Example.state_with
                 (Example.review_with (Some Example.good_text) 5
                    {| diversity := Some diversity_bootstrap;
                       bias := None;
                       realism := Some realism_sentinel |}) []))
    as [_ H].
  destruct (H eq_refl) as (state' & Hrun & Hiff).
  exists state'. split; [exact Hrun|].
  destruct (is_valid (current_review state')); [|reflexivity].
  destruct Hiff as [Hiff _]. destruct (Hiff eq_refl) as (_ & _ & (b & Hb & _) & _).
  discriminate Hb.
Defined.

(** ** Rejection reasons *)

Lemma has_char_app (c : ascii) (a b : string) :
  has_char c (a ++ b) = has_char c a || has_char c b.
Proof.
  unfold has_char. induction a as [|x a IH]; [reflexivity|].
  cbn [append Py.existsb_char]. rewrite IH. apply orb_assoc.
Qed.

Lemma prefix_has_char (c : ascii) (sub s : string) :
  prefix sub s = true -> has_char c sub = true -> has_char c s = true.
Proof.
  unfold has_char. revert s. induction sub as [|x sub IH]; intros s Hp Hc.
  - discriminate Hc.
  - destruct s as [|y s]; [discriminate Hp|].
    cbn [prefix] in Hp. destruct (ascii_dec x y) as [->|]; [|discriminate Hp].
    cbn [Py.existsb_char] in *. apply orb_prop in Hc. destruct Hc as [Hc|Hc].
    + now rewrite Hc.
    + rewrite (IH s Hp Hc). apply orb_true_r.
Qed.

(** A text that lacks a character of [sub] does not contain [sub]. *)
Lemma contains_has_char (c : ascii) (sub s : string) :
  Py.contains sub s = true -> has_char c sub = true -> has_char c s = true.
Proof.
  intros Hs Hc. induction s as [|y s IH].
  - cbn [Py.contains] in Hs. rewrite orb_false_r in Hs.
    exact (prefix_has_char c sub _ Hs Hc).
  - cbn [Py.contains] in Hs. apply orb_prop in Hs. destruct Hs as [Hs|Hs].
    + exact (prefix_has_char c sub _ Hs Hc).
    + unfold has_char. cbn [Py.existsb_char]. fold (has_char c s).
      rewrite (IH Hs). apply orb_true_r.
Qed.

Lemma prefix_app (sub a b : string) :
  prefix sub a = true -> prefix sub (a ++ b) = true.
Proof.
  revert a. induction sub as [|x sub IH]; intros a H.
  - destruct (a ++ b); reflexivity.
  - destruct a as [|y a]; [discriminate H|].
    cbn [prefix append] in *. destruct (ascii_dec x y); [|discriminate H].
    now apply IH.
Qed.

Lemma contains_app_l (sub a b : string) :
  Py.contains sub a = true -> Py.contains sub (a ++ b) = true.
Proof.
  induction a as [|y a IH]; intros H.
  - cbn [Py.contains] in H. rewrite orb_false_r in H.
    destruct sub; [|discriminate H]. destruct b; reflexivity.
  - cbn [Py.contains append] in *. apply orb_prop in H. destruct H as [H|H].
    + change (String y (a ++ b)) with (String y a ++ b).
      now rewrite (prefix_app _ _ b H).
    + rewrite (IH H). apply orb_true_r.
Qed.

Lemma contains_app_r (sub a b : string) :
  Py.contains sub b = true -> Py.contains sub (a ++ b) = true.
Proof.
  intros H. induction a as [|y a IH]; [exact H|].
  cbn [Py.contains append]. rewrite IH. apply orb_true_r.
Qed.

Lemma contains_prefix (sub s : string) :
  prefix sub s = true -> Py.contains sub s = true.
Proof. intros H. destruct s; cbn [Py.contains]; now rewrite H. Qed.

(** The characters of a number printed in decimal. *)
Lemma string_of_uint_digits (c : ascii) (d : Decimal.uint) :
  has_char c (NilEmpty.string_of_uint d) = true -> Py.is_digit c = true.
Proof.
  unfold has_char.
  induction d; cbn [NilEmpty.string_of_uint Py.existsb_char]; intros H;
    try discriminate H;
    (apply orb_prop in H; destruct H as [H|H]; [|now apply IHd]);
    apply Ascii.eqb_eq in H; subst c; reflexivity.
Qed.

Lemma str_of_int_chars (c : ascii) (n : Z) :
  has_char c (Py.str_of_int n) = true ->
  Py.is_digit c = true \/ c = "-"%char.
Proof.
  assert (Huint : forall d, has_char c (NilZero.string_of_uint d) = true ->
                            Py.is_digit c = true).
  { intros d. unfold NilZero.string_of_uint.
    destruct d; try apply string_of_uint_digits.
    unfold has_char. cbn [Py.existsb_char]. rewrite orb_false_r.
    intros H. apply Ascii.eqb_eq in H. subst c. reflexivity. }
  destruct n as [|p|p]; unfold Py.str_of_int.
  - intros H. left. unfold has_char in H. cbn [Py.existsb_char] in H.
    rewrite orb_false_r in H. apply Ascii.eqb_eq in H. subst c. reflexivity.
  - intros H. left. exact (Huint _ H).
  - rewrite has_char_app. intros H. apply orb_prop in H. destruct H as [H|H].
    + right. unfold has_char in H. cbn [Py.existsb_char] in H.
      rewrite orb_false_r in H. apply Ascii.eqb_eq in H. now subst c.
    + left. exact (Huint _ H).
Qed.

(** A character that is neither a digit nor one of [.-naif] does not
    occur in a number formatted to two decimals. *)
Lemma format_2f_chars (c : ascii) (x : float) :
  Py.is_digit c = false -> has_char c ".-naif" = false ->
  has_char c (Py.format_2f x) = false.
Proof.
  intros Hd Hc.
  assert (Hint : forall n, has_char c (Py.str_of_int n) = false).
  { intros n. destruct (has_char c (Py.str_of_int n)) eqn:H; [|reflexivity].
    destruct (str_of_int_chars c n H) as [H'|H'].
    - congruence.
    - subst c. discriminate Hc. }
  assert (Hlit : forall s, has_char c s = true -> has_char c "0123456789.-naif" = true
                           -> False).
  { intros s _ H. unfold has_char in H, Hc, Hd. cbn [Py.existsb_char] in H, Hc.
    repeat (apply orb_prop in H; destruct H as [H|H];
            [apply Ascii.eqb_eq in H; subst c;
             first [discriminate Hd | discriminate Hc]|]).
    discriminate H. }
  assert (Hsub : forall s, (forall k, has_char k s = true ->
                                      has_char k "0123456789.-naif" = true) ->
                           has_char c s = false).
  { intros s H. destruct (has_char c s) eqn:E; [|reflexivity].
    destruct (Hlit s E (H c E)). }
  unfold Py.format_2f.
  destruct (Prim2SF x) as [s|s| |s m e].
  - destruct s; apply Hsub; intros k Hk; unfold has_char in *;
      cbn [Py.existsb_char] in *;
      repeat (apply orb_prop in Hk; destruct Hk as [Hk|Hk];
              [apply Ascii.eqb_eq in Hk; subst k; reflexivity|]);
      discriminate Hk.
  - destruct s; apply Hsub; intros k Hk; unfold has_char in *;
      cbn [Py.existsb_char] in *;
      repeat (apply orb_prop in Hk; destruct Hk as [Hk|Hk];
              [apply Ascii.eqb_eq in Hk; subst k; reflexivity|]);
      discriminate Hk.
  - apply Hsub; intros k Hk; unfold has_char in *;
      cbn [Py.existsb_char] in *;
      repeat (apply orb_prop in Hk; destruct Hk as [Hk|Hk];
              [apply Ascii.eqb_eq in Hk; subst k; reflexivity|]);
      discriminate Hk.
  - rewrite !has_char_app, Hint. unfold Py.two_digits.
    assert (Hdash : has_char c "-" = false).
    { apply Hsub. intros k Hk. unfold has_char in *. cbn [Py.existsb_char] in *.
      rewrite orb_false_r in Hk. apply Ascii.eqb_eq in Hk. subst k. reflexivity. }
    assert (Hdot : has_char c "." = false).
    { apply Hsub. intros k Hk. unfold has_char in *. cbn [Py.existsb_char] in *.
      rewrite orb_false_r in Hk. apply Ascii.eqb_eq in Hk. subst k. reflexivity. }
    assert (Hzero : has_char c "0" = false).
    { apply Hsub. intros k Hk. unfold has_char in *. cbn [Py.existsb_char] in *.
      rewrite orb_false_r in Hk. apply Ascii.eqb_eq in Hk. subst k. reflexivity. }
    rewrite Hdot.
    destruct s; [rewrite Hdash | replace (has_char c "") with false by reflexivity];
      match goal with |- context [if ?b then _ else _] => destruct b end;
      rewrite ?has_char_app, ?Hint, ?Hzero; reflexivity.
Qed.

Lemma contains_false (c : ascii) (sub s : string) :
  has_char c sub = true -> has_char c s = false -> Py.contains sub s = false.
Proof.
  intros Hsub Hs. destruct (Py.contains sub s) eqn:H; [|reflexivity].
  rewrite (contains_has_char c sub s H Hsub) in Hs. discriminate Hs.
Qed.

Lemma explanation_mentions scores th (g : Guardrail) :
  Py.contains (guardrail_name g) (explanation scores th g) = true.
Proof. apply contains_prefix. destruct g; reflexivity. Qed.

Lemma mark_in_name (g : Guardrail) : has_char (mark g) (guardrail_name g) = true.
Proof. destruct g; reflexivity. Qed.

Lemma str_of_bool_no_mark (g : Guardrail) (b : bool) :
  has_char (mark g) (Py.str_of_bool b) = false.
Proof. destruct g, b; reflexivity. Qed.

Lemma format_2f_no_mark (g : Guardrail) (x : float) :
  has_char (mark g) (Py.format_2f x) = false.
Proof. apply format_2f_chars; destruct g; reflexivity. Qed.

(** The explanation of a guardrail does not print the mark of another. *)
Lemma explanation_no_mark scores th (g g' : Guardrail) :
  g <> g' -> has_char (mark g) (explanation scores th g') = false.
Proof.
  intros Hne. unfold explanation.
  destruct g'; rewrite !has_char_app, ?format_2f_no_mark, ?str_of_bool_no_mark;
    destruct g; try congruence; reflexivity.
Qed.

Lemma separator_no_mark (g : Guardrail) : has_char (mark g) "; " = false.
Proof. destruct g; reflexivity. Qed.

(** The reason names a guardrail exactly when that guardrail failed. *)
Lemma reason_mentions_failing scores th (g : Guardrail) :
  Py.contains (guardrail_name g) (expected_reason scores th)
  = negb (guardrail_passed scores g).
Proof.
  assert (Hno : forall s, has_char (mark g) s = false ->
                          Py.contains (guardrail_name g) s = false)
    by (intros s; apply contains_false, mark_in_name).
  unfold expected_reason, failing, guardrails_in_order.
  destruct g; cbn [filter guardrail_passed];
    destruct (diversity_pass_of scores), (bias_pass_of scores),
      (realism_pass_of scores);
    cbn [negb map Py.join];
    first
      [ apply explanation_mentions
      | apply contains_app_l; apply explanation_mentions
      | apply contains_app_r, contains_app_r; apply explanation_mentions
      | apply contains_app_r, contains_app_r, contains_app_l;
        apply explanation_mentions
      | apply contains_app_r, contains_app_r, contains_app_r, contains_app_r;
        apply explanation_mentions
      | apply Hno; rewrite ?has_char_app, ?separator_no_mark,
          ?explanation_no_mark by discriminate; reflexivity ].
Qed.

(** C9: after aggregation the rejection reason is present if and only if
    the attempt is invalid; for an invalid attempt whose draft is not
    blank the reason is the explanations of the failing guardrails, in
    the order diversity, bias, realism, each printing the measured
    values and the configured thresholds to two decimals, joined with
    "; ", and it names a guardrail exactly when that guardrail failed. *)
Theorem rejection_reason_explains :
  forall (state : GlobalState) (th : Thresholds),
    read_thresholds (Schema.guardrails (config state)) = Py.Ok th ->
    let scores := quality_scores (current_review state) in
    exists state',
      aggregate_guardrails state = Py.Ok state'
      /\ (rejection_reason (current_review state') <> None <->
          is_valid (current_review state') = false)
      /\ (draft_blank (review_text (current_review state)) = false ->
          is_valid (current_review state') = false ->
          rejection_reason (current_review state')
            = Some (Py.join "; " (map (explanation scores th) (failing scores)))
          /\ failing scores <> []
          /\ (forall g : Guardrail,
                 In g (failing scores) <-> guardrail_passed scores g = false)
          /\ (forall g : Guardrail,
                 Py.contains (guardrail_name g)
                   (Py.join "; " (map (explanation scores th) (failing scores)))
                 = true
                 <-> guardrail_passed scores g = false)).
Proof.
  intros state th Hth scores.
  eexists. split; [apply (aggregate_guardrails_ok state th Hth)|].
  fold scores. cbn [current_review set_current_review].
  destruct (draft_blank (review_text (current_review state))).
  - cbn [rejection_reason is_valid set_verdict]. split.
    + split; [reflexivity | discriminate].
    + discriminate.
  - destruct (diversity_pass_of scores && bias_pass_of scores
              && realism_pass_of scores) eqn:Hall;
      cbn [rejection_reason is_valid set_verdict].
    + split; [split; [congruence | discriminate] | discriminate].
    + split; [split; [reflexivity | discriminate]|].
      intros _ _. split; [reflexivity|].
      assert (Hin : forall g, In g (failing scores)
                              <-> guardrail_passed scores g = false).
      { intros g. unfold failing. rewrite filter_In, negb_true_iff.
        split; [tauto|]. intros H. split; [|exact H].
        destruct g; cbn; tauto. }
      split; [|split; [exact Hin|]].
      * intros Hnil.
        assert (Hd : guardrail_passed scores Diversity = true)
          by (destruct (guardrail_passed scores Diversity) eqn:E; [reflexivity|];
              apply Hin in E; rewrite Hnil in E; destruct E).
        assert (Hb : guardrail_passed scores Bias = true)
          by (destruct (guardrail_passed scores Bias) eqn:E; [reflexivity|];
              apply Hin in E; rewrite Hnil in E; destruct E).
        assert (Hr : guardrail_passed scores Realism = true)
          by (destruct (guardrail_passed scores Realism) eqn:E; [reflexivity|];
              apply Hin in E; rewrite Hnil in E; destruct E).
        cbn [guardrail_passed] in Hd, Hb, Hr.
        rewrite Hd, Hb, Hr in Hall. discriminate Hall.
      * intros g. fold (expected_reason scores th).
        rewrite reason_mentions_failing. apply negb_true_iff.
Qed.

Lemma rejection_reason_explains_witness :
  exists state',
    aggregate_guardrails Example.some_fail_state = Py.Ok state'
    /\ (rejection_reason (current_review state') <> None <->
        is_valid (current_review state') = false)
    /\ rejection_reason (current_review state')
       = Some "Bias FAILED: sentiment_aligned=True, sentiment_compound=0.00, z_score=3.00 (threshold: 2.00)".
Proof.
  destruct (rejection_reason_explains Example.some_fail_state
              Example.test_thresholds eq_refl)
    as (state' & Hrun & Hiff & Hreason).
  exists state'. split; [exact Hrun|]. split; [exact Hiff|].
  assert (Hinv : is_valid (current_review state') = false).
  { vm_compute in Hrun. injection Hrun as <-. reflexivity. }
  destruct (Hreason eq_refl Hinv) as [-> _]. vm_compute. reflexivity.
Defined.

(** ** Realism guardrail *)

(** The selection loop returns the first model that is a groq model or
    an openai gpt model, whichever kind it is. *)
Lemma validation_model_of_find (models : list Schema.ModelConfig) :
  validation_model_of models = find (fun m => is_groq m || is_openai_gpt m) models.
Proof.
  induction models as [|m rest IH]; [reflexivity|].
  cbn [validation_model_of find]. unfold is_groq at 1, is_openai_gpt at 1.
  destruct (String.eqb (Schema.provider m) "groq"); [reflexivity|].
  cbn [orb].
  destruct (String.eqb (Schema.provider m) "openai"
            && Py.contains "gpt" (Py.lower (Schema.model m))); [reflexivity|].
  exact IH.
Qed.

(** C7, what the selection loop does: with an openai gpt model listed
    before a groq model, the judge is the openai model, although the
    configuration contains a groq model.  In general the loop takes the
    first model of either preferred kind. *)
Theorem judge_is_first_preferred_model :
  (forall models : list Schema.ModelConfig,
      validation_model_of models
      = find (fun m => is_groq m || is_openai_gpt m) models)
  /\ select_validation_model [Example.openai_model; Example.groq_model]
     = Py.Ok Example.openai_model
  /\ is_groq Example.groq_model = true
  /\ is_groq Example.openai_model = false.
Proof.
  split; [exact validation_model_of_find|]. repeat split.
Qed.

Lemma search_none_all (response : string) :
  (forall p, In p patterns -> Re.search p response = None) ->
  parse_realism_score response = Py.Ok 0.5%float.
Proof.
  intros H. unfold parse_realism_score, patterns in *.
  cbn [parse_with].
  rewrite (H Re.match_score), (H Re.match_decimal), (H Re.match_digit);
    cbn [In]; auto.
Qed.

Lemma unusable_judge_score (E : Env) (t : nat) (vm : Schema.ModelConfig)
    (prompt text domain : string) (provider : LLMProvider) :
  create_provider E vm = Py.Ok provider ->
  unusable (generate E t (provider_config provider) prompt 0.1%float (Some 100))
    = true ->
  judge_score E t vm prompt text domain = heuristic_realism_score text domain.
Proof.
  intros Hp Hu. unfold judge_score. rewrite Hp.
  destruct (generate E t (provider_config provider) prompt 0.1%float (Some 100))
    as [[| response |] seconds | msg]; try reflexivity.
  cbn [unusable] in Hu. rewrite <- (negb_involutive (whitespace_only response)) in Hu.
  rewrite <- strip_truthy in Hu. apply negb_true_iff in Hu. rewrite Hu.
  rewrite andb_false_r. reflexivity.
Qed.

Lemma check_realism_nonempty (E : Env) (t : nat) (state : GlobalState)
    (text : string) (vm : Schema.ModelConfig) (threshold : float) :
  review_text (current_review state) = Some text ->
  text <> "" ->
  select_validation_model (Schema.models (config state)) = Py.Ok vm ->
  getitem (Schema.realism (Schema.guardrails (config state)))
    "realism_score_threshold" = Py.Ok threshold ->
  let score :=
    judge_score E t vm
      (build_realism_prompt (Schema.domain (config state)) text
         (persona (current_review state)))
      text (Schema.domain (config state)) in
  check_realism E t state =
    Py.Ok (set_current_review state
             (set_scores (current_review state)
                (set_realism (quality_scores (current_review state))
                   {| realism_score := Some score;
                      realism_pass := Some (threshold <=? score)%float |})
                (elapsed E t))).
Proof.
  intros Htext Hne Hvm Hthr. unfold check_realism.
  rewrite Htext, (truthy_opt_some text Hne), Hvm. cbn [negb Py.bind].
  rewrite Hthr. reflexivity.
Qed.

(** C6, in the form the code satisfies: when the judge's response is not blank and none of
    the three patterns matches it, the realism score is the default 0.5
    of [parse_realism_score], not the heuristic; the heuristic score of
    the draft is used when the judge cannot be called or gives no usable
    response (the call raises, or returns nothing, a non-string or a
    blank string). *)
Theorem realism_score_without_number :
  forall (E : Env) (t : nat) (state : GlobalState) (text : string)
         (vm : Schema.ModelConfig) (threshold : float),
    review_text (current_review state) = Some text ->
    text <> "" ->
    select_validation_model (Schema.models (config state)) = Py.Ok vm ->
    getitem (Schema.realism (Schema.guardrails (config state)))
      "realism_score_threshold" = Py.Ok threshold ->
    let domain := Schema.domain (config state) in
    let prompt := build_realism_prompt domain text (persona (current_review state)) in
    exists state' r score,
      check_realism E t state = Py.Ok state'
      /\ realism (quality_scores (current_review state')) = Some r
      /\ realism_score r = Some score
      /\ realism_pass r = Some (threshold <=? score)%float
      /\ (forall provider response seconds,
             create_provider E vm = Py.Ok provider ->
             generate E t (provider_config provider) prompt 0.1%float (Some 100)
               = Returned (Py.PyStr response) seconds ->
             whitespace_only response = false ->
             (forall p, In p patterns -> Re.search p response = None) ->
             score = 0.5%float)
      /\ (forall provider,
             create_provider E vm = Py.Ok provider ->
             unusable (generate E t (provider_config provider) prompt
                         0.1%float (Some 100)) = true ->
             score = heuristic_realism_score text domain)
      /\ (forall e,
             create_provider E vm = Py.Raise e ->
             score = heuristic_realism_score text domain).
Proof.
  intros E t state text vm threshold Htext Hne Hvm Hthr domain prompt.
  eexists _, _, _. split.
  - apply (check_realism_nonempty E t state text vm threshold Htext Hne Hvm Hthr).
  - cbn [current_review set_current_review quality_scores set_scores realism
         set_realism realism_score realism_pass].
    split; [reflexivity|]. split; [reflexivity|]. split; [reflexivity|].
    fold domain. fold prompt. split; [|split].
    + intros provider response seconds Hp Hg Hw Hnone.
      unfold judge_score. rewrite Hp, Hg.
      assert (Hs : Py.truthy (Py.strip response) = true)
        by (rewrite strip_truthy, Hw; reflexivity).
      assert (Hr : Py.truthy response = true)
        by (destruct response; [discriminate Hw | reflexivity]).
      rewrite Hs, Hr, (search_none_all response Hnone). reflexivity.
    + intros provider Hp Hu. exact (unusable_judge_score E t vm _ _ _ provider Hp Hu).
    + intros e Hp. unfold judge_score. rewrite Hp. reflexivity.
Qed.

Lemma realism_score_without_number_witness :
  exists state' r score,
    check_realism Example.world_wordy_judge 4 Example.short_draft_state
      = Py.Ok state'
    /\ realism (quality_scores (current_review state')) = Some r
    /\ realism_score r = Some score
    /\ score = 0.5%float.
Proof.
  destruct (realism_score_without_number Example.world_wordy_judge 4
              Example.short_draft_state "Great app" Example.openai_model
              0.7%float eq_refl)
    as (state' & r & score & Hrun & Hr & Hs & _ & Hdefault & _).
  - discriminate.
  - reflexivity.
  - reflexivity.
  - exists state', r, score. repeat (split; [assumption|]).
    apply (Hdefault {| provider_config := Example.openai_model; api_key := "key" |}
             "no idea" 0.2%float); try reflexivity.
    intros p [<- | [<- | [<- | []]]]; reflexivity.
Defined.

(** C6, counterexample to the heuristic reading: the judge answers "no idea", which
    none of the three patterns matches, and the realism score recorded
    for the draft "Great app" is 0.5, whereas the heuristic score of
    that draft is 0.6. *)
Lemma wordy_judge_scores_default :
  (forall p, In p patterns -> Re.search p "no idea" = None)
  /\ (exists state' r,
        check_realism Example.world_wordy_judge 4 Example.short_draft_state
          = Py.Ok state'
        /\ realism (quality_scores (current_review state')) = Some r
        /\ realism_score r = Some 0.5%float
        /\ realism_score r
           <> Some (heuristic_realism_score "Great app" "Test Domain")).
Proof.
  split.
  - intros p [<- | [<- | [<- | []]]]; reflexivity.
  - eexists _, _. split; [vm_compute; reflexivity|].
    split; [reflexivity|]. split; [reflexivity|].
    cbn [realism_score]. intros H.
    apply (f_equal (fun o => (get o 0 <? 0.55)%float)) in H.
    vm_compute in H. discriminate H.
Qed.

(** ** The controller *)

Lemma next_node_spec (n : Node) (s : GlobalState) :
  next_node n s = Py.Ok (successor n s, printed n s).
Proof.
  destruct n; try reflexivity.
  - unfold next_node, successor, retries_left. cbn [edges]. cbv beta iota.
    unfold route_after_aggregation, should_retry.
    destruct (is_valid (current_review s)); [reflexivity|].
    destruct (retry_count (current_review s)
              <? Schema.max_retries (Schema.guardrails (config s))); reflexivity.
  - unfold next_node. cbn [edges].
    unfold successor, printed, check_continue, should_continue, finishes,
      accepted_total, finalized_total.
    destruct (target_size s <=? Z.of_nat (List.length (accepted_reviews s)));
      [reflexivity|].
    destruct (target_size s * 10
              <? Z.of_nat (List.length (accepted_reviews s))
                 + Z.of_nat (List.length (rejected_reviews s))); reflexivity.
  - unfold next_node. cbn [edges].
    unfold successor, printed, check_continue, should_continue, finishes,
      accepted_total, finalized_total.
    destruct (target_size s <=? Z.of_nat (List.length (accepted_reviews s)));
      [reflexivity|].
    destruct (target_size s * 10
              <? Z.of_nat (List.length (accepted_reviews s))
                 + Z.of_nat (List.length (rejected_reviews s))); reflexivity.
Qed.

(** A step whose node function returns follows the transition table. *)
Lemma step_spec (E : Env) (r : Run) (state' : GlobalState) :
  node_function E (List.length (trace r)) (node r) (state r) = Py.Ok state' ->
  step E r = Py.Ok {| node := successor (node r) state';
                      state := state';
                      trace := trace r ++ [node r];
                      stderr := stderr r ++ printed (node r) state' |}.
Proof.
  intros H. unfold step. rewrite H. cbn [Py.bind].
  rewrite next_node_spec. reflexivity.
Qed.

(** A step succeeds exactly when its node function returns. *)
Lemma step_inv (E : Env) (r r' : Run) :
  step E r = Py.Ok r' ->
  node_function E (List.length (trace r)) (node r) (state r) = Py.Ok (state r')
  /\ node r' = successor (node r) (state r')
  /\ trace r' = (trace r ++ [node r])%list
  /\ stderr r' = (stderr r ++ printed (node r) (state r'))%list.
Proof.
  intros H.
  destruct (node_function E (List.length (trace r)) (node r) (state r))
    as [state'|e] eqn:Hn.
  - rewrite (step_spec E r state' Hn) in H. injection H as <-. repeat split.
  - unfold step in H. rewrite Hn in H. discriminate H.
Qed.

Lemma steps_after_empty_draft (E : Env) (r : Run) :
  node r = diversity_check ->
  review_text (current_review (state r)) = None ->
  steps E 4 r = Py.Ok (after_empty_scoring (elapsed E) r).
Proof.
  destruct r as [n s tr err]. cbn [node state]. intros -> Htext.
  destruct s as [acc rej met review cfg target fb].
  destruct review as [per rat mid text qs valid reason gt et rc].
  cbn [current_review review_text] in Htext. subst text.
  unfold steps.
  erewrite step_spec by reflexivity. cbn [Py.bind].
  erewrite step_spec by reflexivity. cbn [Py.bind].
  erewrite step_spec by reflexivity. cbn [Py.bind].
  erewrite step_spec by reflexivity. cbn [Py.bind].
  unfold after_empty_scoring.
  cbn [node state trace stderr successor printed current_review retry_count
       set_current_review set_scores set_verdict quality_scores is_valid
       evaluation_time review_text persona rating model_id generation_time
       rejection_reason set_diversity set_bias set_realism diversity bias realism
       config retries_left].
  rewrite !length_app. cbn [List.length].
  rewrite !Nat.add_1_r, !app_nil_r, <- !app_assoc. reflexivity.
Qed.

(** Drafting leaves no text exactly when the provider call gave no
    usable one. *)
Lemma generate_review_text (E : Env) (t : nat) (state : GlobalState)
    (provider_name model_name : string) (m : Schema.ModelConfig)
    (provider : LLMProvider) :
  split_colon (model_id (current_review state)) = Some (provider_name, model_name) ->
  find_model (Schema.models (config state)) provider_name model_name = Some m ->
  create_provider E m = Py.Ok provider ->
  exists state',
    generate_review E t state = Py.Ok state'
    /\ (review_text (current_review state') = None <->
        unusable
          (generate E t (provider_config provider)
             (build_prompt (Schema.domain (config state))
                (persona (current_review state)) (rating (current_review state))
                (Schema.review_characteristics (config state)) (feedback state))
             (Schema.temperature m) (Schema.max_tokens m)) = true).
Proof.
  intros Hsplit Hfind Hprov. unfold generate_review.
  rewrite Hsplit, Hfind, Hprov. cbn [Py.bind].
  eexists. split; [reflexivity|].
  cbn [current_review set_current_review].
  match goal with
  | |- context [generate E t ?c ?p ?x ?y] => destruct (generate E t c p x y)
      as [[| response |] seconds | msg]
  end; cbn [unusable review_text set_generation_failure]; try tauto.
  rewrite strip_truthy, negb_involutive.
  destruct (whitespace_only response);
    cbn [review_text set_generation_failure set_generated_text];
    split; congruence.
Qed.

(** C8, in the form the code satisfies: an attempt whose drafting failed is not routed
    past the scorers.  The step after drafting is the diversity check;
    the three scorers run in order, each on its empty-draft path, which
    records its failing sentinel and adds its running time without
    consulting sentiment, embeddings or the judge; then the aggregator's
    empty-text test marks the attempt invalid with the fixed reason and
    the attempt is routed to a retry or to rejection. *)
Theorem failed_draft_still_scored :
  forall (E : Env) (r r1 : Run),
    node r = generate_node ->
    step E r = Py.Ok r1 ->
    review_text (current_review (state r1)) = None ->
    node r1 = diversity_check
    /\ exists r5,
        steps E 4 r1 = Py.Ok r5
        /\ trace r5 = (trace r ++ [generate_node; diversity_check; bias_check;
                                   realism_check; aggregate])%list
        /\ quality_scores (current_review (state r5)) = sentinel_scores
        /\ is_valid (current_review (state r5)) = false
        /\ rejection_reason (current_review (state r5)) = Some empty_text_reason
        /\ (node r5 = prepare_retry \/ node r5 = reject)
        /\ (forall E' : Env,
               (forall k, elapsed E' k = elapsed E k) ->
               steps E' 4 r1 = Py.Ok r5).
Proof.
  intros E r r1 Hnode Hstep Htext.
  destruct (step_inv E r r1 Hstep) as (_ & Hn1 & Htr & _).
  rewrite Hnode in Hn1, Htr. cbn [successor] in Hn1.
  split; [exact Hn1|].
  exists (after_empty_scoring (elapsed E) r1). split.
  - exact (steps_after_empty_draft E r1 Hn1 Htext).
  - unfold after_empty_scoring.
    cbn [trace state node set_current_review current_review quality_scores
         is_valid rejection_reason].
    split; [rewrite Htr, <- app_assoc; reflexivity|].
    split; [reflexivity|]. split; [reflexivity|]. split; [reflexivity|].
    split; [destruct (retries_left (state r1)); auto|].
    intros E' Hclock. rewrite (steps_after_empty_draft E' r1 Hn1 Htext).
    unfold after_empty_scoring. rewrite !Hclock. reflexivity.
Qed.

Lemma failed_draft_still_scored_witness :
  exists r1 r5,
    step Example.world_down
      {| node := generate_node;
         state := Example.state_with
                    (Example.review_with None 5 Example.no_scores) [];
         trace := [sample];
         stderr := [] |} = Py.Ok r1
    /\ node r1 = diversity_check
    /\ steps Example.world_down 4 r1 = Py.Ok r5
    /\ quality_scores (current_review (state r5)) = sentinel_scores.
Proof.
  eexists _. 
  destruct (failed_draft_still_scored Example.world_down
              {| node := generate_node;
                 state := Example.state_with
                            (Example.review_with None 5 Example.no_scores) [];
                 trace := [sample];
                 stderr := [] |} _ eq_refl eq_refl eq_refl)
    as (Hn & r5 & Hrun & _ & Hq & _).
  exists r5. split; [reflexivity|]. split; [exact Hn|]. split; assumption.
Defined.

(** C8, counterexample to the bypass: with the provider down, the first
    attempt's draft fails, and the run goes on through the diversity,
    bias and realism checks before it reaches the aggregator; each of
    them has recorded a score and charged its time. *)
Lemma failed_draft_is_not_routed_past_scorers :
  exists r2 r6,
    steps Example.world_down 2 (start (Example.initial_state Example.test_config 1))
      = Py.Ok r2
    /\ trace r2 = [sample; generate_node]
    /\ review_text (current_review (state r2)) = None
    /\ node r2 = diversity_check
    /\ node r2 <> aggregate
    /\ steps Example.world_down 4 r2 = Py.Ok r6
    /\ trace r6 = [sample; generate_node; diversity_check; bias_check;
                   realism_check; aggregate]
    /\ quality_scores (current_review (state r6)) = sentinel_scores
    /\ evaluation_time (current_review (state r6)) = 0.75%float.
Proof.
  eexists _, _. split; [vm_compute; reflexivity|].
  split; [reflexivity|]. split; [reflexivity|]. split; [reflexivity|].
  split; [discriminate|]. split; [vm_compute; reflexivity|].
  split; [reflexivity|]. split; reflexivity.
Qed.

Lemma Ok_inj {A : Type} (a b : A) : Py.Ok a = Py.Ok b -> a = b.
Proof. intros H. injection H. auto. Qed.

(** Opens a hypothesis that a computation in the error monad returned. *)
Ltac returned H :=
  repeat match type of H with
    | Py.bind ?c _ = Py.Ok _ =>
        let x := fresh "x" in
        destruct c as [x|] eqn:?; cbn [Py.bind] in H; [|discriminate H]
    | (if ?b then _ else _) = Py.Ok _ => destruct b eqn:?
    | match ?x with _ => _ end = Py.Ok _ => destruct x eqn:?; try discriminate H
    end;
  try (apply Ok_inj in H; subst).

(** What a node does to the fields the controller reads: the
    configuration and the target stay, the retry count is reset by
    [sample] and incremented by [prepare_retry], and the accepted and
    rejected lists grow by the current review in [accept] and
    [reject]. *)
Lemma node_effect (E : Env) (t : nat) (n : Node) (s s' : GlobalState) :
  node_function E t n s = Py.Ok s' ->
  config s' = config s
  /\ target_size s' = target_size s
  /\ retry_count (current_review s')
     = match n with
       | sample => 0
       | prepare_retry => retry_count (current_review s) + 1
       | _ => retry_count (current_review s)
       end
  /\ accepted_reviews s'
     = match n with
       | accept => (accepted_reviews s ++ [current_review s])%list
       | _ => accepted_reviews s
       end
  /\ rejected_reviews s'
     = match n with
       | reject => (rejected_reviews s ++ [current_review s])%list
       | _ => rejected_reviews s
       end.
Proof.
  destruct n; cbn [node_function]; intros H.
  - unfold sample_persona_and_rating in H. returned H. repeat split.
  - unfold generate_review in H. returned H. repeat split.
    cbn [current_review set_current_review].
    match goal with
    | |- context [generate E t ?c ?p ?x ?y] => destruct (generate E t c p x y)
        as [[| response |] seconds | msg]
    end; try reflexivity.
    destruct (negb (Py.truthy (Py.strip response))); reflexivity.
  - unfold check_diversity in H. returned H; repeat split.
  - unfold check_bias in H. returned H; repeat split.
  - unfold check_realism in H. returned H; repeat split.
  - unfold aggregate_guardrails in H. returned H; repeat split.
  - unfold accept_review in H. returned H. repeat split.
  - unfold reject_review in H. returned H. repeat split.
  - unfold prepare_regeneration in H. returned H. repeat split.
  - returned H. repeat split.
Qed.

Lemma step_effect (E : Env) (r r' : Run) :
  step E r = Py.Ok r' ->
  node r' = successor (node r) (state r')
  /\ trace r' = (trace r ++ [node r])%list
  /\ config (state r') = config (state r)
  /\ target_size (state r') = target_size (state r)
  /\ retry_count (current_review (state r'))
     = match node r with
       | sample => 0
       | prepare_retry => retry_count (current_review (state r)) + 1
       | _ => retry_count (current_review (state r))
       end
  /\ finalized_total (state r')
     = finalized_total (state r)
       + match node r with accept | reject => 1 | _ => 0 end
  /\ accepted_total (state r') <= finalized_total (state r').
Proof.
  intros H. destruct (step_inv E r r' H) as (Hf & Hn & Ht & _).
  destruct (node_effect E _ _ _ _ Hf) as (Hc & Hg & Hr & Ha & Hj).
  repeat (split; [assumption|]).
  unfold finalized_total, accepted_total. rewrite Ha, Hj.
  destruct (node r); rewrite ?length_app; cbn [List.length]; lia.
Qed.

(** Each step lowers the budget. *)
Lemma steps_to_go_decreases (E : Env) (r r' : Run) :
  retry_allowed r ->
  node r <> END ->
  step E r = Py.Ok r' ->
  (steps_to_go r' < steps_to_go r)%nat /\ retry_allowed r'.
Proof.
  intros Hallowed Hend Hstep.
  destruct (step_effect E r r' Hstep) as (Hn & _ & Hc & Hg & Hr & Hf & _).
  unfold retry_allowed in *.
  unfold steps_to_go, attempts_left, attempt_weight, stage_rank, retry_budget,
    max_retries_of in *.
  rewrite Hn, Hc, Hg, Hf, Hr. clear Hn Hf Hr.
  set (W := (7 * Z.to_nat (Schema.max_retries (Schema.guardrails (config (state r))))
             + 10)%nat).
  destruct (node r) eqn:Hnode; try (now destruct Hend);
    cbn [successor]; unfold retries_left, finishes; rewrite ?Hc, ?Hg.
  - split; [lia | discriminate].
  - split; [rewrite Z.add_0_r; lia | discriminate].
  - split; [rewrite Z.add_0_r; lia | discriminate].
  - split; [rewrite Z.add_0_r; lia | discriminate].
  - split; [rewrite Z.add_0_r; lia | discriminate].
  - rewrite Z.add_0_r.
    destruct (is_valid (current_review (state r'))); [split; [lia|discriminate]|].
    destruct (_ <? _) eqn:Hlt; [apply Z.ltb_lt in Hlt|]; split;
      try lia; try discriminate.
    intros _. destruct (step_effect E r r' Hstep) as (_ & _ & _ & _ & Hr' & _).
    rewrite Hnode in Hr'. lia.
  - destruct (step_effect E r r' Hstep) as (_ & _ & _ & _ & _ & Hf & _).
    rewrite Hnode in Hf. rewrite Hf.
    set (a := Z.to_nat (target_size (state r) * 10 - finalized_total (state r))).
    set (a' := Z.to_nat (target_size (state r) * 10
                         - (finalized_total (state r) + 1))).
    destruct (_ || _) eqn:Hfin.
    + split; [|discriminate].
      assert (Hle : (a' <= a)%nat) by (unfold a, a'; lia).
      pose proof (Nat.mul_le_mono_r a' a W Hle). lia.
    + split; [|discriminate].
      apply orb_false_elim in Hfin. destruct Hfin as [_ Hfin].
      apply Z.ltb_ge in Hfin.
      assert (Ha : a = S a') by (unfold a, a'; lia).
      rewrite Ha, Nat.mul_succ_l. unfold W. lia.
  - destruct (step_effect E r r' Hstep) as (_ & _ & _ & _ & _ & Hf & _).
    rewrite Hnode in Hf. rewrite Hf.
    set (a := Z.to_nat (target_size (state r) * 10 - finalized_total (state r))).
    set (a' := Z.to_nat (target_size (state r) * 10
                         - (finalized_total (state r) + 1))).
    destruct (_ || _) eqn:Hfin.
    + split; [|discriminate].
      assert (Hle : (a' <= a)%nat) by (unfold a, a'; lia).
      pose proof (Nat.mul_le_mono_r a' a W Hle). lia.
    + split; [|discriminate].
      apply orb_false_elim in Hfin. destruct Hfin as [_ Hfin].
      apply Z.ltb_ge in Hfin.
      assert (Ha : a = S a') by (unfold a, a'; lia).
      rewrite Ha, Nat.mul_succ_l. unfold W. lia.
  - specialize (Hallowed eq_refl). split; [rewrite Z.add_0_r; lia | discriminate].
Qed.

Lemma run_unfold (E : Env) (fuel : nat) (r : Run) :
  run E fuel r =
    match node r with
    | END => Finished r
    | _ =>
        match fuel with
        | O => RecursionLimit r
        | S fuel' =>
            match step E r with
            | Py.Ok r' => run E fuel' r'
            | Py.Raise e => Raised e r
            end
        end
    end.
Proof. destruct fuel; reflexivity. Qed.

Lemma run_at_end (E : Env) (fuel : nat) (r : Run) :
  node r = END -> run E fuel r = Finished r.
Proof. intros H. rewrite run_unfold, H. reflexivity. Qed.

Lemma run_not_end (E : Env) (fuel : nat) (r : Run) :
  node r <> END ->
  run E (S fuel) r =
    match step E r with
    | Py.Ok r' => run E fuel r'
    | Py.Raise e => Raised e r
    end.
Proof. intros H. rewrite run_unfold. destruct (node r); try reflexivity. now destruct H. Qed.

Lemma reaches_first (E : Env) (r r1 r' : Run) :
  node r <> END -> step E r = Py.Ok r1 -> reaches E r1 r' -> reaches E r r'.
Proof.
  intros Hend Hstep H. induction H as [|x y Hxy IH Hx Hy].
  - exact (reaches_step E r r r1 (reaches_here E r) Hend Hstep).
  - exact (reaches_step E r x y IH Hx Hy).
Qed.

(** Where a run halts is a configuration it passed through. *)
Lemma run_reaches (E : Env) (fuel : nat) (r : Run) :
  match run E fuel r with
  | Finished r' => reaches E r r' /\ node r' = END
  | Raised e r' => reaches E r r' /\ node r' <> END /\ step E r' = Py.Raise e
  | RecursionLimit r' => reaches E r r' /\ node r' <> END
  end.
Proof.
  revert r. induction fuel as [|fuel IH]; intros r.
  - rewrite run_unfold. destruct (node r) eqn:Hn;
      try (split; [apply reaches_here | congruence]).
  - destruct (node r) eqn:Hn;
      try (rewrite run_at_end by assumption; split; [apply reaches_here | assumption]).
    all: assert (Hend : node r <> END) by congruence.
    all: rewrite (run_not_end E fuel r Hend).
    all: destruct (step E r) as [r1|e] eqn:Hstep;
      [|split; [apply reaches_here | split; first [assumption | reflexivity]]].
    all: specialize (IH r1); destruct (run E fuel r1) as [r'|e r'|r'].
    all: intuition (eauto using reaches_first).
Qed.

(** A property kept by every step holds all along a run. *)
Lemma reaches_invariant (E : Env) (P : Run -> Prop) (r0 r : Run) :
  (forall x y, P x -> node x <> END -> step E x = Py.Ok y -> P y) ->
  P r0 -> reaches E r0 r -> P r.
Proof.
  intros Hstep H0 H. induction H as [|x y Hxy IH Hx Hy]; [exact H0|].
  exact (Hstep x y IH Hx Hy).
Qed.

Lemma retry_allowed_start (s : GlobalState) : retry_allowed (start s).
Proof. unfold retry_allowed, start. cbn [node]. discriminate. Qed.

Lemma steps_to_go_positive (r : Run) :
  retry_allowed r -> node r <> END -> (1 <= steps_to_go r)%nat.
Proof.
  unfold retry_allowed, steps_to_go, stage_rank, retry_budget. intros Ha Hend.
  destruct (node r); try lia.
  - specialize (Ha eq_refl). lia.
  - now destruct Hend.
Qed.

(** A run never uses up a limit of at least its budget. *)
Lemma run_within_budget (E : Env) (fuel : nat) (r : Run) :
  retry_allowed r ->
  (steps_to_go r <= fuel)%nat ->
  match run E fuel r with
  | RecursionLimit _ => False
  | _ => True
  end.
Proof.
  revert r. induction fuel as [|fuel IH]; intros r Ha Hb;
    (assert (Hcases : node r = END \/ node r <> END)
      by (destruct (node r); auto; right; discriminate));
    destruct Hcases as [Hend|Hend];
    try (rewrite run_at_end by assumption; exact I).
  - pose proof (steps_to_go_positive r Ha Hend). lia.
  - rewrite (run_not_end E fuel r Hend).
    destruct (step E r) as [r1|e] eqn:Hstep; [|exact I].
    destruct (steps_to_go_decreases E r r1 Ha Hend Hstep) as [Hlt Ha1].
    apply IH; [exact Ha1 | lia].
Qed.

Lemma within_valve_step (E : Env) (r0 x y : Run) :
  within_valve r0 x -> node x <> END -> step E x = Py.Ok y -> within_valve r0 y.
Proof.
  unfold within_valve. intros [Ht Hb] Hend Hstep.
  destruct (step_effect E x y Hstep) as (Hn & _ & _ & Hg & _ & Hf & _).
  split; [congruence|]. rewrite Hf, Hn.
  destruct (node x) eqn:Hx; cbn [successor]; try lia; try (now destruct Hend).
  - destruct (is_valid _); [lia|]. destruct (retries_left _); lia.
  - unfold finishes. destruct (_ || _) eqn:Hfin; [lia|].
    apply orb_false_elim in Hfin. destruct Hfin as [_ Hfin].
    apply Z.ltb_ge in Hfin. rewrite Hf, Hg, Ht in Hfin. lia.
  - unfold finishes. destruct (_ || _) eqn:Hfin; [lia|].
    apply orb_false_elim in Hfin. destruct Hfin as [_ Hfin].
    apply Z.ltb_ge in Hfin. rewrite Hf, Hg, Ht in Hfin. lia.
Qed.

Lemma within_valve_here (r0 : Run) : within_valve r0 r0.
Proof. unfold within_valve. split; [reflexivity|]. destruct (node r0); lia. Qed.

Lemma last_step (E : Env) (r0 r' : Run) :
  reaches E r0 r' -> node r0 <> END -> node r' = END ->
  exists r, node r <> END /\ step E r = Py.Ok r'.
Proof.
  intros H H0 H'. destruct H as [|r r' _ Hr Hstep].
  - now destruct H0.
  - now exists r.
Qed.

(** The step that ends a run is a continuation check that finished:
    the target was reached, or the safety valve printed its warning. *)
Lemma finish_reason (E : Env) (r r' : Run) :
  step E r = Py.Ok r' -> node r' = END -> node r <> END ->
  target_size (state r') <= accepted_total (state r')
  \/ (accepted_total (state r') < target_size (state r')
      /\ target_size (state r') * 10 < finalized_total (state r')
      /\ stderr r' = (stderr r ++ [safety_warning_of (state r')])%list).
Proof.
  intros Hstep Hend' Hend.
  destruct (step_inv E r r' Hstep) as (_ & Hn & _ & Herr).
  rewrite Hend' in Hn.
  assert (Hcheck : finishes (state r') = true
                   /\ printed (node r) (state r') = snd (should_continue (state r'))).
  { destruct (node r); cbn [successor] in Hn; try discriminate Hn;
      try (now destruct Hend).
    - destruct (is_valid _); [discriminate Hn|].
      destruct (retries_left _); discriminate Hn.
    - destruct (finishes (state r')); [split; reflexivity | discriminate Hn].
    - destruct (finishes (state r')); [split; reflexivity | discriminate Hn]. }
  destruct Hcheck as [Hfin Hprinted]. rewrite Hprinted in Herr.
  unfold finishes, accepted_total, finalized_total in Hfin.
  unfold should_continue in Herr.
  unfold safety_warning_of, accepted_total, finalized_total.
  destruct (target_size (state r')
            <=? Z.of_nat (List.length (accepted_reviews (state r')))) eqn:Hacc.
  - left. now apply Z.leb_le.
  - right. cbn [orb] in Hfin. rewrite Hfin in Herr.
    apply Z.leb_gt in Hacc. apply Z.ltb_lt in Hfin.
    repeat split; assumption.
Qed.

(** The continuation check finishes exactly on its two conditions. *)
Lemma should_continue_finish_iff (s : GlobalState) :
  (fst (should_continue s) = "finish" <->
   target_size s <= accepted_total s \/ target_size s * 10 < finalized_total s)
  /\ (fst (should_continue s) <> "finish" -> fst (should_continue s) = "continue").
Proof.
  unfold should_continue, accepted_total, finalized_total.
  destruct (target_size s <=? Z.of_nat (List.length (accepted_reviews s))) eqn:Ha;
    [apply Z.leb_le in Ha | apply Z.leb_gt in Ha].
  - cbn [fst]. split; [split; auto | congruence].
  - destruct (target_size s * 10
              <? Z.of_nat (List.length (accepted_reviews s))
                 + Z.of_nat (List.length (rejected_reviews s))) eqn:Hb;
      [apply Z.ltb_lt in Hb | apply Z.ltb_ge in Hb]; cbn [fst].
    + split; [split; auto | congruence].
    + split; [split; [discriminate | lia] | reflexivity].
Qed.

(** The safety valve ends the run with a warning on the standard error
    stream and the label "finish": nothing is raised. *)
Lemma safety_valve_warns (s : GlobalState) :
  accepted_total s < target_size s ->
  target_size s * 10 < finalized_total s ->
  should_continue s = ("finish", [safety_warning_of s])
  /\ next_node accept s = Py.Ok (END, [safety_warning_of s])
  /\ next_node reject s = Py.Ok (END, [safety_warning_of s]).
Proof.
  intros Ha Hb.
  assert (Hs : should_continue s = ("finish", [safety_warning_of s])).
  { unfold should_continue, safety_warning_of, accepted_total, finalized_total in *.
    apply Z.leb_gt in Ha. apply Z.ltb_lt in Hb. now rewrite Ha, Hb. }
  split; [exact Hs|].
  unfold next_node. cbn [edges]. unfold check_continue. rewrite Hs.
  split; reflexivity.
Qed.

(** A run from the entry point under a limit of at least its budget
    halts by itself; what it finalized is bounded by the safety valve;
    and when it finishes, the target was reached or the valve printed
    its warning as the last line. *)
Lemma invoke_halts (E : Env) (s0 : GlobalState) (limit : nat) :
  (step_budget s0 <= limit)%nat ->
  match invoke E limit s0 with
  | Finished r =>
      node r = END
      /\ finalized_total (state r)
         <= Z.max (finalized_total s0) (target_size s0 * 10) + 1
      /\ (target_size s0 <= accepted_total (state r)
          \/ (accepted_total (state r) < target_size s0
              /\ target_size s0 * 10 < finalized_total (state r)
              /\ exists before,
                  stderr r = (before ++ [safety_warning_of (state r)])%list))
  | Raised _ r =>
      finalized_total (state r)
      <= Z.max (finalized_total s0) (target_size s0 * 10)
  | RecursionLimit _ => False
  end.
Proof.
  intros Hlimit. unfold invoke.
  pose proof (run_within_budget E limit (start s0) (retry_allowed_start s0) Hlimit)
    as Hhalt.
  pose proof (run_reaches E limit (start s0)) as Hreach.
  destruct (run E limit (start s0)) as [r|e r|r]; [| |exact Hhalt].
  - destruct Hreach as [Hreach Hend].
    pose proof (reaches_invariant E (within_valve (start s0)) (start s0) r
                  (within_valve_step E (start s0)) (within_valve_here (start s0))
                  Hreach) as [Ht Hb].
    rewrite Hend in Hb. cbn [start state] in Ht, Hb.
    split; [exact Hend|]. split; [exact Hb|].
    destruct (last_step E (start s0) r Hreach) as (x & Hx & Hstep);
      [discriminate | exact Hend|].
    destruct (finish_reason E x r Hstep Hend Hx) as [H|(H1 & H2 & H3)].
    + left. now rewrite <- Ht.
    + right. rewrite <- Ht. repeat (split; [assumption|]). now exists (stderr x).
  - destruct Hreach as (Hreach & Hend & _).
    pose proof (reaches_invariant E (within_valve (start s0)) (start s0) r
                  (within_valve_step E (start s0)) (within_valve_here (start s0))
                  Hreach) as [Ht Hb].
    cbn [start state] in Hb. destruct (node r); try lia. now destruct Hend.
Qed.

(** C3: the continuation check returns finish if and only if the
    accepted count is at least the target or the finalized attempts
    exceed ten times the target; hence the control loop halts by itself
    under any step limit of at least its budget, with at most
    target_size * 10 + 1 finalized attempts when it starts from empty
    lists and a non-negative target; and the safety valve ends the run
    the normal way, with a warning printed, not with an exception. *)
Theorem control_loop_terminates :
  (forall s : GlobalState,
      (fst (should_continue s) = "finish" <->
       target_size s <= accepted_total s
       \/ target_size s * 10 < finalized_total s)
      /\ (fst (should_continue s) <> "finish" ->
          fst (should_continue s) = "continue"))
  /\ (forall s : GlobalState,
         accepted_total s < target_size s ->
         target_size s * 10 < finalized_total s ->
         should_continue s = ("finish", [safety_warning_of s])
         /\ next_node accept s = Py.Ok (END, [safety_warning_of s])
         /\ next_node reject s = Py.Ok (END, [safety_warning_of s]))
  /\ (forall (E : Env) (s0 : GlobalState) (limit : nat),
         accepted_reviews s0 = [] ->
         rejected_reviews s0 = [] ->
         0 <= target_size s0 ->
         (step_budget s0 <= limit)%nat ->
         match invoke E limit s0 with
         | Finished r =>
             node r = END
             /\ finalized_total (state r) <= target_size s0 * 10 + 1
             /\ (target_size s0 <= accepted_total (state r)
                 \/ (accepted_total (state r) < target_size s0
                     /\ target_size s0 * 10 < finalized_total (state r)
                     /\ exists before,
                         stderr r
                         = (before ++ [safety_warning_of (state r)])%list))
         | Raised _ r => finalized_total (state r) <= target_size s0 * 10
         | RecursionLimit _ => False
         end).
Proof.
  split; [exact should_continue_finish_iff|].
  split; [exact safety_valve_warns|].
  intros E s0 limit Hacc Hrej Htarget Hlimit.
  pose proof (invoke_halts E s0 limit Hlimit) as H.
  assert (H0 : finalized_total s0 = 0)
    by (unfold finalized_total; rewrite Hacc, Hrej; reflexivity).
  rewrite H0 in H.
  destruct (invoke E limit s0) as [r|e r|r]; [| |exact H].
  - destruct H as (Hend & Hb & Hwhy). split; [exact Hend|]. split; [lia | exact Hwhy].
  - lia.
Qed.

Lemma control_loop_terminates_witness :
  match invoke Example.world_down 300 (Example.initial_state Example.test_config 1) with
  | Finished r =>
      node r = END
      /\ finalized_total (state r) <= 1 * 10 + 1
      /\ (1 <= accepted_total (state r)
          \/ (accepted_total (state r) < 1
              /\ 1 * 10 < finalized_total (state r)
              /\ exists before,
                  stderr r = (before ++ [safety_warning_of (state r)])%list))
  | Raised _ r => finalized_total (state r) <= 1 * 10
  | RecursionLimit _ => False
  end.
Proof.
  destruct control_loop_terminates as (_ & _ & H).
  apply (H Example.world_down (Example.initial_state Example.test_config 1) 300%nat).
  - reflexivity.
  - reflexivity.
  - discriminate.
  - vm_compute. repeat constructor.
Defined.

(** ** The retry loop *)

Lemma run_attempt_unfold (E : Env) (fuel : nat) (r : Run) :
  run_attempt E fuel r =
    match node r with
    | accept | reject | END => Finished r
    | _ =>
        match fuel with
        | O => RecursionLimit r
        | S fuel' =>
            match step E r with
            | Py.Ok r' => run_attempt E fuel' r'
            | Py.Raise e => Raised e r
            end
        end
    end.
Proof. destruct fuel; reflexivity. Qed.

Lemma attempt_trace_counts (k : nat) :
  drafts_in (attempt_trace k) = S k /\ retries_in (attempt_trace k) = k.
Proof.
  unfold attempt_trace, drafts_in, retries_in.
  induction k as [|k [IHd IHr]]; [split; reflexivity|].
  cbn [retry_cycles draft_cycle app filter is_generate is_prepare_retry List.length]
    in *.
  split; [now rewrite <- IHd | now rewrite <- IHr at 2].
Qed.

(** One draft: the five stages from drafting to aggregation go through
    unless a node raises, and leave the retry count alone. *)
Lemma draft_cycle_run (E : Env) (fuel : nat) (r : Run) :
  node r = generate_node ->
  (exists e x, run_attempt E (5 + fuel) r = Raised e x)
  \/ (exists r5,
         run_attempt E (5 + fuel) r = run_attempt E fuel r5
         /\ trace r5 = (trace r ++ draft_cycle)%list
         /\ node r5 = successor aggregate (state r5)
         /\ config (state r5) = config (state r)
         /\ retry_count (current_review (state r5))
            = retry_count (current_review (state r))).
Proof.
  intros H0.
  rewrite run_attempt_unfold, H0. cbn [Nat.add].
  destruct (step E r) as [r1|e] eqn:S1; [|left; eauto].
  destruct (step_effect E r r1 S1) as (N1 & T1 & C1 & _ & R1 & _).
  rewrite H0 in N1, T1, R1. cbn [successor] in N1.
  rewrite run_attempt_unfold, N1.
  destruct (step E r1) as [r2|e] eqn:S2; [|left; eauto].
  destruct (step_effect E r1 r2 S2) as (N2 & T2 & C2 & _ & R2 & _).
  rewrite N1 in N2, T2, R2. cbn [successor] in N2.
  rewrite run_attempt_unfold, N2.
  destruct (step E r2) as [r3|e] eqn:S3; [|left; eauto].
  destruct (step_effect E r2 r3 S3) as (N3 & T3 & C3 & _ & R3 & _).
  rewrite N2 in N3, T3, R3. cbn [successor] in N3.
  rewrite run_attempt_unfold, N3.
  destruct (step E r3) as [r4|e] eqn:S4; [|left; eauto].
  destruct (step_effect E r3 r4 S4) as (N4 & T4 & C4 & _ & R4 & _).
  rewrite N3 in N4, T4, R4. cbn [successor] in N4.
  rewrite run_attempt_unfold, N4.
  destruct (step E r4) as [r5|e] eqn:S5; [|left; eauto].
  destruct (step_effect E r4 r5 S5) as (N5 & T5 & C5 & _ & R5 & _).
  rewrite N4 in N5, T5, R5.
  right. exists r5. split; [reflexivity|]. split.
  - rewrite T5, T4, T3, T2, T1, <- !app_assoc. reflexivity.
  - split; [exact N5|]. split; congruence.
Qed.

(** Where the aggregation stage hands over. *)
Lemma after_aggregate (r : Run) :
  node r = successor aggregate (state r) ->
  (is_valid (current_review (state r)) = true /\ node r = accept)
  \/ (is_valid (current_review (state r)) = false
      /\ retry_count (current_review (state r)) < max_retries_of (state r)
      /\ node r = prepare_retry)
  \/ (is_valid (current_review (state r)) = false
      /\ max_retries_of (state r) <= retry_count (current_review (state r))
      /\ node r = reject).
Proof.
  cbn [successor]. unfold retries_left. fold (max_retries_of (state r)).
  destruct (is_valid (current_review (state r))); [auto|].
  destruct (_ <? _) eqn:Hlt; [apply Z.ltb_lt in Hlt | apply Z.ltb_ge in Hlt]; auto.
Qed.

(** The attempt from a drafting stage on: it is routed to [accept] on
    the first valid draft, to [reject] when the retries are used up, and
    it never needs more than six steps per retry left, plus five. *)
Lemma attempt_from_draft (E : Env) (j : nat) :
  forall (fuel : nat) (r : Run),
    node r = generate_node ->
    0 <= retry_count (current_review (state r)) <= max_retries_of (state r) ->
    Z.to_nat (max_retries_of (state r) - retry_count (current_review (state r))) = j ->
    (6 * j + 5 <= fuel)%nat ->
    match run_attempt E fuel r with
    | Finished r' =>
        exists k : nat,
          trace r' = (trace r ++ draft_cycle ++ retry_cycles k)%list
          /\ retry_count (current_review (state r'))
             = retry_count (current_review (state r)) + Z.of_nat k
          /\ retry_count (current_review (state r')) <= max_retries_of (state r)
          /\ config (state r') = config (state r)
          /\ ((node r' = accept /\ is_valid (current_review (state r')) = true)
              \/ (node r' = reject
                  /\ is_valid (current_review (state r')) = false
                  /\ retry_count (current_review (state r'))
                     = max_retries_of (state r)))
    | Raised _ _ => True
    | RecursionLimit _ => False
    end.
Proof.
  induction j as [|j IH]; intros fuel r Hn Hrc Hj Hfuel;
    (replace fuel with (5 + (fuel - 5))%nat by lia);
    (destruct (draft_cycle_run E (fuel - 5) r Hn)
      as [(e & x & ->)|(r5 & -> & T5 & N5 & C5 & R5)]; [exact I|]);
    (assert (M5 : max_retries_of (state r5) = max_retries_of (state r))
      by (unfold max_retries_of; now rewrite C5));
    destruct (after_aggregate r5 N5)
      as [(Hv & Hnode)|[(Hv & Hlt & Hnode)|(Hv & Hge & Hnode)]];
    rewrite run_attempt_unfold, Hnode.
  - exists 0%nat. cbn [retry_cycles]. rewrite app_nil_r, Z.add_0_r.
    repeat split; auto; lia.
  - lia.
  - exists 0%nat. cbn [retry_cycles]. rewrite app_nil_r, Z.add_0_r.
    repeat split; auto; try lia. right. repeat split; auto. lia.
  - exists 0%nat. cbn [retry_cycles]. rewrite app_nil_r, Z.add_0_r.
    repeat split; auto; lia.
  - destruct (fuel - 5)%nat as [|fuel'] eqn:Hf; [lia|].
    assert (S6 : exists r6, step E r5 = Py.Ok r6).
    { eexists. apply step_spec. rewrite Hnode. reflexivity. }
    destruct S6 as [r6 S6]. rewrite S6.
    destruct (step_effect E r5 r6 S6) as (N6 & T6 & C6 & _ & R6 & _).
    rewrite Hnode in N6, T6, R6. cbn [successor] in N6.
    assert (M6 : max_retries_of (state r6) = max_retries_of (state r))
      by (unfold max_retries_of; now rewrite C6, C5).
    specialize (IH fuel' r6 N6).
    destruct (run_attempt E fuel' r6) as [r'|e x|x].
    + destruct IH as (k & Tk & Rk & Bk & Ck & Hk); try lia.
      exists (S k). cbn [retry_cycles].
      split; [rewrite Tk, T6, T5, <- !app_assoc; reflexivity|].
      split; [lia|]. split; [lia|]. split; [congruence|].
      destruct Hk as [Hk|(Hk1 & Hk2 & Hk3)]; [left; exact Hk|].
      right. repeat split; auto. congruence.
    + exact I.
    + apply IH; lia.
  - exfalso. lia.
Qed.

Lemma retry_count_bounded_step (E : Env) (x y : Run) :
  retry_count_bounded x \/ node x = sample ->
  0 <= max_retries_of (state x) ->
  node x <> END -> step E x = Py.Ok y ->
  retry_count_bounded y /\ max_retries_of (state y) = max_retries_of (state x).
Proof.
  intros Hx Hmax Hend Hstep.
  destruct (step_effect E x y Hstep) as (Hn & _ & Hc & _ & Hr & _).
  assert (Hm : max_retries_of (state y) = max_retries_of (state x))
    by (unfold max_retries_of; now rewrite Hc).
  split; [|exact Hm].
  unfold retry_count_bounded, retry_allowed in *. rewrite Hm, Hr.
  destruct Hx as [[Hb Ha]|Hs].
  - destruct (node x) eqn:Hnode; rewrite Hn; cbn [successor];
      try (split; [lia | discriminate]); try (now destruct Hend).
    + split; [lia|]. intros Hp.
      destruct (after_aggregate y) as [(_ & H)|[(_ & H & _)|(_ & _ & H)]];
        try (rewrite Hn; reflexivity); try lia.
      * rewrite Hn in H. cbn [successor] in H, Hp. congruence.
      * rewrite Hn in H. cbn [successor] in H, Hp. congruence.
    + split; [lia|]. destruct (finishes (state y)); discriminate.
    + split; [lia|]. destruct (finishes (state y)); discriminate.
    + specialize (Ha eq_refl). split; [lia | discriminate].
  - rewrite Hs in *. rewrite Hn. cbn [successor]. split; [lia | discriminate].
Qed.

(** Along a run from the entry point the retry count of the attempt in
    flight stays within the configured maximum. *)
Lemma retry_count_invariant (E : Env) (s0 : GlobalState) (r : Run) :
  0 <= max_retries_of s0 ->
  reaches E (start s0) r ->
  max_retries_of (state r) = max_retries_of s0
  /\ (trace r = [] /\ node r = sample \/ trace r <> [] /\ retry_count_bounded r).
Proof.
  intros Hmax Hreach.
  apply (reaches_invariant E
           (fun r => max_retries_of (state r) = max_retries_of s0
                     /\ (trace r = [] /\ node r = sample
                         \/ trace r <> [] /\ retry_count_bounded r))
           (start s0) r); [|split; [reflexivity | left; split; reflexivity]|exact Hreach].
  intros x y [Hm Hx] Hend Hstep.
  assert (Hpre : retry_count_bounded x \/ node x = sample) by tauto.
  rewrite <- Hm in Hmax.
  destruct (retry_count_bounded_step E x y Hpre Hmax Hend Hstep) as [Hy Hmy].
  split; [congruence|]. right. split; [|exact Hy].
  destruct (step_effect E x y Hstep) as (_ & Ht & _). rewrite Ht.
  intros Hnil. apply app_eq_nil in Hnil. destruct Hnil as [_ Hnil]. discriminate Hnil.
Qed.

(** C2: the retry count never exceeds max_retries while an attempt is
    in flight; and an attempt, from sampling on, is routed within
    6 * max_retries + 6 steps either to accept on a valid draft, or,
    every draft having failed, to reject after exactly max_retries
    retries and max_retries + 1 drafts, where it is appended to the
    rejected list with retry_count equal to max_retries. *)
Theorem retry_loop_bounded :
  forall (E : Env) (s0 : GlobalState),
    0 <= max_retries_of s0 ->
    (forall r : Run,
        reaches E (start s0) r -> trace r <> [] ->
        0 <= retry_count (current_review (state r)) <= max_retries_of s0)
    /\ (forall r : Run,
           reaches E (start s0) r -> node r = sample ->
           match run_attempt E (6 * Z.to_nat (max_retries_of s0) + 6) r with
           | Finished r' =>
               exists k : nat,
                 trace r' = (trace r ++ attempt_trace k)%list
                 /\ drafts_in (attempt_trace k) = S k
                 /\ retries_in (attempt_trace k) = k
                 /\ retry_count (current_review (state r')) = Z.of_nat k
                 /\ Z.of_nat k <= max_retries_of s0
                 /\ ((node r' = accept
                      /\ is_valid (current_review (state r')) = true)
                     \/ (node r' = reject
                         /\ is_valid (current_review (state r')) = false
                         /\ Z.of_nat k = max_retries_of s0
                         /\ exists r'',
                             step E r' = Py.Ok r''
                             /\ rejected_reviews (state r'')
                                = (rejected_reviews (state r')
                                   ++ [current_review (state r')])%list))
           | Raised _ _ => True
           | RecursionLimit _ => False
           end).
Proof.
  intros E s0 Hmax. split.
  - intros r Hreach Htrace.
    destruct (retry_count_invariant E s0 r Hmax Hreach) as [Hm [[Hnil _]|[_ [Hb _]]]].
    + contradiction.
    + now rewrite <- Hm.
  - intros r Hreach Hnode.
    destruct (retry_count_invariant E s0 r Hmax Hreach) as [Hm _].
    replace (6 * Z.to_nat (max_retries_of s0) + 6)%nat
      with (S (6 * Z.to_nat (max_retries_of s0) + 5)) by lia.
    rewrite run_attempt_unfold, Hnode.
    destruct (step E r) as [r1|e] eqn:S1; [|exact I].
    destruct (step_effect E r r1 S1) as (N1 & T1 & C1 & _ & R1 & _).
    rewrite Hnode in N1, T1, R1. cbn [successor] in N1.
    assert (M1 : max_retries_of (state r1) = max_retries_of s0)
      by (unfold max_retries_of in *; now rewrite C1).
    pose proof (attempt_from_draft E (Z.to_nat (max_retries_of s0))
                  (6 * Z.to_nat (max_retries_of s0) + 5) r1 N1) as H.
    rewrite R1, M1, Z.sub_0_r in H.
    specialize (H (conj (Z.le_refl 0) Hmax) eq_refl (Nat.le_refl _)).
    destruct (run_attempt E (6 * Z.to_nat (max_retries_of s0) + 5) r1)
      as [r'|e x|x]; [|exact I|exact H].
    destruct H as (k & Tk & Rk & Bk & Ck & Hk).
    assert (Mk : max_retries_of (state r') = max_retries_of s0)
      by (unfold max_retries_of in *; now rewrite Ck, C1).
    exists k. destruct (attempt_trace_counts k) as [Hd Hr].
    split; [rewrite Tk, T1, <- app_assoc; reflexivity|].
    split; [exact Hd|]. split; [exact Hr|]. split; [lia|].
    assert (Hle : Z.of_nat k <= max_retries_of s0) by lia.
    split; [exact Hle|].
    destruct Hk as [Hk|(Hk1 & Hk2 & Hk3)]; [left; exact Hk|].
    right. split; [exact Hk1|]. split; [exact Hk2|]. split; [lia|].
    eexists. split.
    + apply step_spec. rewrite Hk1. reflexivity.
    + cbn [state]. reflexivity.
Qed.

Lemma retry_loop_bounded_witness :
  match run_attempt Example.world_down
          (6 * Z.to_nat (max_retries_of (Example.initial_state Example.test_config 1)) + 6)
          (start (Example.initial_state Example.test_config 1)) with
  | Finished r' =>
      exists k : nat,
        trace r' = ([] ++ attempt_trace k)%list
        /\ drafts_in (attempt_trace k) = S k
        /\ retries_in (attempt_trace k) = k
        /\ retry_count (current_review (state r')) = Z.of_nat k
        /\ Z.of_nat k <= 2
        /\ ((node r' = accept /\ is_valid (current_review (state r')) = true)
            \/ (node r' = reject
                /\ is_valid (current_review (state r')) = false
                /\ Z.of_nat k = 2
                /\ exists r'',
                    step Example.world_down r' = Py.Ok r''
                    /\ rejected_reviews (state r'')
                       = (rejected_reviews (state r')
                          ++ [current_review (state r')])%list))
  | Raised _ _ => True
  | RecursionLimit _ => False
  end.
Proof.
  destruct (retry_loop_bounded Example.world_down
              (Example.initial_state Example.test_config 1)) as [_ H].
  - discriminate.
  - apply (H (start (Example.initial_state Example.test_config 1))).
    + apply reaches_here.
    + reflexivity.
Defined.

(** The scenario of the specification: with max_retries = 2 and a
    provider that fails every time, the first attempt goes through
    three drafts and two retries and is rejected with retry_count 2. *)
Example three_failed_drafts_are_rejected :
  exists r,
    run_attempt Example.world_down 18
      (start (Example.initial_state Example.test_config 1)) = Finished r
    /\ node r = reject
    /\ trace r = attempt_trace 2
    /\ drafts_in (trace r) = 3%nat
    /\ retries_in (trace r) = 2%nat
    /\ retry_count (current_review (state r)) = 2.
Proof. eexists. split; [vm_compute; reflexivity|]. repeat split. Qed.

(** * Further properties

    Properties of the code around the guardrails: the scores, the
    drafts, the lists and the metrics a run builds, what a run costs and
    how it can fail. *)

(** ** Realism scores *)

Lemma ltb_leb (a b : float) : (a <? b)%float = true -> (a <=? b)%float = true.
Proof.
  rewrite FloatAxioms.ltb_spec, FloatAxioms.leb_spec. unfold SFltb, SFleb.
  destruct (SFcompare (Prim2SF a) (Prim2SF b)) as [[| |]|]; congruence.
Qed.

(** [max(0.0, min(1.0, x))] lies between 0 and 1 for every float, a
    NaN included. *)
Lemma clamp_unit (x : float) :
  (0 <=? Py.max 0 (Py.min 1 x))%float = true
  /\ (Py.max 0 (Py.min 1 x) <=? 1)%float = true.
Proof.
  unfold Py.max, Py.min.
  destruct (x <? 1)%float eqn:H1.
  - destruct (0 <? x)%float eqn:H0.
    + split; now apply ltb_leb.
    + split; reflexivity.
  - split; reflexivity.
Qed.

Lemma normalize_score_unit (group : string) (score : float) :
  normalize_score group = Py.Ok score ->
  (0 <=? score)%float = true /\ (score <=? 1)%float = true.
Proof.
  unfold normalize_score. destruct (Py.float_of_str group) as [x|e]; [|discriminate].
  cbn [Py.bind]. intros H. apply Ok_inj in H. subst score. apply clamp_unit.
Qed.

Lemma parse_realism_score_unit (response : string) (score : float) :
  parse_realism_score response = Py.Ok score ->
  (0 <=? score)%float = true /\ (score <=? 1)%float = true.
Proof.
  unfold parse_realism_score, patterns.
  cbn [parse_with].
  destruct (Re.search Re.match_score response) as [g|];
    [apply normalize_score_unit|].
  destruct (Re.search Re.match_decimal response) as [g|];
    [apply normalize_score_unit|].
  destruct (Re.search Re.match_digit response) as [g|];
    [apply normalize_score_unit|].
  intros H. apply Ok_inj in H. subst score. split; reflexivity.
Qed.

Lemma heuristic_realism_score_unit (review_text domain : string) :
  (0 <=? heuristic_realism_score review_text domain)%float = true
  /\ (heuristic_realism_score review_text domain <=? 1)%float = true.
Proof.
  unfold heuristic_realism_score.
  destruct (negb (Py.truthy review_text) || negb (Py.truthy (Py.strip review_text)));
    [split; reflexivity|].
  destruct ((10 <=? Z.of_nat (List.length (Py.split review_text)))
            && (Z.of_nat (List.length (Py.split review_text)) <=? 200));
    destruct (Z.of_nat (List.length (Py.split review_text)) <? 5);
    destruct (existsb _ domain_terms);
    destruct (negb (Py.isupper review_text) && _);
    split; vm_compute; reflexivity.
Qed.

(** Whatever the judge does, the score taken for a draft lies between
    0 and 1. *)
Lemma judge_score_unit (E : Env) (t : nat) (vm : Schema.ModelConfig)
    (prompt text domain : string) :
  (0 <=? judge_score E t vm prompt text domain)%float = true
  /\ (judge_score E t vm prompt text domain <=? 1)%float = true.
Proof.
  unfold judge_score.
  destruct (create_provider E vm) as [provider|e];
    [|apply heuristic_realism_score_unit].
  destruct (generate E t (provider_config provider) prompt 0.1%float (Some 100))
    as [[| response |] seconds | msg]; try apply heuristic_realism_score_unit.
  destruct (Py.truthy response && Py.truthy (Py.strip response));
    [|apply heuristic_realism_score_unit].
  destruct (parse_realism_score response) as [score|e] eqn:Hparse;
    [|apply heuristic_realism_score_unit].
  exact (parse_realism_score_unit response score Hparse).
Qed.

(** X1: whatever the judge answers, the realism score that
    [check_realism] records lies in the interval from 0 to 1: a number
    out of range is clamped, a response without a number counts 0.5, and
    the heuristic stays within the interval. *)
Theorem recorded_realism_score_in_unit_interval :
  forall (E : Env) (t : nat) (state state' : GlobalState),
    check_realism E t state = Py.Ok state' ->
    exists r score,
      realism (quality_scores (current_review state')) = Some r
      /\ realism_score r = Some score
      /\ (0 <=? score)%float = true
      /\ (score <=? 1)%float = true.
Proof.
  intros E t state state' H. unfold check_realism in H. returned H.
  - eexists _, _. cbn. repeat split.
  - eexists _, _.
    cbn [current_review set_current_review set_scores quality_scores
         set_realism realism realism_score].
    split; [reflexivity|]. split; [reflexivity|]. apply judge_score_unit.
Qed.

Lemma recorded_realism_score_in_unit_interval_witness :
  exists r score,
    realism (quality_scores
               (current_review
                  (set_current_review Example.short_draft_state
                     (set_scores (current_review Example.short_draft_state)
                        (set_realism Example.no_scores
                           {| realism_score := Some 0.85%float;
                              realism_pass := Some true |})
                        0.25%float)))) = Some r
    /\ realism_score r = Some score
    /\ (0 <=? score)%float = true
    /\ (score <=? 1)%float = true.
Proof.
  apply (recorded_realism_score_in_unit_interval Example.world_happy 4
           Example.short_draft_state).
  vm_compute. reflexivity.
Defined.

(** ** The answer of the judge *)

(** Reading digits never fails and adds no point. *)
Lemma read_numeral_digits (ds : string) (acc : Py.numeral) :
  Re.take_while Py.is_digit ds = ds ->
  exists n,
    Py.read_numeral ds acc = Some n
    /\ Py.points n = Py.points acc
    /\ Py.digits_read acc <= Py.digits_read n.
Proof.
  revert acc. induction ds as [|c r IH]; intros acc H.
  - exists acc. cbn [Py.read_numeral]. repeat split. lia.
  - cbn [Re.take_while] in H. destruct (Py.is_digit c) eqn:Hc; [|discriminate H].
    injection H as H. cbn [Py.read_numeral]. rewrite Hc.
    destruct (IH {| Py.digits_value :=
                      10 * Py.digits_value acc + (Z.of_N (N_of_ascii c) - 48);
                    Py.fraction_len :=
                      Py.fraction_len acc + (if 0 <? Py.points acc then 1 else 0);
                    Py.points := Py.points acc;
                    Py.digits_read := Py.digits_read acc + 1 |} H)
      as (n & Hn & Hp & Hd).
    exists n. cbn [Py.points Py.digits_read] in Hp, Hd. repeat split; auto. lia.
Qed.

Lemma take_while_fixed (p : ascii -> bool) (s : string) :
  Re.take_while p (Re.take_while p s) = Re.take_while p s.
Proof.
  induction s as [|c r IH]; [reflexivity|].
  cbn [Re.take_while]. destruct (p c) eqn:Hc; [|reflexivity].
  cbn [Re.take_while]. now rewrite Hc, IH.
Qed.

Lemma float_of_str_returns (s : string) (n : Py.numeral) :
  Py.read_numeral s {| Py.digits_value := 0; Py.fraction_len := 0;
                       Py.points := 0; Py.digits_read := 0 |} = Some n ->
  Py.points n <= 1 -> 1 <= Py.digits_read n ->
  exists x, Py.float_of_str s = Py.Ok x.
Proof.
  intros Hn Hp Hd. unfold Py.float_of_str. rewrite Hn.
  apply Z.leb_le in Hp. apply Z.leb_le in Hd. rewrite Hp, Hd. cbn [andb].
  destruct (Py.digits_value n =? 0); eexists; reflexivity.
Qed.

(** What the decimal pattern and the digit pattern capture is always a
    numeral [float] accepts. *)
Lemma match_decimal_parses (s g : string) :
  Re.match_decimal s = Some g -> exists x, Py.float_of_str g = Py.Ok x.
Proof.
  unfold Re.match_decimal.
  destruct s as [|a [|b r]]; try discriminate.
  destruct (Py.is_digit a) eqn:Ha; [|discriminate].
  destruct (Ascii.eqb b ".") eqn:Hb; [|discriminate]. cbn [andb].
  destruct (Re.take_while Py.is_digit r) as [|d ds] eqn:Hds; [discriminate|].
  intros H. injection H as <-.
  apply Ascii.eqb_eq in Hb. subst b.
  assert (Hfix : Re.take_while Py.is_digit (String d ds) = String d ds)
    by (rewrite <- Hds; apply take_while_fixed).
  destruct (read_numeral_digits (String d ds)
              {| Py.digits_value := 10 * 0 + (Z.of_N (N_of_ascii a) - 48);
                 Py.fraction_len := 0 + 0;
                 Py.points := 0 + 1;
                 Py.digits_read := 0 + 1 |} Hfix) as (n & Hn & Hp & Hd).
  apply (float_of_str_returns _ n).
  - cbn [Py.read_numeral]. rewrite Ha. cbn [Py.points Py.digits_read
      Py.digits_value Py.fraction_len]. 
    change (Py.is_digit ".") with false. change (Ascii.eqb "." ".") with true.
    cbv iota. change (0 <? 0) with false. cbv iota. exact Hn.
  - cbn [Py.points] in Hp. lia.
  - cbn [Py.digits_read] in Hd. lia.
Qed.

Lemma match_digit_parses (s g : string) :
  Re.match_digit s = Some g -> exists x, Py.float_of_str g = Py.Ok x.
Proof.
  unfold Re.match_digit. destruct s as [|a r]; [discriminate|].
  destruct (Py.is_digit a) eqn:Ha; [|discriminate].
  intros H. injection H as <-.
  apply (float_of_str_returns _
           {| Py.digits_value := 10 * 0 + (Z.of_N (N_of_ascii a) - 48);
              Py.fraction_len := 0 + 0;
              Py.points := 0;
              Py.digits_read := 0 + 1 |}).
  - cbn [Py.read_numeral]. rewrite Ha. reflexivity.
  - cbn [Py.points]. lia.
  - cbn [Py.digits_read]. lia.
Qed.

(** A match that [re.search] reports is a match of the pattern at some
    position of the text. *)
Lemma search_some (pattern : string -> option string) (s g : string) :
  Re.search pattern s = Some g -> exists suffix, pattern suffix = Some g.
Proof.
  induction s as [|c r IH]; cbn [Re.search].
  - destruct (pattern "") eqn:H; [|discriminate].
    intros K. injection K as <-. eauto.
  - destruct (pattern (String c r)) eqn:H.
    + intros K. injection K as <-. eauto.
    + exact IH.
Qed.

(** X2: [parse_realism_score] raises only through its first pattern:
    exactly when "Score:" is followed by a run of digits and points
    that [float] rejects (no digit, or more than one point), and then
    with that [ValueError]; a response the first pattern does not match
    always yields a score. *)
Theorem parse_realism_score_raises_iff :
  forall (response : string) (e : Py.exn),
    parse_realism_score response = Py.Raise e
    <-> exists group,
        Re.search Re.match_score response = Some group
        /\ Py.float_of_str group = Py.Raise e.
Proof.
  intros response e. unfold parse_realism_score, patterns. cbn [parse_with].
  destruct (Re.search Re.match_score response) as [g|] eqn:H1.
  - unfold normalize_score. split.
    + intros H. exists g. split; [reflexivity|].
      destruct (Py.float_of_str g) as [x|e']; [discriminate H|].
      cbn [Py.bind] in H. exact H.
    + intros (g' & Hg & He). injection Hg as <-. rewrite He. reflexivity.
  - split; [|intros (g & Hg & _); discriminate Hg].
    intros H. exfalso.
    destruct (Re.search Re.match_decimal response) as [g|] eqn:H2.
    { destruct (search_some _ _ _ H2) as [suffix Hs].
      destruct (match_decimal_parses _ _ Hs) as [x Hx].
      unfold normalize_score in H. rewrite Hx in H. discriminate H. }
    destruct (Re.search Re.match_digit response) as [g|] eqn:H3.
    { destruct (search_some _ _ _ H3) as [suffix Hs].
      destruct (match_digit_parses _ _ Hs) as [x Hx].
      unfold normalize_score in H. rewrite Hx in H. discriminate H. }
    discriminate H.
Qed.

(** ** The heuristic *)

(** X3: the heuristic realism score is 0 for a blank draft and, for any
    other draft, at least 0.3 and strictly below 1; so it never meets a
    realism threshold of 1.0, and never falls to 0 for a draft that has
    text. *)
Theorem heuristic_realism_score_range :
  forall (review_text domain : string),
    (whitespace_only review_text = true ->
     heuristic_realism_score review_text domain = 0%float)
    /\ (whitespace_only review_text = false ->
        (0.3 <=? heuristic_realism_score review_text domain)%float = true
        /\ (heuristic_realism_score review_text domain <? 1)%float = true).
Proof.
  intros review_text domain. unfold heuristic_realism_score.
  assert (Hblank : negb (Py.truthy review_text)
                   || negb (Py.truthy (Py.strip review_text))
                   = whitespace_only review_text).
  { rewrite strip_truthy, negb_involutive.
    destruct review_text; reflexivity. }
  rewrite Hblank. split; intros H; rewrite H; [reflexivity|].
  destruct ((10 <=? Z.of_nat (List.length (Py.split review_text)))
            && (Z.of_nat (List.length (Py.split review_text)) <=? 200));
    destruct (Z.of_nat (List.length (Py.split review_text)) <? 5);
    destruct (existsb _ domain_terms);
    destruct (negb (Py.isupper review_text) && _);
    split; vm_compute; reflexivity.
Qed.

Lemma heuristic_realism_score_range_witness :
  (0.3 <=? heuristic_realism_score "Great app" "Test Domain")%float = true
  /\ (heuristic_realism_score "Great app" "Test Domain" <? 1)%float = true.
Proof.
  apply (heuristic_realism_score_range "Great app" "Test Domain").
  reflexivity.
Defined.

(** ** Drafting *)

Lemma lstrip_nonspace (s : string) :
  Py.existsb_char nonspace (Py.lstrip s) = Py.existsb_char nonspace s.
Proof.
  induction s as [|c r IH]; [reflexivity|].
  cbn [Py.lstrip]. destruct (Py.is_space c) eqn:Hc; [|reflexivity].
  cbn [Py.existsb_char]. unfold nonspace at 2. now rewrite Hc.
Qed.

Lemma rstrip_cons (c : ascii) (r : string) :
  Py.rstrip (String c r) =
    match Py.rstrip r with
    | EmptyString => if Py.is_space c then EmptyString else String c EmptyString
    | r' => String c r'
    end.
Proof. reflexivity. Qed.

Lemma rstrip_fixed (s : string) : Py.rstrip (Py.rstrip s) = Py.rstrip s.
Proof.
  induction s as [|c r IH]; [reflexivity|].
  rewrite rstrip_cons. destruct (Py.rstrip r) as [|c' r'] eqn:Hr.
  - destruct (Py.is_space c) eqn:Hc; [reflexivity|].
    rewrite rstrip_cons. cbn [Py.rstrip]. now rewrite Hc.
  - rewrite (rstrip_cons c (String c' r')), IH. reflexivity.
Qed.

Lemma rstrip_lstrip (t : string) :
  Py.rstrip t = t -> Py.rstrip (Py.lstrip t) = Py.lstrip t.
Proof.
  induction t as [|c r IH]; [reflexivity|].
  intros H. cbn [Py.lstrip]. destruct (Py.is_space c) eqn:Hc; [|exact H].
  apply IH. cbn [Py.rstrip] in H.
  destruct (Py.rstrip r) as [|c' r'] eqn:Hr.
  - rewrite Hc in H. discriminate H.
  - now injection H.
Qed.

Lemma lstrip_fixed (s : string) : Py.lstrip (Py.lstrip s) = Py.lstrip s.
Proof.
  induction s as [|c r IH]; [reflexivity|].
  cbn [Py.lstrip]. destruct (Py.is_space c) eqn:Hc; [exact IH|].
  cbn [Py.lstrip]. now rewrite Hc.
Qed.

(** Stripping twice is stripping once. *)
Lemma strip_fixed (s : string) : Py.strip (Py.strip s) = Py.strip s.
Proof.
  unfold Py.strip.
  rewrite (rstrip_lstrip (Py.rstrip s) (rstrip_fixed s)). apply lstrip_fixed.
Qed.

Lemma strip_not_blank (s : string) :
  Py.truthy (Py.strip s) = true -> whitespace_only (Py.strip s) = false.
Proof.
  intros H. rewrite whitespace_only_spec. unfold Py.strip.
  rewrite lstrip_nonspace, rstrip_nonspace.
  rewrite strip_truthy, whitespace_only_spec, negb_involutive in H.
  now rewrite H.
Qed.

(** X4: a text that [generate_review] stores on the attempt is trimmed
    and not blank, so the aggregator's empty-text exit is never taken
    for a draft that was stored. *)
Theorem stored_draft_is_trimmed_and_not_blank :
  forall (E : Env) (t : nat) (state state' : GlobalState) (text : string),
    generate_review E t state = Py.Ok state' ->
    review_text (current_review state') = Some text ->
    Py.strip text = text
    /\ text <> ""
    /\ draft_blank (Some text) = false.
Proof.
  intros E t state state' text H Htext.
  unfold generate_review in H. returned H.
  cbn [current_review set_current_review] in Htext.
  match type of Htext with
  | context [generate E t ?c ?p ?x ?y] =>
      destruct (generate E t c p x y) as [[| response |] seconds | msg]
  end; cbn [review_text set_generation_failure] in Htext; try discriminate Htext.
  destruct (Py.truthy (Py.strip response)) eqn:Hs;
    cbn [negb review_text set_generation_failure set_generated_text] in Htext;
    [|discriminate Htext].
  injection Htext as <-. split; [apply strip_fixed|]. split.
  - intros Hempty. rewrite Hempty in Hs. discriminate Hs.
  - cbn [draft_blank]. now apply strip_not_blank.
Qed.

Lemma stored_draft_is_trimmed_and_not_blank_witness :
  Py.strip Example.good_text = Example.good_text
  /\ Example.good_text <> ""
  /\ draft_blank (Some Example.good_text) = false.
Proof.
  apply (stored_draft_is_trimmed_and_not_blank Example.world_happy 1
           (Example.state_with
              (Example.review_with None 5 Example.no_scores) [])
           (set_current_review
              (Example.state_with
                 (Example.review_with None 5 Example.no_scores) [])
              (set_generated_text
                 (Example.review_with None 5 Example.no_scores)
                 Example.good_text 0.5%float))
           Example.good_text).
  - vm_compute. reflexivity.
  - reflexivity.
Defined.

(** ** From the sampler to the drafter *)

Lemma split_colon_app (p m : string) :
  has_char ":" p = false ->
  split_colon (p ++ ":" ++ m) = Some (p, m).
Proof.
  unfold has_char. induction p as [|c p IH]; intros H; [reflexivity|].
  cbn [Py.existsb_char] in H. apply orb_false_elim in H. destruct H as [Hc Hp].
  cbn [append split_colon]. rewrite Ascii.eqb_sym, Hc.
  change (p ++ String ":" m) with (p ++ ":" ++ m). now rewrite (IH Hp).
Qed.

Lemma choice_in {A : Type} (E : Env) (t k : nat) (population : list A) (x : A) :
  choice E t k population = Py.Ok x -> In x population.
Proof.
  unfold choice.
  destruct (nth_error population _) as [y|] eqn:H; [|discriminate].
  intros K. apply Ok_inj in K. subst y. exact (nth_error_In _ _ H).
Qed.

Lemma find_model_in (models : list Schema.ModelConfig) (m : Schema.ModelConfig) :
  In m models ->
  exists m',
    find_model models (Schema.provider m) (Schema.model m) = Some m'
    /\ In m' models
    /\ Schema.provider m' = Schema.provider m
    /\ Schema.model m' = Schema.model m.
Proof.
  unfold find_model. induction models as [|x rest IH]; intros H; [destruct H|].
  cbn [find].
  destruct (String.eqb (Schema.provider x) (Schema.provider m)
            && String.eqb (Schema.model x) (Schema.model m)) eqn:Hx.
  - exists x. apply andb_prop in Hx. destruct Hx as [Hp Hm].
    apply String.eqb_eq in Hp. apply String.eqb_eq in Hm.
    repeat split; auto. now left.
  - destruct H as [->|H].
    + rewrite !String.eqb_refl in Hx. discriminate Hx.
    + destruct (IH H) as (m' & Hf & Hin & Hp & Hm).
      exists m'. repeat split; auto. now right.
Qed.

(** X5: the model identifier the sampler writes is read back by the
    drafter: when no provider name contains a colon, splitting the
    identifier and searching the configuration finds a model with the
    provider and name that were drawn, so after sampling
    [generate_review] can raise only what [create_provider] raises. *)
Theorem sampled_model_is_found :
  forall (E : Env) (t t' : nat) (state state' : GlobalState),
    (forall m, In m (Schema.models (config state)) ->
               has_char ":" (Schema.provider m) = false) ->
    sample_persona_and_rating E t state = Py.Ok state' ->
    exists m,
      In m (Schema.models (config state))
      /\ model_id (current_review state')
         = Schema.provider m ++ ":" ++ Schema.model m
      /\ split_colon (model_id (current_review state'))
         = Some (Schema.provider m, Schema.model m)
      /\ find_model (Schema.models (config state')) (Schema.provider m)
           (Schema.model m) = Some m
      /\ (forall e, generate_review E t' state' = Py.Raise e ->
                    create_provider E m = Py.Raise e).
Proof.
  intros E t t' state state' Hcolon H.
  unfold sample_persona_and_rating in H.
  destruct (choice E t 0 (Schema.personas (config state))) as [p|]; [|discriminate H].
  cbn [Py.bind] in H.
  destruct (choice E t 1 (map fst (Schema.rating_distribution (config state))))
    as [stars|]; [|discriminate H].
  cbn [Py.bind] in H.
  destruct (choice E t 2 (Schema.models (config state))) as [m0|] eqn:Hm;
    [|discriminate H].
  cbn [Py.bind] in H. apply Ok_inj in H. subst state'.
  pose proof (choice_in E t 2 _ m0 Hm) as Hin.
  destruct (find_model_in _ m0 Hin) as (m & Hfind & Hin' & Hp & Hn).
  exists m. cbn [current_review model_id config].
  rewrite Hp, Hn. split; [exact Hin'|]. split; [reflexivity|].
  assert (Hsplit : split_colon (Schema.provider m0 ++ ":" ++ Schema.model m0)
                   = Some (Schema.provider m0, Schema.model m0))
    by (apply split_colon_app, Hcolon, Hin).
  split; [exact Hsplit|]. split; [exact Hfind|].
  intros e He. unfold generate_review in He.
  cbn [current_review model_id config] in He.
  rewrite Hsplit, Hfind in He.
  destruct (create_provider E m) as [provider|e']; [discriminate He|].
  cbn [Py.bind] in He. injection He as <-. reflexivity.
Qed.

Lemma sampled_model_is_found_witness :
  exists m,
    In m [Example.openai_model]
    /\ split_colon "openai:gpt-4o-mini" = Some (Schema.provider m, Schema.model m).
Proof.
  destruct (sampled_model_is_found Example.world_happy 0 1
              (Example.initial_state Example.test_config 1) _
              (fun m H =>
                 match H with
                 | or_introl e =>
                     f_equal (fun x => has_char ":" (Schema.provider x)) (eq_sym e)
                 | or_intror f => match f with end
                 end)
              eq_refl)
    as (m & Hin & _ & Hsplit & _).
  exists m. split; [exact Hin | exact Hsplit].
Defined.

(** X6: a drawn model whose provider cannot be built ends the whole
    run at its first draft: the exception of [create_provider] leaves
    [invoke] instead of being absorbed into the attempt.  A
    [ValueError] is raised for every provider other than openai and
    groq (the schema also admits openrouter) and for a missing or empty
    API key. *)
Theorem unbuildable_provider_aborts_run :
  (forall (E : Env) (m : Schema.ModelConfig),
      Schema.provider m <> "openai" -> Schema.provider m <> "groq" ->
      create_provider E m
      = Py.Raise (Py.ValueError
                    ("Unsupported provider: " ++ Schema.provider m
                     ++ ". Supported providers: 'openai', 'groq'.")))
  /\ (forall (E : Env) (m : Schema.ModelConfig) (variable : string),
         Schema.provider m = "openai" /\ variable = "OPENAI_API_KEY"
         \/ Schema.provider m = "groq" /\ variable = "GROQ_API_KEY" ->
         getenv E variable = None \/ getenv E variable = Some "" ->
         exists msg, create_provider E m = Py.Raise (Py.ValueError msg))
  /\ (forall (E : Env) (limit : nat) (s0 s1 : GlobalState)
             (m : Schema.ModelConfig) (e : Py.exn),
         sample_persona_and_rating E 0 s0 = Py.Ok s1 ->
         split_colon (model_id (current_review s1))
           = Some (Schema.provider m, Schema.model m) ->
         find_model (Schema.models (config s1)) (Schema.provider m)
           (Schema.model m) = Some m ->
         create_provider E m = Py.Raise e ->
         (2 <= limit)%nat ->
         invoke E limit s0
         = Raised e {| node := generate_node; state := s1;
                       trace := [sample]; stderr := [] |}).
Proof.
  split; [|split].
  - intros E m Ho Hg. unfold create_provider.
    apply String.eqb_neq in Ho. apply String.eqb_neq in Hg.
    now rewrite Ho, Hg.
  - intros E m variable Hwhich Hkey. unfold create_provider, provider_with_key.
    destruct Hwhich as [[Hp ->]|[Hp ->]]; rewrite Hp.
    + change ("openai" =? "openai")%string with true. cbv iota.
      destruct Hkey as [-> | ->]; eexists; reflexivity.
    + change ("groq" =? "openai")%string with false.
      change ("groq" =? "groq")%string with true. cbv iota.
      destruct Hkey as [-> | ->]; eexists; reflexivity.
  - intros E limit s0 s1 m e Hsample Hsplit Hfind Hprov Hlimit.
    destruct limit as [|[|limit]]; try lia.
    assert (Hfirst : step E (start s0)
                     = Py.Ok {| node := generate_node; state := s1;
                                trace := [sample]; stderr := [] |})
      by (rewrite (step_spec E (start s0) s1) by exact Hsample; reflexivity).
    assert (Hstep : step E {| node := generate_node; state := s1;
                              trace := [sample]; stderr := [] |}
                    = Py.Raise e).
    { unfold step. cbn [node state trace List.length node_function].
      unfold generate_review. rewrite Hsplit, Hfind, Hprov. reflexivity. }
    unfold invoke. rewrite run_not_end by discriminate. rewrite Hfirst.
    rewrite run_not_end by discriminate.
    rewrite Hstep. reflexivity.
Qed.

Lemma unbuildable_provider_aborts_run_witness :
  invoke Example.world_happy 1000
    (Example.initial_state (Example.config_with [Scenario.openrouter_model]) 1)
  = Raised (Py.ValueError
              "Unsupported provider: openrouter. Supported providers: 'openai', 'groq'.")
      {| node := generate_node;
         state := set_current_review
                    (Example.initial_state
                       (Example.config_with [Scenario.openrouter_model]) 1)
                    (Scenario.sampled_review "openrouter:anthropic/claude-3.7-sonnet");
         trace := [sample]; stderr := [] |}.
Proof.
  destruct unbuildable_provider_aborts_run as (_ & _ & H).
  apply (H Example.world_happy 1000%nat _ _ Scenario.openrouter_model).
  - reflexivity.
  - reflexivity.
  - reflexivity.
  - reflexivity.
  - apply Nat.leb_le. reflexivity.
Defined.

(** ** The identity of an attempt *)

(** Every node but [sample] leaves the persona, the rating and the
    model of the current review as they are. *)
Lemma node_keeps_identity (E : Env) (t : nat) (n : Node) (s s' : GlobalState) :
  n <> sample ->
  node_function E t n s = Py.Ok s' ->
  persona (current_review s') = persona (current_review s)
  /\ rating (current_review s') = rating (current_review s)
  /\ model_id (current_review s') = model_id (current_review s).
Proof.
  intros Hn H. destruct n; cbn [node_function] in H.
  - now destruct Hn.
  - unfold generate_review in H. returned H.
    cbn [current_review set_current_review].
    match goal with
    | |- context [generate E t ?c ?p ?x ?y] => destruct (generate E t c p x y)
        as [[| response |] seconds | msg]
    end; try (repeat split; fail).
    destruct (negb (Py.truthy (Py.strip response))); repeat split.
  - unfold check_diversity in H. returned H; repeat split.
  - unfold check_bias in H. returned H; repeat split.
  - unfold check_realism in H. returned H; repeat split.
  - unfold aggregate_guardrails in H. returned H; repeat split.
  - unfold accept_review in H. returned H. repeat split.
  - unfold reject_review in H. returned H. repeat split.
  - unfold prepare_regeneration in H. returned H. repeat split.
  - returned H. repeat split.
Qed.

Lemma successor_sample (n : Node) (s : GlobalState) :
  successor n s = sample -> n = accept \/ n = reject.
Proof.
  destruct n; cbn [successor]; try discriminate; auto.
  destruct (is_valid _); [discriminate|]. destruct (retries_left _); discriminate.
Qed.

(** X7: drafting, scoring, aggregation and a retry keep the persona,
    the rating and the model of the attempt: from any stage after
    sampling up to the routing of the attempt they are what the sampler
    drew. *)
Theorem attempt_keeps_persona_rating_model :
  forall (E : Env) (fuel : nat) (r r' : Run),
    node r <> sample ->
    run_attempt E fuel r = Finished r' ->
    persona (current_review (state r')) = persona (current_review (state r))
    /\ rating (current_review (state r')) = rating (current_review (state r))
    /\ model_id (current_review (state r')) = model_id (current_review (state r)).
Proof.
  intros E fuel. induction fuel as [|fuel IH]; intros r r' Hn H;
    rewrite run_attempt_unfold in H.
  - destruct (node r); try discriminate H; injection H as <-; repeat split.
  - assert (Hstop : (node r = accept \/ node r = reject \/ node r = END)
                    \/ (node r <> accept /\ node r <> reject /\ node r <> END))
      by (destruct (node r); auto; right; repeat split; discriminate).
    destruct Hstop as [Hstop|(Ha & Hr & He)].
    + destruct Hstop as [Hs|[Hs|Hs]]; rewrite Hs in H;
        injection H as <-; repeat split.
    + assert (Hgo : match step E r with
                    | Py.Ok r1 => run_attempt E fuel r1
                    | Py.Raise e => Raised e r
                    end = Finished r')
        by (destruct (node r); try exact H; congruence).
      destruct (step E r) as [r1|e] eqn:Hstep; [|discriminate Hgo].
      destruct (step_inv E r r1 Hstep) as (Hf & Hn1 & _).
      destruct (node_keeps_identity E _ _ _ _ Hn Hf) as (Hp1 & Hr1 & Hm1).
      assert (Hn1' : node r1 <> sample).
      { intros Hs. rewrite Hn1 in Hs. apply successor_sample in Hs. tauto. }
      destruct (IH r1 r' Hn1' Hgo) as (Hp & Hr' & Hm).
      repeat split; congruence.
Qed.

Lemma attempt_keeps_persona_rating_model_witness :
  exists r',
    run_attempt Example.world_down 18
      {| node := generate_node;
         state := Example.state_with
                    (Example.review_with None 5 Example.no_scores) [];
         trace := [sample]; stderr := [] |} = Finished r'
    /\ node r' = reject
    /\ model_id (current_review (state r')) = "openai:gpt-4o-mini".
Proof.
  eexists. split; [vm_compute; reflexivity|]. split; [reflexivity|].
  etransitivity.
  - apply (attempt_keeps_persona_rating_model Example.world_down 18
             {| node := generate_node;
                state := Example.state_with
                           (Example.review_with None 5 Example.no_scores) [];
                trace := [sample]; stderr := [] |});
      [discriminate | vm_compute; reflexivity].
  - reflexivity.
Defined.

(** ** The accepted and the rejected list *)

(** The verdict of the aggregator: it keeps the draft and the scores,
    and a review it marks valid has a draft and the three pass flags,
    while one it marks invalid has a reason. *)
Lemma aggregate_verdict (s s' : GlobalState) :
  aggregate_guardrails s = Py.Ok s' ->
  review_text (current_review s') = review_text (current_review s)
  /\ quality_scores (current_review s') = quality_scores (current_review s)
  /\ (is_valid (current_review s') = true ->
      rejection_reason (current_review s') = None
      /\ draft_blank (review_text (current_review s)) = false
      /\ diversity_pass_of (quality_scores (current_review s)) = true
      /\ bias_pass_of (quality_scores (current_review s)) = true
      /\ realism_pass_of (quality_scores (current_review s)) = true)
  /\ (is_valid (current_review s') = false ->
      exists reason, rejection_reason (current_review s') = Some reason).
Proof.
  unfold aggregate_guardrails. rewrite early_exit_blank.
  destruct (draft_blank (review_text (current_review s))) eqn:Hblank.
  - intros H. apply Ok_inj in H. subst s'.
    cbn [current_review set_current_review set_verdict review_text quality_scores
         is_valid rejection_reason].
    split; [reflexivity|]. split; [reflexivity|].
    split; [discriminate | eauto].
  - destruct (diversity_pass_of (quality_scores (current_review s))) eqn:Hd;
    destruct (bias_pass_of (quality_scores (current_review s))) eqn:Hb;
    destruct (realism_pass_of (quality_scores (current_review s))) eqn:Hr;
    cbn [andb negb]; intros H; returned H;
    match goal with K : _ = Py.Ok _ |- _ => unfold append_unless in K; returned K end;
    cbn [current_review set_current_review set_verdict review_text quality_scores
         is_valid rejection_reason];
    (split; [reflexivity|]); (split; [reflexivity|]);
    (split; [first [discriminate | intros _; repeat split; assumption]
            | first [discriminate | eauto]]).
Qed.

(** Only [sample] and [generate_node] write the draft. *)
Lemma node_keeps_text (E : Env) (t : nat) (n : Node) (s s' : GlobalState) :
  n <> sample -> n <> generate_node ->
  node_function E t n s = Py.Ok s' ->
  review_text (current_review s') = review_text (current_review s).
Proof.
  intros Hs Hg H. destruct n; cbn [node_function] in H.
  - now destruct Hs.
  - now destruct Hg.
  - unfold check_diversity in H. returned H; reflexivity.
  - unfold check_bias in H. returned H; reflexivity.
  - unfold check_realism in H. returned H; reflexivity.
  - unfold aggregate_guardrails in H. returned H; reflexivity.
  - unfold accept_review in H. returned H. reflexivity.
  - unfold reject_review in H. returned H. reflexivity.
  - unfold prepare_regeneration in H. returned H. reflexivity.
  - returned H. reflexivity.
Qed.

(** The draft [generate_review] leaves: none, or a trimmed one. *)
Lemma generate_review_trimmed (E : Env) (t : nat) (s s' : GlobalState) :
  generate_review E t s = Py.Ok s' ->
  match review_text (current_review s') with
  | Some text => trimmed text
  | None => True
  end.
Proof.
  intros H. unfold generate_review in H. returned H.
  cbn [current_review set_current_review].
  match goal with
  | |- context [generate E t ?c ?p ?x ?y] =>
      destruct (generate E t c p x y) as [[| response |] seconds | msg]
  end; cbn [review_text set_generation_failure]; try exact I.
  destruct (Py.truthy (Py.strip response)) eqn:Hs;
    cbn [negb review_text set_generation_failure set_generated_text]; [|exact I].
  split; [apply strip_fixed | now apply strip_not_blank].
Qed.

(** What [accept] and [reject] leave of the attempt: the review they
    store is the current one, which stays. *)
Lemma routed_review_stays (E : Env) (t : nat) (n : Node) (s s' : GlobalState) :
  n = accept \/ n = reject ->
  node_function E t n s = Py.Ok s' ->
  current_review s' = current_review s.
Proof.
  intros [-> | ->] H; cbn [node_function] in H;
    [unfold accept_review in H | unfold reject_review in H];
    apply Ok_inj in H; subst s'; reflexivity.
Qed.

Lemma truthy_opt_text (o : option string) :
  Py.truthy_opt o = true ->
  exists text, o = Some text
               /\ match o with Some s => s | None => "" end = text.
Proof.
  destruct o as [text|]; [|discriminate]. intros _. now exists text.
Qed.

(** What [check_diversity] records: it writes the diversity record and
    nothing else of the review, and a record that passes says what the
    guardrail checks. *)
Lemma check_diversity_records (E : Env) (t : nat) (s s' : GlobalState) :
  check_diversity E t s = Py.Ok s' ->
  exists d,
    quality_scores (current_review s')
    = set_diversity (quality_scores (current_review s)) d
    /\ (diversity_pass d = Some true ->
        diversity_met (Schema.guardrails (config s)) d).
Proof.
  intros H. unfold check_diversity in H. returned H.
  - eexists. split; [reflexivity|]. discriminate.
  - eexists. split; [reflexivity|]. intros _.
    exists 0%float, 0%float. split; [reflexivity|]. split; [reflexivity|].
    left. split; reflexivity.
  - eexists. split; [reflexivity|]. cbn [diversity_pass]. intros Hp.
    injection Hp as Hp. apply andb_prop in Hp. destruct Hp as [Hv Hs].
    eexists _, _. split; [reflexivity|]. split; [reflexivity|].
    right. eexists _, _. repeat split; eassumption.
Qed.

(** What [check_bias] records. *)
Lemma check_bias_records (E : Env) (t : nat) (s s' : GlobalState) :
  check_bias E t s = Py.Ok s' ->
  exists b,
    quality_scores (current_review s')
    = set_bias (quality_scores (current_review s)) b
    /\ (bias_pass b = Some true ->
        exists text,
          review_text (current_review s) = Some text
          /\ bias_met E (Schema.guardrails (config s)) text
               (rating (current_review s)) b).
Proof.
  intros H. unfold check_bias in H. returned H.
  - eexists. split; [reflexivity|]. discriminate.
  - eexists. split; [reflexivity|]. cbn [bias_pass]. intros Hp.
    injection Hp as Hp. apply andb_prop in Hp. destruct Hp as [Ha Hz].
    match goal with
    | K : negb (Py.truthy_opt ?o) = false |- _ =>
        apply negb_false_iff in K;
        destruct (truthy_opt_text o K) as (text & Ht & Htext)
    end.
    rewrite Htext in *. exists text. split; [exact Ht|].
    unfold bias_met. cbn [sentiment_compound sentiment_rating_aligned z_score].
    split; [reflexivity|]. split; [now rewrite Ha|].
    split; [now apply sentiment_aligned_iff|].
    eexists _, _. split; [reflexivity|]. split; [eassumption|].
    now apply orb_prop in Hz.
Qed.

(** What [check_realism] records. *)
Lemma check_realism_records (E : Env) (t : nat) (s s' : GlobalState) :
  check_realism E t s = Py.Ok s' ->
  exists x,
    quality_scores (current_review s')
    = set_realism (quality_scores (current_review s)) x
    /\ (realism_pass x = Some true ->
        realism_met (Schema.guardrails (config s)) x).
Proof.
  intros H. unfold check_realism in H. returned H.
  - eexists. split; [reflexivity|]. discriminate.
  - eexists. split; [reflexivity|]. cbn [realism_pass]. intros Hp.
    injection Hp as Hp. eexists _, _. split; [reflexivity|].
    split; [eassumption|]. split; [exact Hp|]. apply judge_score_unit.
Qed.

Lemma sample_leaves_no_draft (E : Env) (t : nat) (s s' : GlobalState) :
  sample_persona_and_rating E t s = Py.Ok s' ->
  review_text (current_review s') = None /\ feedback s' = None.
Proof.
  intros H. unfold sample_persona_and_rating in H. returned H. split; reflexivity.
Qed.

Lemma attempt_ok_start (E : Env) (s0 : GlobalState) : attempt_ok E (start s0).
Proof.
  unfold attempt_ok, start. cbn [node state scored_by].
  split; [intros H; now destruct H|].
  repeat split; discriminate.
Qed.

(** Every step keeps [attempt_ok]. *)
Lemma attempt_ok_step (E : Env) (x y : Run) :
  attempt_ok E x -> node x <> END -> step E x = Py.Ok y -> attempt_ok E y.
Proof.
  intros (Htext & Hdiv & Hbias & Hreal & Hacc) Hend Hstep.
  destruct (step_inv E x y Hstep) as (Hf & Hn & _ & _).
  destruct (node_effect E _ _ _ _ Hf) as (Hc & _).
  unfold attempt_ok. rewrite Hc.
  destruct (node x) eqn:Hnode; try (now destruct Hend);
    cbn [successor] in Hn; cbn [node_function] in Hf.
  - (* sample *)
    destruct (sample_leaves_no_draft E _ _ _ Hf) as [Hnone _].
    rewrite Hn, Hnone. cbn [scored_by].
    split; [intros _; exact I|]. repeat split; discriminate.
  - (* generate_node *)
    pose proof (generate_review_trimmed E _ _ _ Hf) as Ht.
    rewrite Hn. cbn [scored_by].
    split; [intros _; exact Ht|]. repeat split; discriminate.
  - (* diversity_check *)
    assert (Hk : review_text (current_review (state y))
                 = review_text (current_review (state x)))
      by (apply (node_keeps_text E (List.length (trace x)) diversity_check);
          [discriminate | discriminate | exact Hf]).
    destruct (check_diversity_records E _ _ _ Hf) as (d & Hq & Hd).
    rewrite Hn, Hk, Hq. cbn [scored_by set_diversity diversity].
    split; [intros _; apply Htext; discriminate|].
    split; [intros _; now exists d|]. repeat split; discriminate.
  - (* bias_check *)
    assert (Hk : review_text (current_review (state y))
                 = review_text (current_review (state x)))
      by (apply (node_keeps_text E (List.length (trace x)) bias_check);
          [discriminate | discriminate | exact Hf]).
    destruct (node_keeps_identity E _ bias_check _ _ ltac:(discriminate) Hf)
      as (_ & Hrat & _).
    destruct (check_bias_records E _ _ _ Hf) as (b & Hq & Hb).
    rewrite Hn, Hk, Hq, Hrat. cbn [scored_by set_bias diversity bias].
    split; [intros _; apply Htext; discriminate|].
    split; [intros _; apply Hdiv; reflexivity|].
    split; [intros _; now exists b|]. repeat split; discriminate.
  - (* realism_check *)
    assert (Hk : review_text (current_review (state y))
                 = review_text (current_review (state x)))
      by (apply (node_keeps_text E (List.length (trace x)) realism_check);
          [discriminate | discriminate | exact Hf]).
    destruct (node_keeps_identity E _ realism_check _ _ ltac:(discriminate) Hf)
      as (_ & Hrat & _).
    destruct (check_realism_records E _ _ _ Hf) as (r & Hq & Hr).
    rewrite Hn, Hk, Hq, Hrat. cbn [scored_by set_realism diversity bias realism].
    split; [intros _; apply Htext; discriminate|].
    split; [intros _; apply Hdiv; reflexivity|].
    split; [intros _; apply Hbias; reflexivity|].
    split; [intros _; now exists r|]. discriminate.
  - (* aggregate *)
    destruct (aggregate_verdict _ _ Hf) as (Hk & Hq & Hvalid & _).
    destruct (node_keeps_identity E (List.length (trace x)) aggregate _ _
                ltac:(discriminate) Hf) as (_ & Hrat & _).
    rewrite Hk, Hq, Hrat.
    split; [intros _; apply Htext; discriminate|].
    assert (Hcases : node y = accept /\ is_valid (current_review (state y)) = true
                     \/ scored_by diversity_check (node y) = false
                        /\ scored_by bias_check (node y) = false
                        /\ scored_by realism_check (node y) = false
                        /\ node y <> accept).
    { rewrite Hn. destruct (is_valid (current_review (state y))); [left; auto|].
      right. destruct (retries_left (state y)); repeat split; discriminate. }
    destruct Hcases as [[Ha Hv]|(H1 & H2 & H3 & H4)].
    + rewrite Ha. cbn [scored_by].
      split; [intros _; apply Hdiv; reflexivity|].
      split; [intros _; apply Hbias; reflexivity|].
      split; [intros _; apply Hreal; reflexivity|].
      intros _. split; [exact Hv|]. exact (Hvalid Hv).
    + rewrite H1, H2, H3. do 3 (split; [discriminate|]). intros Ha. now destruct H4.
  - (* accept *)
    rewrite (routed_review_stays E 0%nat accept _ _ (or_introl eq_refl) Hf).
    assert (Hs : scored_by diversity_check (node y) = false
                 /\ scored_by bias_check (node y) = false
                 /\ scored_by realism_check (node y) = false
                 /\ node y <> accept)
      by (rewrite Hn; destruct (finishes (state y)); repeat split; discriminate).
    destruct Hs as (H1 & H2 & H3 & H4). rewrite H1, H2, H3.
    split; [intros _; apply Htext; discriminate|].
    do 3 (split; [discriminate|]). intros Ha. now destruct H4.
  - (* reject *)
    rewrite (routed_review_stays E 0%nat reject _ _ (or_intror eq_refl) Hf).
    assert (Hs : scored_by diversity_check (node y) = false
                 /\ scored_by bias_check (node y) = false
                 /\ scored_by realism_check (node y) = false
                 /\ node y <> accept)
      by (rewrite Hn; destruct (finishes (state y)); repeat split; discriminate).
    destruct Hs as (H1 & H2 & H3 & H4). rewrite H1, H2, H3.
    split; [intros _; apply Htext; discriminate|].
    do 3 (split; [discriminate|]). intros Ha. now destruct H4.
  - (* prepare_retry *)
    assert (Hk : review_text (current_review (state y))
                 = review_text (current_review (state x)))
      by (apply (node_keeps_text E (List.length (trace x)) prepare_retry);
          [discriminate | discriminate | exact Hf]).
    rewrite Hn, Hk. cbn [scored_by].
    split; [intros _; apply Htext; discriminate|]. repeat split; discriminate.
Qed.

(** At [accept] the attempt in flight is a review that passed. *)
Lemma accept_ready (E : Env) (r : Run) :
  attempt_ok E r -> node r = accept ->
  passed_all E (Schema.guardrails (config (state r))) (current_review (state r)).
Proof.
  intros (Htext & Hdiv & Hbias & Hreal & Hacc) Hnode. rewrite Hnode in *.
  destruct (Hacc eq_refl) as (Hv & Hreason & Hblank & Hd & Hb & Hr).
  destruct (Hdiv eq_refl) as (d & Hqd & Hdm).
  destruct (Hbias eq_refl) as (b & Hqb & Hbm).
  destruct (Hreal eq_refl) as (x & Hqr & Hrm).
  specialize (Htext ltac:(discriminate)).
  unfold diversity_pass_of in Hd. rewrite Hqd in Hd.
  unfold bias_pass_of in Hb. rewrite Hqb in Hb.
  unfold realism_pass_of in Hr. rewrite Hqr in Hr.
  assert (Hdp : diversity_pass d = Some true)
    by (destruct (diversity_pass d) as [[|]|]; first [reflexivity | discriminate Hd]).
  assert (Hbp : bias_pass b = Some true)
    by (destruct (bias_pass b) as [[|]|]; first [reflexivity | discriminate Hb]).
  assert (Hrp : realism_pass x = Some true)
    by (destruct (realism_pass x) as [[|]|]; first [reflexivity | discriminate Hr]).
  destruct (Hbm Hbp) as (text & Ht & Hmet).
  split; [exact Hv|]. split; [exact Hreason|].
  exists text, d, b, x. rewrite Ht in Htext.
  split; [exact Ht|]. split; [exact Htext|].
  split.
  { destruct (quality_scores (current_review (state r))) as [qd qb qr].
    cbn [diversity bias realism] in Hqd, Hqb, Hqr. now subst. }
  auto 10.
Qed.

(** A step keeps the accepted list to reviews that passed. *)
Lemma accepted_step (E : Env) (g : Schema.GuardrailConfig) (x y : Run) :
  Schema.guardrails (config (state x)) = g ->
  attempt_ok E x ->
  Forall (passed_all E g) (accepted_reviews (state x)) ->
  step E x = Py.Ok y ->
  Forall (passed_all E g) (accepted_reviews (state y)).
Proof.
  intros Hg Hok Hall Hstep.
  destruct (step_inv E x y Hstep) as (Hf & _).
  destruct (node_effect E _ _ _ _ Hf) as (_ & _ & _ & Ha & _).
  rewrite Ha.
  assert (Hcases : node x = accept \/ node x <> accept)
    by (destruct (node x); auto; right; discriminate).
  destruct Hcases as [Hx|Hx].
  - rewrite Hx. apply Forall_app. split; [exact Hall|].
    constructor; [|constructor]. rewrite <- Hg. now apply accept_ready.
  - destruct (node x); try exact Hall. now destruct Hx.
Qed.

(** X8: the accepted list holds only reviews that passed.  Along a run
    every review on it is marked valid and has no rejection reason, its
    draft is trimmed and not blank, and its three records passed: the
    diversity record holds the bootstrap values or an overlap and a
    similarity below the thresholds, the bias record holds the polarity
    of the draft, which agrees with the rating, and a z-score below the
    threshold or 0.0, and the realism record holds a score between 0
    and 1 that is at least the threshold. *)
Theorem accepted_reviews_passed_all :
  forall (E : Env) (s0 : GlobalState) (r : Run),
    Forall (passed_all E (Schema.guardrails (config s0))) (accepted_reviews s0) ->
    reaches E (start s0) r ->
    Forall (passed_all E (Schema.guardrails (config s0)))
      (accepted_reviews (state r)).
Proof.
  intros E s0 r H0 Hreach.
  apply (reaches_invariant E
           (fun r => config (state r) = config s0
                     /\ attempt_ok E r
                     /\ Forall (passed_all E (Schema.guardrails (config s0)))
                          (accepted_reviews (state r)))
           (start s0) r);
    [|split; [reflexivity | split; [apply attempt_ok_start | exact H0]]
     |exact Hreach].
  intros x y (Hc & Hok & Hall) Hend Hstep.
  destruct (step_effect E x y Hstep) as (_ & _ & Hc' & _).
  split; [congruence|]. split; [exact (attempt_ok_step E x y Hok Hend Hstep)|].
  apply (accepted_step E _ x y); [now rewrite Hc | exact Hok | exact Hall | exact Hstep].
Qed.

(** From an empty accepted list on, the list holds only reviews that
    passed. *)
Lemma accepted_from_empty (E : Env) (s0 : GlobalState) (r : Run) :
  accepted_reviews s0 = [] ->
  reaches E (start s0) r ->
  Forall (passed_all E (Schema.guardrails (config s0)))
    (accepted_reviews (state r)).
Proof.
  intros H0 Hreach.
  enough (H : config (state r) = config s0
              /\ attempt_ok E r
              /\ Forall (passed_all E (Schema.guardrails (config s0)))
                   (accepted_reviews (state r)))
    by exact (proj2 (proj2 H)).
  apply (reaches_invariant E
           (fun r => config (state r) = config s0
                     /\ attempt_ok E r
                     /\ Forall (passed_all E (Schema.guardrails (config s0)))
                          (accepted_reviews (state r)))
           (start s0) r); [| |exact Hreach].
  - intros x y (Hc & Hok & Hall) Hend Hstep.
    destruct (step_effect E x y Hstep) as (_ & _ & Hc' & _).
    split; [congruence|].
    split; [exact (attempt_ok_step E x y Hok Hend Hstep)|].
    apply (accepted_step E _ x y);
      [now rewrite Hc | exact Hok | exact Hall | exact Hstep].
  - split; [reflexivity|]. split; [apply attempt_ok_start|].
    cbn [start state]. rewrite H0. constructor.
Qed.

Lemma accepted_reviews_passed_all_witness :
  exists r,
    invoke Example.world_happy 1000 (Example.initial_state Example.test_config 1)
    = Finished r
    /\ List.length (accepted_reviews (state r)) = 1%nat
    /\ Forall (passed_all Example.world_happy Example.test_guardrails)
         (accepted_reviews (state r)).
Proof.
  pose proof (run_reaches Example.world_happy 1000
                (start (Example.initial_state Example.test_config 1))) as Hreach.
  eexists. split; [vm_compute; reflexivity|]. split; [reflexivity|].
  match goal with
  | |- Forall _ (accepted_reviews (state ?R)) =>
      assert (Hrun : run Example.world_happy 1000
                       (start (Example.initial_state Example.test_config 1))
                     = Finished R) by (vm_compute; reflexivity)
  end.
  rewrite Hrun in Hreach. destruct Hreach as [Hreach _].
  apply (accepted_reviews_passed_all Example.world_happy
           (Example.initial_state Example.test_config 1) _ (Forall_nil _) Hreach).
Defined.

(** Only the aggregator routes to [reject]. *)
Lemma successor_reject (n : Node) (s : GlobalState) :
  successor n s = reject ->
  n = aggregate /\ is_valid (current_review s) = false /\ retries_left s = false.
Proof.
  destruct n; cbn [successor]; try discriminate.
  - destruct (is_valid (current_review s)); [discriminate|].
    destruct (retries_left s); [discriminate|]. auto.
  - destruct (finishes s); discriminate.
  - destruct (finishes s); discriminate.
Qed.

(** Along a run the rejected list holds only attempts that gave up,
    and so does [reject] when it is reached. *)
Lemma rejected_invariant (E : Env) (s0 : GlobalState) (r : Run) :
  0 <= max_retries_of s0 ->
  Forall (gave_up (max_retries_of s0)) (rejected_reviews s0) ->
  reaches E (start s0) r ->
  Forall (gave_up (max_retries_of s0)) (rejected_reviews (state r))
  /\ (node r = reject -> gave_up (max_retries_of s0) (current_review (state r))).
Proof.
  intros Hmax H0 Hreach.
  induction Hreach as [|x y Hx IH Hend Hstep].
  - split; [exact H0 | discriminate].
  - destruct IH as [Hall Hrej].
    destruct (step_inv E x y Hstep) as (Hf & Hn & _ & _).
    destruct (node_effect E _ _ _ _ Hf) as (_ & _ & _ & _ & Hj).
    split.
    + rewrite Hj.
      assert (Hcases : node x = reject \/ node x <> reject)
        by (destruct (node x); auto; right; discriminate).
      destruct Hcases as [Hr|Hr].
      * rewrite Hr. apply Forall_app. split; [exact Hall|].
        constructor; [auto | constructor].
      * destruct (node x); try exact Hall. now destruct Hr.
    + intros Hy. rewrite Hy in Hn. symmetry in Hn.
      destruct (successor_reject _ _ Hn) as (Ha & Hv & Hleft).
      rewrite Ha in Hf. cbn [node_function] in Hf.
      destruct (aggregate_verdict _ _ Hf) as (_ & _ & _ & Hreason).
      destruct (retry_count_invariant E s0 y Hmax
                  (reaches_step E (start s0) x y Hx Hend Hstep))
        as [Hm [[Hnil _]|[_ [Hb _]]]].
      * destruct (step_inv E x y Hstep) as (_ & _ & Ht & _).
        rewrite Ht in Hnil. apply app_eq_nil in Hnil.
        destruct Hnil as [_ Hnil]. discriminate Hnil.
      * unfold gave_up. split; [exact Hv|]. split; [exact (Hreason Hv)|].
        unfold retries_left in Hleft. apply Z.ltb_ge in Hleft.
        unfold max_retries_of in *. lia.
Qed.

(** X9: the rejected list holds only attempts that used up their
    retries.  Along a run from the entry point every review on it is
    marked invalid, carries the reason the aggregator gave for its last
    draft, and has a retry count equal to max_retries. *)
Theorem rejected_reviews_gave_up :
  forall (E : Env) (s0 : GlobalState) (r : Run),
    0 <= max_retries_of s0 ->
    Forall (gave_up (max_retries_of s0)) (rejected_reviews s0) ->
    reaches E (start s0) r ->
    Forall (gave_up (max_retries_of s0)) (rejected_reviews (state r)).
Proof.
  intros E s0 r Hmax H0 Hreach.
  exact (proj1 (rejected_invariant E s0 r Hmax H0 Hreach)).
Qed.

Lemma rejected_reviews_gave_up_witness :
  exists r,
    run Example.world_down 19 (start (Example.initial_state Example.test_config 1))
    = RecursionLimit r
    /\ List.length (rejected_reviews (state r)) = 1%nat
    /\ Forall (gave_up 2) (rejected_reviews (state r)).
Proof.
  pose proof (run_reaches Example.world_down 19
                (start (Example.initial_state Example.test_config 1))) as Hreach.
  eexists. split; [vm_compute; reflexivity|]. split; [reflexivity|].
  match goal with
  | |- Forall _ (rejected_reviews (state ?R)) =>
      assert (Hrun : run Example.world_down 19
                       (start (Example.initial_state Example.test_config 1))
                     = RecursionLimit R) by (vm_compute; reflexivity)
  end.
  rewrite Hrun in Hreach. destruct Hreach as [Hreach _].
  apply (rejected_reviews_gave_up Example.world_down
           (Example.initial_state Example.test_config 1) _
           ltac:(discriminate) (Forall_nil _) Hreach).
Defined.

(** ** The corpus *)

(** The guards on missing and blank texts keep every review that
    passed. *)
Lemma passed_texts_kept (E : Env) (g : Schema.GuardrailConfig)
    (reviews : list ReviewState) :
  Forall (passed_all E g) reviews ->
  accepted_texts_of reviews = map text_of reviews
  /\ synthetic_texts_of reviews = map text_of reviews.
Proof.
  unfold synthetic_texts_of.
  induction 1 as [|review rest (_ & _ & text & d & b & x & Ht & [_ Hblank] & _) _ IH];
    [split; reflexivity|].
  destruct IH as [IH1 IH2].
  assert (Hs : Py.truthy (Py.strip text) = true)
    by (rewrite strip_truthy, Hblank; reflexivity).
  assert (Hne : Py.truthy text = true)
    by (destruct text; [discriminate Hblank | reflexivity]).
  unfold accepted_texts_of in *. cbn [flat_map map]. unfold text_of at 1 3.
  rewrite Ht, Hne. cbn [get app filter]. rewrite Hs, IH1.
  split; [reflexivity|]. now rewrite <- IH1, IH2, IH1.
Qed.

(** X10: no accepted review is lost on the way.  Along a run from an
    empty accepted list, the corpus the diversity and the bias scorer
    read, and the synthetic texts the comparison with real reviews
    keeps, hold the draft of every accepted review, in order: the guards
    against a missing, empty or blank text never drop one. *)
Theorem accepted_texts_complete :
  forall (E : Env) (s0 : GlobalState) (r : Run),
    accepted_reviews s0 = [] ->
    reaches E (start s0) r ->
    accepted_texts_of (accepted_reviews (state r))
    = map text_of (accepted_reviews (state r))
    /\ synthetic_texts_of (accepted_reviews (state r))
       = map text_of (accepted_reviews (state r))
    /\ List.length (accepted_texts_of (accepted_reviews (state r)))
       = List.length (accepted_reviews (state r)).
Proof.
  intros E s0 r H0 Hreach.
  pose proof (accepted_from_empty E s0 r H0 Hreach) as Hall.
  destruct (passed_texts_kept E _ _ Hall) as [H1 H2].
  split; [exact H1|]. split; [exact H2|]. now rewrite H1, length_map.
Qed.

Lemma accepted_texts_complete_witness :
  exists r,
    invoke Example.world_happy 1000 (Example.initial_state Example.test_config 1)
    = Finished r
    /\ synthetic_texts_of (accepted_reviews (state r)) = [Example.good_text]
    /\ List.length (accepted_texts_of (accepted_reviews (state r)))
       = List.length (accepted_reviews (state r)).
Proof.
  pose proof (run_reaches Example.world_happy 1000
                (start (Example.initial_state Example.test_config 1))) as Hreach.
  eexists. split; [vm_compute; reflexivity|]. split; [vm_compute; reflexivity|].
  match goal with
  | |- List.length (accepted_texts_of (accepted_reviews (state ?R))) = _ =>
      assert (Hrun : run Example.world_happy 1000
                       (start (Example.initial_state Example.test_config 1))
                     = Finished R) by (vm_compute; reflexivity)
  end.
  rewrite Hrun in Hreach. destruct Hreach as [Hreach _].
  exact (proj2 (proj2 (accepted_texts_complete Example.world_happy
                         (Example.initial_state Example.test_config 1) _
                         eq_refl Hreach))).
Defined.

(** ** Metrics *)

Lemma getitem_update {V : Type} (d : dict V) (key key' : string) (f : V -> V) :
  getitem (update d key f) key'
  = if String.eqb key key'
    then match getitem d key with
         | Py.Ok v => Py.Ok (f v)
         | Py.Raise e => Py.Raise (Py.KeyError key')
         end
    else getitem d key'.
Proof.
  induction d as [|[k v] rest IH]; cbn [update getitem].
  - destruct (String.eqb key key'); reflexivity.
  - destruct (String.eqb k key) eqn:Hk; cbn [getitem].
    + apply String.eqb_eq in Hk. subst k.
      destruct (String.eqb key key'); reflexivity.
    + destruct (String.eqb k key') eqn:Hk'; [|exact IH].
      apply String.eqb_eq in Hk'. subst k.
      rewrite String.eqb_sym, Hk. reflexivity.
Qed.

Lemma getitem_app_new {V : Type} (d : dict V) (key key' : string) (v : V) :
  has_key d key = false ->
  getitem (d ++ [(key, v)])%list key'
  = if String.eqb key key' then Py.Ok v else getitem d key'.
Proof.
  induction d as [|[k x] rest IH]; cbn [has_key app getitem]; intros H.
  - destruct (String.eqb key key'); reflexivity.
  - apply orb_false_elim in H. destruct H as [Hk Hrest].
    destruct (String.eqb k key') eqn:Hk'.
    + apply String.eqb_eq in Hk'. subst k. rewrite String.eqb_sym, Hk. reflexivity.
    + exact (IH Hrest).
Qed.

Lemma has_key_getitem {V : Type} (d : dict V) (key : string) :
  has_key d key = false -> getitem d key = Py.Raise (Py.KeyError key).
Proof.
  induction d as [|[k x] rest IH]; cbn [has_key getitem]; intros H; [reflexivity|].
  apply orb_false_elim in H. destruct H as [Hk Hrest]. rewrite Hk. exact (IH Hrest).
Qed.

(** The entry of a model after a review was recorded: the entry of the
    review's model is created when missing and incremented, the others
    stay. *)
Lemma getitem_record_metrics (metrics : dict ModelMetrics) (review : ReviewState)
    (accepted : bool) (id : string) :
  getitem (record_metrics metrics review accepted) id
  = if String.eqb (model_id review) id
    then
      let m := match getitem metrics id with
               | Py.Ok m => m
               | Py.Raise _ => new_metrics
               end in
      Py.Ok {| accepted_count := accepted_count m + (if accepted then 1 else 0);
               rejected_count := rejected_count m + (if accepted then 0 else 1);
               total_generation_time :=
                 (total_generation_time m + generation_time review)%float;
               total_evaluation_time :=
                 (total_evaluation_time m + evaluation_time review)%float;
               total_retries := total_retries m + retry_count review |}
    else getitem metrics id.
Proof.
  unfold record_metrics. rewrite getitem_update.
  destruct (String.eqb (model_id review) id) eqn:Hid.
  - apply String.eqb_eq in Hid. subst id.
    destruct (has_key metrics (model_id review)) eqn:Hk.
    + destruct (getitem_has_key _ _ Hk) as [m ->]. reflexivity.
    + rewrite (getitem_app_new _ _ _ _ Hk), String.eqb_refl.
      rewrite (has_key_getitem _ _ Hk). reflexivity.
  - destruct (has_key metrics (model_id review)) eqn:Hk; [reflexivity|].
    rewrite (getitem_app_new _ _ _ _ Hk), Hid. reflexivity.
Qed.

Lemma reviews_of_app (id : string) (a b : list ReviewState) :
  reviews_of id (a ++ b) = (reviews_of id a ++ reviews_of id b)%list.
Proof. apply filter_app. Qed.

Lemma retries_of_from (reviews : list ReviewState) (start : Z) :
  fold_left (fun total r => total + retry_count r) reviews start
  = start + retries_of reviews.
Proof.
  unfold retries_of. revert start.
  induction reviews as [|r rest IH]; intros start; cbn [fold_left]; [lia|].
  rewrite IH, (IH (0 + retry_count r)). lia.
Qed.

Lemma retries_of_app (a b : list ReviewState) :
  retries_of (a ++ b) = retries_of a + retries_of b.
Proof.
  unfold retries_of at 1. rewrite fold_left_app.
  fold (retries_of a). apply retries_of_from.
Qed.

Lemma retries_of_one (r : ReviewState) : retries_of [r] = retry_count r.
Proof. reflexivity. Qed.

(** Recording a finalized review keeps the metrics in agreement with
    the lists. *)
Lemma metrics_match_record (s s' : GlobalState) (accepted : bool) :
  metrics_match s ->
  metrics_per_model s'
  = record_metrics (metrics_per_model s) (current_review s) accepted ->
  accepted_reviews s'
  = (accepted_reviews s ++ (if accepted then [current_review s] else []))%list ->
  rejected_reviews s'
  = (rejected_reviews s ++ (if accepted then [] else [current_review s]))%list ->
  metrics_match s'.
Proof.
  intros Hm Hmet Hacc Hrej id. specialize (Hm id).
  rewrite Hmet, Hacc, Hrej, getitem_record_metrics, !reviews_of_app, !length_app,
    !retries_of_app.
  destruct (String.eqb (model_id (current_review s)) id) eqn:Hid;
    destruct (getitem (metrics_per_model s) id) as [m|e].
  - destruct Hm as (Ha & Hr & Ht & Hpos).
    cbn [accepted_count rejected_count total_retries].
    destruct accepted; cbn [reviews_of filter]; rewrite ?Hid;
      cbn [List.length retries_of fold_left]; repeat split; lia.
  - destruct Hm as (Ha & Hr). rewrite Ha, Hr.
    cbn [accepted_count rejected_count total_retries new_metrics].
    destruct accepted; cbn [reviews_of filter]; rewrite ?Hid;
      cbn [List.length retries_of fold_left app]; repeat split; lia.
  - destruct Hm as (Ha & Hr & Ht & Hpos).
    destruct accepted; cbn [reviews_of filter]; rewrite ?Hid;
      cbn [List.length retries_of fold_left]; rewrite ?app_nil_r;
      repeat split; lia.
  - destruct Hm as (Ha & Hr). rewrite Ha, Hr.
    destruct accepted; cbn [reviews_of filter]; rewrite ?Hid; split; reflexivity.
Qed.

(** Only [accept] and [reject] write the metrics. *)
Lemma node_metrics (E : Env) (t : nat) (n : Node) (s s' : GlobalState) :
  node_function E t n s = Py.Ok s' ->
  metrics_per_model s'
  = match n with
    | accept => record_metrics (metrics_per_model s) (current_review s) true
    | reject => record_metrics (metrics_per_model s) (current_review s) false
    | _ => metrics_per_model s
    end.
Proof.
  intros H. destruct n; cbn [node_function] in H.
  - unfold sample_persona_and_rating in H. returned H. reflexivity.
  - unfold generate_review in H. returned H. reflexivity.
  - unfold check_diversity in H. returned H; reflexivity.
  - unfold check_bias in H. returned H; reflexivity.
  - unfold check_realism in H. returned H; reflexivity.
  - unfold aggregate_guardrails in H. returned H; reflexivity.
  - unfold accept_review in H. returned H. reflexivity.
  - unfold reject_review in H. returned H. reflexivity.
  - unfold prepare_regeneration in H. returned H. reflexivity.
  - returned H. reflexivity.
Qed.

Lemma metrics_match_step (E : Env) (x y : Run) :
  metrics_match (state x) -> node x <> END -> step E x = Py.Ok y ->
  metrics_match (state y).
Proof.
  intros Hm Hend Hstep.
  destruct (step_inv E x y Hstep) as (Hf & _).
  destruct (node_effect E _ _ _ _ Hf) as (_ & _ & _ & Ha & Hj).
  pose proof (node_metrics E _ _ _ _ Hf) as Hmet.
  destruct (node x);
    try (intros id; specialize (Hm id); rewrite Hmet, Ha, Hj; exact Hm).
  - apply (metrics_match_record (state x) (state y) true Hm Hmet);
      [exact Ha | now rewrite app_nil_r].
  - apply (metrics_match_record (state x) (state y) false Hm Hmet);
      [now rewrite app_nil_r | exact Hj].
Qed.

(** X11: the per-model metrics agree with the accepted and the
    rejected list all along a run.  From a state in which they agree
    (the initial state of the command line: empty lists, no entry), a
    model has an entry exactly when one of its attempts was finalized,
    its accepted_count and rejected_count are the numbers of its reviews
    on the two lists, and its total_retries is the sum of their retry
    counts. *)
Theorem metrics_agree_with_lists :
  forall (E : Env) (s0 : GlobalState) (r : Run),
    metrics_match s0 ->
    reaches E (start s0) r ->
    metrics_match (state r).
Proof.
  intros E s0 r H0 Hreach.
  exact (reaches_invariant E (fun r => metrics_match (state r)) (start s0) r
           (metrics_match_step E) H0 Hreach).
Qed.

Lemma metrics_agree_with_lists_witness :
  exists r m,
    invoke Example.world_happy 1000 (Example.initial_state Example.test_config 2)
    = Finished r
    /\ getitem (metrics_per_model (state r)) "openai:gpt-4o-mini" = Py.Ok m
    /\ accepted_count m = 1
    /\ rejected_count m = 20
    /\ total_retries m = 40
    /\ metrics_match (state r).
Proof.
  pose proof (run_reaches Example.world_happy 1000
                (start (Example.initial_state Example.test_config 2))) as Hreach.
  eexists _, _. split; [vm_compute; reflexivity|].
  split; [vm_compute; reflexivity|]. do 3 (split; [reflexivity|]).
  match goal with
  | |- metrics_match (state ?R) =>
      assert (Hrun : run Example.world_happy 1000
                       (start (Example.initial_state Example.test_config 2))
                     = Finished R) by (vm_compute; reflexivity)
  end.
  rewrite Hrun in Hreach. destruct Hreach as [Hreach _].
  apply (metrics_agree_with_lists Example.world_happy
           (Example.initial_state Example.test_config 2) _
           (fun id => conj eq_refl eq_refl) Hreach).
Defined.

(** ** Quality statistics *)

(** The reviews that passed hold every score the statistics collect. *)
Lemma passed_scores_collected (E : Env) (g : Schema.GuardrailConfig)
    (reviews : list ReviewState) :
  Forall (passed_all E g) reviews ->
  List.length (diversity_scores_of reviews) = List.length reviews
  /\ List.length (bias_scores_of reviews) = List.length reviews
  /\ List.length (realism_scores_of reviews) = List.length reviews
  /\ Forall (meets_realism_threshold g) (realism_scores_of reviews).
Proof.
  induction 1 as [|review rest Hreview _ IH].
  - repeat split; constructor.
  - destruct IH as (Hd & Hb & Hr & Hall).
    destruct Hreview
      as (_ & _ & text & d & b & x & _ & _ & Hq & _ & Hdm & _ & Hbm & _ & Hrm).
    destruct Hdm as (overlap & similarity & _ & Hsim & _).
    destruct Hbm as (_ & _ & _ & z & zt & Hz & _).
    destruct Hrm as (score & threshold & Hscore & Hth & Hge & H0 & H1).
    unfold diversity_scores_of, bias_scores_of, realism_scores_of in *.
    cbn [flat_map]. rewrite Hq. cbn [diversity bias realism get].
    rewrite Hsim, Hz, Hscore. cbn [app List.length].
    rewrite Hd, Hb, Hr. repeat split; try reflexivity.
    constructor; [|exact Hall]. exists threshold. auto.
Qed.

(** X12: the quality statistics are taken over every accepted review.
    Along a run from an empty accepted list, for every model, each of
    the three lists [calculate_quality_statistics] collects from the
    accepted reviews of the model holds one score per review, none being
    skipped for a missing record or key; and every realism score that
    enters the statistics lies between 0 and 1 and meets the configured
    threshold. *)
Theorem quality_statistics_complete :
  forall (E : Env) (s0 : GlobalState) (r : Run) (id : string),
    accepted_reviews s0 = [] ->
    reaches E (start s0) r ->
    let reviews := reviews_of id (accepted_reviews (state r)) in
    List.length (diversity_scores_of reviews) = List.length reviews
    /\ List.length (bias_scores_of reviews) = List.length reviews
    /\ List.length (realism_scores_of reviews) = List.length reviews
    /\ Forall (meets_realism_threshold (Schema.guardrails (config s0)))
         (realism_scores_of reviews).
Proof.
  intros E s0 r id H0 Hreach reviews.
  pose proof (accepted_from_empty E s0 r H0 Hreach) as Hall.
  apply (passed_scores_collected E). unfold reviews, reviews_of.
  rewrite Forall_forall in *. intros review Hin.
  apply filter_In in Hin. exact (Hall review (proj1 Hin)).
Qed.

Lemma quality_statistics_complete_witness :
  exists r,
    invoke Example.world_happy 1000 (Example.initial_state Example.test_config 1)
    = Finished r
    /\ realism_scores_of (reviews_of "openai:gpt-4o-mini" (accepted_reviews (state r)))
       = [0.85%float]
    /\ Forall (meets_realism_threshold Example.test_guardrails)
         (realism_scores_of
            (reviews_of "openai:gpt-4o-mini" (accepted_reviews (state r)))).
Proof.
  pose proof (run_reaches Example.world_happy 1000
                (start (Example.initial_state Example.test_config 1))) as Hreach.
  eexists. split; [vm_compute; reflexivity|]. split; [vm_compute; reflexivity|].
  match goal with
  | |- Forall _ (realism_scores_of (reviews_of _ (accepted_reviews (state ?R)))) =>
      assert (Hrun : run Example.world_happy 1000
                       (start (Example.initial_state Example.test_config 1))
                     = Finished R) by (vm_compute; reflexivity)
  end.
  rewrite Hrun in Hreach. destruct Hreach as [Hreach _].
  exact (proj2 (proj2 (proj2
           (quality_statistics_complete Example.world_happy
              (Example.initial_state Example.test_config 1) _
              "openai:gpt-4o-mini" eq_refl Hreach)))).
Defined.

(** ** The cost of a run *)

Lemma steps_accounted_step (E : Env) (x y : Run) :
  node x <> END -> step E x = Py.Ok y ->
  steps_accounted y = steps_accounted x + 1.
Proof.
  intros Hend Hstep.
  destruct (step_inv E x y Hstep) as (Hf & Hn & _ & _).
  destruct (node_effect E _ _ _ _ Hf) as (_ & _ & Hr & Ha & Hj).
  unfold steps_accounted, Evaluators.calculate_global_metrics.
  cbn [Evaluators.total_attempts Evaluators.total_retries]. rewrite Hn, Hr, Ha, Hj.
  destruct (node x) eqn:Hnode; try (now destruct Hend); cbn [successor steps_in_flight].
  - lia.
  - lia.
  - lia.
  - lia.
  - lia.
  - destruct (is_valid _); [cbn [steps_in_flight]; lia|].
    destruct (retries_left _); cbn [steps_in_flight]; lia.
  - rewrite <- app_assoc, !retries_of_app, retries_of_one, length_app.
    cbn [List.length].
    destruct (finishes (state y)); cbn [steps_in_flight]; lia.
  - rewrite app_assoc, !retries_of_app, retries_of_one, length_app.
    cbn [List.length].
    destruct (finishes (state y)); cbn [steps_in_flight]; lia.
  - lia.
Qed.

(** From empty lists the steps of a run are accounted for. *)
Lemma trace_accounted (E : Env) (s0 : GlobalState) (r : Run) :
  accepted_reviews s0 = [] ->
  rejected_reviews s0 = [] ->
  reaches E (start s0) r ->
  Z.of_nat (List.length (trace r)) = steps_accounted r.
Proof.
  intros Ha Hj Hreach.
  apply (reaches_invariant E
           (fun r => Z.of_nat (List.length (trace r)) = steps_accounted r)
           (start s0) r); [| |exact Hreach].
  - intros x y Hx Hend Hstep.
    rewrite (steps_accounted_step E x y Hend Hstep), <- Hx.
    destruct (step_inv E x y Hstep) as (_ & _ & Ht & _).
    rewrite Ht, length_app. cbn [List.length]. lia.
  - unfold steps_accounted, start, Evaluators.calculate_global_metrics.
    cbn [state node trace Evaluators.total_attempts Evaluators.total_retries steps_in_flight].
    rewrite Ha, Hj. reflexivity.
Qed.

(** X13: what a run costs.  From empty lists, the number of steps a
    run has taken is seven for every finalized attempt, six more for
    every retry of a finalized attempt, and the steps of the attempt in
    flight; so a finished run took exactly
    7 * Evaluators.total_attempts + 6 * total_retries steps, in the totals of
    [calculate_global_metrics]. *)
Theorem steps_of_a_run :
  forall (E : Env) (s0 : GlobalState) (r : Run),
    accepted_reviews s0 = [] ->
    rejected_reviews s0 = [] ->
    reaches E (start s0) r ->
    Z.of_nat (List.length (trace r)) = steps_accounted r
    /\ (node r = END ->
        let counts := Evaluators.calculate_global_metrics (accepted_reviews (state r))
                        (rejected_reviews (state r)) in
        Z.of_nat (List.length (trace r))
        = 7 * Evaluators.total_attempts counts + 6 * Evaluators.total_retries counts).
Proof.
  intros E s0 r Ha Hj Hreach.
  pose proof (trace_accounted E s0 r Ha Hj Hreach) as H.
  split; [exact H|]. intros Hend. rewrite H. unfold steps_accounted.
  rewrite Hend. cbn [steps_in_flight]. lia.
Qed.

Lemma steps_of_a_run_witness :
  exists r,
    invoke Example.world_happy 1000 (Example.initial_state Example.test_config 2)
    = Finished r
    /\ List.length (trace r) = 387%nat
    /\ Z.of_nat (List.length (trace r)) = 7 * 21 + 6 * 40.
Proof.
  pose proof (run_reaches Example.world_happy 1000
                (start (Example.initial_state Example.test_config 2))) as Hreach.
  eexists. split; [vm_compute; reflexivity|]. split; [reflexivity|].
  match goal with
  | |- Z.of_nat (List.length (trace ?R)) = _ =>
      assert (Hrun : run Example.world_happy 1000
                       (start (Example.initial_state Example.test_config 2))
                     = Finished R) by (vm_compute; reflexivity)
  end.
  rewrite Hrun in Hreach. destruct Hreach as [Hreach Hend].
  exact (proj2 (steps_of_a_run Example.world_happy
                  (Example.initial_state Example.test_config 2) _
                  eq_refl eq_refl Hreach) Hend).
Defined.

(** ** The recursion limit of the command line *)

(** A run takes at most as many steps as its limit. *)
Lemma run_trace_length (E : Env) (fuel : nat) (r : Run) :
  match run E fuel r with
  | Finished r' | Raised _ r' | RecursionLimit r' =>
      (List.length (trace r') <= List.length (trace r) + fuel)%nat
  end.
Proof.
  revert r. induction fuel as [|fuel IH]; intros r; rewrite run_unfold.
  - destruct (node r); lia.
  - destruct (node r); try lia.
    all: destruct (step E r) as [r1|e] eqn:Hstep; [|lia].
    all: destruct (step_inv E r r1 Hstep) as (_ & _ & Ht & _).
    all: specialize (IH r1); rewrite Ht, length_app in IH; cbn [List.length] in IH.
    all: destruct (run E fuel r1); lia.
Qed.

(** Along a run the accepted attempts carry a retry count within the
    configured maximum. *)
Lemma accepted_retries_bounded (E : Env) (s0 : GlobalState) (r : Run) :
  0 <= max_retries_of s0 ->
  Forall (fun review => 0 <= retry_count review <= max_retries_of s0)
    (accepted_reviews s0) ->
  reaches E (start s0) r ->
  Forall (fun review => 0 <= retry_count review <= max_retries_of s0)
    (accepted_reviews (state r)).
Proof.
  intros Hmax H0 Hreach.
  induction Hreach as [|x y Hx IH Hend Hstep]; [exact H0|].
  destruct (step_inv E x y Hstep) as (Hf & _).
  destruct (node_effect E _ _ _ _ Hf) as (_ & _ & _ & Ha & _).
  rewrite Ha.
  assert (Hcases : node x = accept \/ node x <> accept)
    by (destruct (node x); auto; right; discriminate).
  destruct Hcases as [Hacc|Hacc].
  - rewrite Hacc. apply Forall_app. split; [exact IH|].
    constructor; [|constructor].
    destruct (retry_count_invariant E s0 x Hmax Hx) as [Hm [[_ Hs]|[_ [Hb _]]]].
    + rewrite Hacc in Hs. discriminate Hs.
    + now rewrite <- Hm.
  - destruct (node x); try exact IH. now destruct Hacc.
Qed.

Lemma retries_of_cons (r : ReviewState) (rest : list ReviewState) :
  retries_of (r :: rest) = retry_count r + retries_of rest.
Proof. exact (retries_of_app [r] rest). Qed.

Lemma retries_of_nonneg (reviews : list ReviewState) (bound : Z) :
  Forall (fun review => 0 <= retry_count review <= bound) reviews ->
  0 <= retries_of reviews.
Proof.
  induction 1 as [|r rest Hr _ IH]; [reflexivity|]. rewrite retries_of_cons. lia.
Qed.

Lemma retries_of_gave_up (reviews : list ReviewState) (max_retries : Z) :
  Forall (gave_up max_retries) reviews ->
  retries_of reviews = max_retries * Z.of_nat (List.length reviews).
Proof.
  induction 1 as [|r rest (_ & _ & Hr) _ IH]; [cbn; lia|].
  rewrite retries_of_cons, IH, Hr. cbn [List.length]. lia.
Qed.

(** X14: the recursion limit of the command line against the cost of a
    run.  A run of [generate_command] that finishes took at least seven
    steps for each review of the target, and when it finishes without
    reaching the target, the safety valve having stopped it, at least
    7 * (10 * target + 1) + 6 * max_retries * (9 * target + 2) steps.
    The limit max(1000, target * (max_retries + 1) * 5) is below that:
    for a target of 15 or more a run that finishes has reached the
    target, the safety valve never being what ends it; and with
    max_retries = 0 no run for more than 142 reviews finishes. *)
Theorem command_line_limit_against_cost :
  forall (E : Env) (config : Schema.DomainConfig) (target : Z) (r : Run),
    0 <= Schema.max_retries (Schema.guardrails config) ->
    0 < target ->
    generate_command E config target = Finished r ->
    let max_retries := Schema.max_retries (Schema.guardrails config) in
    let taken := Z.of_nat (List.length (trace r)) in
    taken <= recursion_limit target max_retries
    /\ 7 * target <= taken
    /\ (accepted_total (state r) < target ->
        7 * (10 * target + 1) + 6 * max_retries * (9 * target + 2) <= taken)
    /\ (15 <= target -> target <= accepted_total (state r))
    /\ (max_retries = 0 -> target <= 142).
Proof.
  intros E config target r Hmax Htarget Hrun max_retries taken.
  unfold generate_command, invoke in Hrun.
  set (s0 := Example.initial_state config target) in *.
  set (limit := Z.to_nat (recursion_limit target
                            (Schema.max_retries (Schema.guardrails config)))) in *.
  pose proof (run_trace_length E limit (start s0)) as Hlen.
  pose proof (run_reaches E limit (start s0)) as Hreach.
  rewrite Hrun in Hlen, Hreach. destruct Hreach as [Hreach Hend].
  cbn [start trace List.length] in Hlen.
  assert (Hlimit : taken <= recursion_limit target max_retries).
  { unfold taken, limit, recursion_limit in *. fold max_retries in Hlen. lia. }
  (* the cost of the run *)
  assert (Hcost : taken = steps_accounted r)
    by exact (trace_accounted E s0 r eq_refl eq_refl Hreach).
  unfold steps_accounted, Evaluators.calculate_global_metrics in Hcost.
  cbn [Evaluators.total_attempts Evaluators.total_retries] in Hcost.
  rewrite Hend, retries_of_app in Hcost. cbn [steps_in_flight] in Hcost.
  (* what the lists hold *)
  assert (Hm0 : max_retries_of s0 = max_retries) by reflexivity.
  assert (Hmax0 : 0 <= max_retries_of s0) by (rewrite Hm0; exact Hmax).
  pose proof (accepted_retries_bounded E s0 r Hmax0 (Forall_nil _) Hreach) as Hacc.
  apply retries_of_nonneg in Hacc.
  destruct (rejected_invariant E s0 r Hmax0 (Forall_nil _) Hreach) as [Hrej _].
  apply retries_of_gave_up in Hrej. rewrite Hm0 in Hrej.
  (* why the run finished *)
  destruct (last_step E (start s0) r Hreach) as (x & Hx & Hstep);
    [discriminate | exact Hend|].
  pose proof (reaches_invariant E (within_valve (start s0)) (start s0) r
                (within_valve_step E (start s0)) (within_valve_here (start s0))
                Hreach) as [Ht _].
  cbn [start state s0 Example.initial_state target_size] in Ht.
  pose proof (finish_reason E x r Hstep Hend Hx) as Hwhy.
  rewrite Ht in Hwhy. unfold accepted_total, finalized_total in *.
  set (a := Z.of_nat (List.length (accepted_reviews (state r)))) in *.
  set (j := Z.of_nat (List.length (rejected_reviews (state r)))) in *.
  assert (Ha : 0 <= a) by (unfold a; lia).
  assert (Hj : 0 <= j) by (unfold j; lia).
  assert (Hvalve : a < target ->
                   7 * (10 * target + 1) + 6 * max_retries * (9 * target + 2)
                   <= taken).
  { intros Hshort. destruct Hwhy as [Hreached|(_ & Hmany & _)]; [lia|].
    assert (Hj' : 9 * target + 2 <= j) by lia.
    assert (Hmj : max_retries * (9 * target + 2) <= max_retries * j)
      by (apply Z.mul_le_mono_nonneg_l; assumption).
    lia. }
  assert (Hbest : 7 * target <= taken).
  { destruct Hwhy as [Hreached|(_ & Hmany & _)].
    - assert (0 <= max_retries * j) by (apply Z.mul_nonneg_nonneg; assumption). lia.
    - assert (0 <= max_retries * j) by (apply Z.mul_nonneg_nonneg; assumption). lia. }
  split; [exact Hlimit|]. split; [exact Hbest|]. split; [exact Hvalve|].
  unfold recursion_limit in Hlimit. split.
  - intros Hbig.
    assert (Hcases : target <= a \/ a < target) by lia.
    destruct Hcases as [Hok|Hshort]; [exact Hok|].
    specialize (Hvalve Hshort). exfalso.
    assert (0 <= max_retries * target) by (apply Z.mul_nonneg_nonneg; lia).
    nia.
  - intros Hzero. rewrite Hzero in Hlimit. lia.
Qed.

Lemma command_line_limit_against_cost_witness :
  exists r,
    generate_command Example.world_happy Example.test_config 1 = Finished r
    /\ Z.of_nat (List.length (trace r)) <= recursion_limit 1 2
    /\ 7 * 1 <= Z.of_nat (List.length (trace r))
    /\ recursion_limit 1 2 = 1000.
Proof.
  eexists. split; [vm_compute; reflexivity|].
  match goal with
  | |- Z.of_nat (List.length (trace ?R)) <= _ /\ _ =>
      destruct (command_line_limit_against_cost Example.world_happy
                  Example.test_config 1 R) as (Hlimit & Hbest & _);
        [discriminate | reflexivity | vm_compute; reflexivity |]
  end.
  split; [exact Hlimit|]. split; [exact Hbest | reflexivity].
Defined.

(** ** Runs that do not raise *)





Lemma accepted_texts_of_nil (accepted : list ReviewState) :
  accepted = [] -> accepted_texts_of accepted = [].
Proof. intros ->. reflexivity. Qed.









(** ** Retry prompts *)

Lemma prefix_refl (s : string) : prefix s s = true.
Proof.
  induction s as [|c s IH]; [reflexivity|].
  cbn [prefix]. destruct (ascii_dec c c) as [_|Hne]; [exact IH | now destruct Hne].
Qed.

Lemma contains_refl (s : string) : Py.contains s s = true.
Proof. apply contains_prefix, prefix_refl. Qed.

Lemma append_associative (a b c : string) : (a ++ b) ++ c = a ++ b ++ c.
Proof. induction a as [|x a IH]; [reflexivity|]. cbn [append]. now rewrite IH. Qed.

(** [sub in a + sub + b]. *)
Lemma contains_middle (sub a b : string) : Py.contains sub (a ++ sub ++ b) = true.
Proof. apply contains_app_r, contains_app_l, contains_refl. Qed.

(** A prompt built with feedback spells the feedback out. *)
Lemma build_prompt_feedback (domain : string) (persona : Persona) (rating : Z)
    (characteristics : Schema.ReviewCharacteristics) (text : string) :
  Py.truthy text = true ->
  Py.contains ("Previous attempt feedback: " ++ text)
    (build_prompt domain persona rating characteristics (Some text)) = true.
Proof.
  intros Ht. unfold build_prompt. rewrite Ht.
  do 31 apply contains_app_r.
  apply contains_app_l.
  apply contains_app_r, contains_app_r.
  rewrite <- (append_associative "Previous attempt feedback: " text).
  apply contains_app_l, contains_refl.
Qed.

(** And so whatever the feedback mentions. *)
Lemma build_prompt_mentions (domain : string) (persona : Persona) (rating : Z)
    (characteristics : Schema.ReviewCharacteristics) (sub text : string) :
  Py.truthy text = true ->
  Py.contains sub text = true ->
  Py.contains sub (build_prompt domain persona rating characteristics (Some text))
  = true.
Proof.
  intros Ht Hsub. unfold build_prompt. rewrite Ht.
  do 31 apply contains_app_r.
  apply contains_app_l.
  do 3 apply contains_app_r.
  now apply contains_app_l.
Qed.

(** Only [sample] and [prepare_retry] write the feedback. *)
Lemma node_feedback (E : Env) (t : nat) (n : Node) (s s' : GlobalState) :
  node_function E t n s = Py.Ok s' ->
  feedback s'
  = match n with
    | sample => None
    | prepare_retry =>
        Some (retry_feedback
                match rejection_reason (current_review s) with
                | Some reason => reason
                | None => "None"
                end)
    | _ => feedback s
    end.
Proof.
  intros H. destruct n; cbn [node_function] in H.
  - unfold sample_persona_and_rating in H. returned H. reflexivity.
  - unfold generate_review in H. returned H. reflexivity.
  - unfold check_diversity in H. returned H; reflexivity.
  - unfold check_bias in H. returned H; reflexivity.
  - unfold check_realism in H. returned H; reflexivity.
  - unfold aggregate_guardrails in H. returned H; reflexivity.
  - unfold accept_review in H. returned H. reflexivity.
  - unfold reject_review in H. returned H. reflexivity.
  - unfold prepare_regeneration in H. returned H. reflexivity.
  - returned H. reflexivity.
Qed.

(** Only the aggregator routes to a retry. *)
Lemma successor_prepare_retry (n : Node) (s : GlobalState) :
  successor n s = prepare_retry ->
  n = aggregate /\ is_valid (current_review s) = false.
Proof.
  destruct n; cbn [successor]; try discriminate.
  - destruct (is_valid (current_review s)); [discriminate|]. auto.
  - destruct (finishes s); discriminate.
  - destruct (finishes s); discriminate.
Qed.

(** A configuration of a run other than its first was reached by a
    step. *)
Lemma reached_by_step (E : Env) (s0 : GlobalState) (r : Run) :
  reaches E (start s0) r -> node r <> sample ->
  exists x, reaches E (start s0) x /\ node x <> END /\ step E x = Py.Ok r.
Proof.
  intros H Hn. destruct H as [|x y Hx Hend Hstep].
  - now destruct Hn.
  - now exists x.
Qed.

(** Within an attempt the retry count is not negative, and before the
    first retry there is no feedback. *)
Lemma first_draft_invariant (E : Env) (s0 : GlobalState) (r : Run) :
  reaches E (start s0) r ->
  node r <> sample ->
  0 <= retry_count (current_review (state r))
  /\ (retry_count (current_review (state r)) = 0 -> feedback (state r) = None).
Proof.
  intros Hreach.
  apply (reaches_invariant E
           (fun r => node r <> sample ->
                     0 <= retry_count (current_review (state r))
                     /\ (retry_count (current_review (state r)) = 0 ->
                         feedback (state r) = None))
           (start s0) r); [|intros H; now destruct H|exact Hreach].
  intros x y Hx Hend Hstep Hy.
  destruct (step_inv E x y Hstep) as (Hf & Hn & _ & _).
  destruct (node_effect E _ _ _ _ Hf) as (_ & _ & Hr & _).
  pose proof (node_feedback E _ _ _ _ Hf) as Hfb.
  rewrite Hr, Hfb.
  destruct (node x) eqn:Hnode; try (now destruct Hend);
    try (apply Hx; discriminate).
  - split; [lia | reflexivity].
  - destruct Hx as [H0 _]; [discriminate|]. split; [lia|]. intros Hz. lia.
Qed.

(** X16: what the drafter is told.  The first draft of an attempt is
    prompted without feedback.  A retry is prepared only for an attempt
    that carries a rejection reason, never the text "None": the step
    returns, it stores the feedback built from that reason, and the
    prompt of the next draft spells the feedback out, the reason
    included. *)
Theorem retry_prompt_carries_reason :
  forall (E : Env) (s0 : GlobalState) (r : Run),
    reaches E (start s0) r ->
    (node r = generate_node ->
     retry_count (current_review (state r)) = 0 ->
     feedback (state r) = None)
    /\ (node r = prepare_retry ->
        exists reason r',
          rejection_reason (current_review (state r)) = Some reason
          /\ step E r = Py.Ok r'
          /\ node r' = generate_node
          /\ feedback (state r') = Some (retry_feedback reason)
          /\ retry_count (current_review (state r'))
             = retry_count (current_review (state r)) + 1
          /\ Py.contains ("Previous attempt feedback: " ++ retry_feedback reason)
               (prompt_of (state r')) = true
          /\ Py.contains reason (prompt_of (state r')) = true).
Proof.
  intros E s0 r Hreach. split.
  - intros Hnode Hzero.
    apply (first_draft_invariant E s0 r Hreach); [rewrite Hnode; discriminate|].
    exact Hzero.
  - intros Hnode.
    destruct (reached_by_step E s0 r Hreach) as (x & _ & _ & Hstep);
      [rewrite Hnode; discriminate|].
    destruct (step_inv E x r Hstep) as (Hf & Hn & _ & _).
    rewrite Hnode in Hn. symmetry in Hn.
    destruct (successor_prepare_retry _ _ Hn) as (Ha & Hv).
    rewrite Ha in Hf. cbn [node_function] in Hf.
    destruct (aggregate_verdict _ _ Hf) as (_ & _ & _ & Hreason).
    destruct (Hreason Hv) as [reason Hr].
    assert (Hgo : node_function E (List.length (trace r)) (node r) (state r)
                  = prepare_regeneration (state r))
      by (rewrite Hnode; reflexivity).
    unfold prepare_regeneration in Hgo. rewrite Hr in Hgo.
    exists reason. eexists. split; [exact Hr|].
    split; [exact (step_spec E r _ Hgo)|].
    cbn [node state successor set_current_review set_feedback feedback
         current_review retry_count]. rewrite Hnode.
    split; [reflexivity|]. split; [reflexivity|]. split; [reflexivity|].
    unfold prompt_of.
    cbn [config set_current_review set_feedback feedback current_review
         persona rating].
    fold (retry_feedback reason).
    split; [apply build_prompt_feedback; reflexivity|].
    apply build_prompt_mentions; [reflexivity|].
    unfold retry_feedback. apply contains_middle.
Qed.

Lemma retry_prompt_carries_reason_witness :
  exists r reason r',
    run Example.world_down 6 (start (Example.initial_state Example.test_config 1))
    = RecursionLimit r
    /\ node r = prepare_retry
    /\ rejection_reason (current_review (state r)) = Some reason
    /\ step Example.world_down r = Py.Ok r'
    /\ Py.contains reason (prompt_of (state r')) = true.
Proof.
  pose proof (run_reaches Example.world_down 6
                (start (Example.initial_state Example.test_config 1))) as Hreach.
  assert (Hrun : exists R,
             run Example.world_down 6
               (start (Example.initial_state Example.test_config 1))
             = RecursionLimit R
             /\ node R = prepare_retry)
    by (eexists; split; [vm_compute; reflexivity | reflexivity]).
  destruct Hrun as (R & Hrun & Hnode).
  rewrite Hrun in Hreach. destruct Hreach as [Hreach _].
  destruct (proj2 (retry_prompt_carries_reason Example.world_down
                     (Example.initial_state Example.test_config 1) R Hreach)
              Hnode)
    as (reason & r' & Hr & Hstep & _ & _ & _ & _ & Hc).
  exists R, reason, r'. repeat split; assumption.
Defined.

(** ** The size of the result *)

Lemma short_of_target_step (E : Env) (x y : Run) :
  short_of_target x -> node x <> END -> step E x = Py.Ok y -> short_of_target y.
Proof.
  intros Hx Hend Hstep.
  destruct (step_inv E x y Hstep) as (Hf & Hn & _ & _).
  destruct (node_effect E _ _ _ _ Hf) as (_ & Hg & _ & Ha & Hj).
  unfold short_of_target in *. unfold accepted_total, finalized_total in *.
  rewrite Hn, Hg, Ha, Hj.
  destruct (node x) eqn:Hnode; try (now destruct Hend); cbn [successor];
    try exact Hx.
  - destruct (is_valid _); [exact Hx|]. destruct (retries_left _); exact Hx.
  - unfold finishes, accepted_total, finalized_total. rewrite Hg, Ha, Hj.
    rewrite !length_app. cbn [List.length].
    destruct (_ || _) eqn:Hfin.
    + lia.
    + apply orb_false_elim in Hfin. destruct Hfin as [Hacc _].
      apply Z.leb_gt in Hacc. lia.
  - unfold finishes, accepted_total, finalized_total. rewrite Hg, Ha, Hj.
    rewrite !length_app. cbn [List.length].
    destruct (_ || _) eqn:Hfin.
    + lia.
    + apply orb_false_elim in Hfin. destruct Hfin as [Hacc _].
      apply Z.leb_gt in Hacc. lia.
Qed.

(** X17: the size of what a run hands back.  From empty lists a run
    that finishes has finalized at least one attempt and holds at most
    max(1, target_size) accepted reviews: it never overshoots a target
    of 1 or more, so with the target reached the accepted list has
    exactly target_size reviews; and for a target of 0 or less it still
    works through exactly one attempt before the continuation check is
    consulted for the first time. *)
Theorem run_never_overshoots :
  forall (E : Env) (s0 : GlobalState) (limit : nat) (r : Run),
    accepted_reviews s0 = [] ->
    rejected_reviews s0 = [] ->
    invoke E limit s0 = Finished r ->
    1 <= finalized_total (state r)
    /\ accepted_total (state r) <= Z.max 1 (target_size s0)
    /\ (1 <= target_size s0 -> target_size s0 <= accepted_total (state r) ->
        accepted_total (state r) = target_size s0)
    /\ (target_size s0 <= 0 -> finalized_total (state r) = 1).
Proof.
  intros E s0 limit r Ha Hj Hrun. unfold invoke in Hrun.
  pose proof (run_reaches E limit (start s0)) as Hreach. rewrite Hrun in Hreach.
  destruct Hreach as [Hreach Hend].
  assert (Hinv : target_size (state r) = target_size s0 /\ short_of_target r).
  { apply (reaches_invariant E
             (fun r => target_size (state r) = target_size s0 /\ short_of_target r)
             (start s0) r); [| |exact Hreach].
    - intros x y [Ht Hx] Hx_end Hstep. split.
      + destruct (step_effect E x y Hstep) as (_ & _ & _ & Hg & _). congruence.
      + exact (short_of_target_step E x y Hx Hx_end Hstep).
    - split; [reflexivity|]. unfold short_of_target, start, accepted_total,
        finalized_total. cbn [node state entry_point]. rewrite Ha, Hj.
      cbn [List.length]. lia. }
  destruct Hinv as [Ht Hshort]. unfold short_of_target in Hshort.
  rewrite Hend, Ht in Hshort. destruct Hshort as (H1 & H2 & H3).
  repeat split; try assumption. lia.
Qed.

Lemma run_never_overshoots_witness :
  exists r,
    invoke Example.world_happy 1000 (Example.initial_state Example.test_config 0)
    = Finished r
    /\ finalized_total (state r) = 1
    /\ accepted_total (state r) <= Z.max 1 0.
Proof.
  eexists. split; [vm_compute; reflexivity|].
  match goal with
  | |- finalized_total (state ?R) = 1 /\ _ =>
      destruct (run_never_overshoots Example.world_happy
                  (Example.initial_state Example.test_config 0) 1000 R
                  eq_refl eq_refl) as (_ & Hle & _ & Hone);
        [vm_compute; reflexivity|]
  end.
  split; [apply Hone; discriminate | exact Hle].
Defined.

(** ** Exceptions *)














(** ** Sentiment labels *)

Lemma prim2sf_constants :
  Prim2SF 0.1 = S754_finite false 7205759403792794 (-56)
  /\ Prim2SF (-0.1) = S754_finite true 7205759403792794 (-56)
  /\ Prim2SF 0.05 = S754_finite false 7205759403792794 (-57)
  /\ Prim2SF (-0.05) = S754_finite true 7205759403792794 (-57)
  /\ Prim2SF 0.3 = S754_finite false 5404319552844595 (-54).
Proof. repeat split; vm_compute; reflexivity. Qed.

(** Comparisons of a float with two positive, or two negative,
    constants of different exponents. *)
Lemma SFleb_lower (m1 m2 : positive) (e1 e2 : Z) (x : spec_float) :
  e2 < e1 ->
  SFleb (S754_finite false m1 e1) x = true ->
  SFleb (S754_finite false m2 e2) x = true.
Proof.
  intros He. destruct x as [s|s| |s m e]; try destruct s;
    unfold SFleb, SFcompare; try (intros H; first [reflexivity | discriminate H]).
  destruct (Z.compare_spec e1 e) as [H1|H1|H1]; destruct (Z.compare_spec e2 e);
    try lia; try reflexivity; intros H; discriminate H.
Qed.

Lemma SFleb_upper (m1 m2 : positive) (e1 e2 : Z) (x : spec_float) :
  e2 < e1 ->
  SFleb x (S754_finite true m1 e1) = true ->
  SFleb x (S754_finite true m2 e2) = true
  /\ SFleb (S754_finite false m2 e2) x = false.
Proof.
  intros He. destruct x as [s|s| |s m e]; try destruct s;
    unfold SFleb, SFcompare;
    try (intros H; first [split; reflexivity | discriminate H]).
  destruct (Z.compare_spec e e1) as [H1|H1|H1]; destruct (Z.compare_spec e e2);
    try lia; try (split; reflexivity); intros H; discriminate H.
Qed.

Lemma SFltb_between (mp mn mq : positive) (ep en eq : Z) (x : spec_float) :
  ep < eq -> en < eq ->
  SFleb (S754_finite false mp ep) x = false ->
  SFleb x (S754_finite true mn en) = false ->
  SFeqb x x = true ->
  SFltb (SFabs x) (S754_finite false mq eq) = true.
Proof.
  intros Hp Hn. destruct x as [s|s| |s m e]; try destruct s;
    unfold SFleb, SFltb, SFeqb, SFabs, SFcompare;
    try (intros H1 H2 H3; first [reflexivity | discriminate H1 | discriminate H2
                                | discriminate H3]).
  - destruct (Z.compare_spec e en) as [H1|H1|H1];
      destruct (Z.compare_spec e eq); try lia; try reflexivity;
      intros K1 K2 K3; try discriminate K2.
    all: destruct (Pos.compare_cont Eq m mn); discriminate K2.
  - destruct (Z.compare_spec ep e) as [H1|H1|H1];
      destruct (Z.compare_spec e eq); try lia; try reflexivity;
      intros K1 K2 K3; try discriminate K1.
    all: destruct (Pos.compare_cont Eq mp m); discriminate K1.
Qed.

Lemma aligned_positive_label (c : float) :
  (0.1 <=? c)%float = true -> (0.05 <=? c)%float = true.
Proof.
  destruct prim2sf_constants as (H1 & _ & H2 & _).
  rewrite !FloatAxioms.leb_spec, H1, H2. apply SFleb_lower. lia.
Qed.

Lemma aligned_negative_label (c : float) :
  (c <=? -0.1)%float = true ->
  (c <=? -0.05)%float = true /\ (0.05 <=? c)%float = false.
Proof.
  destruct prim2sf_constants as (_ & H1 & H2 & H3 & _).
  rewrite !FloatAxioms.leb_spec, H1, H2, H3. apply SFleb_upper. lia.
Qed.

Lemma neutral_label_aligned (c : float) :
  (0.05 <=? c)%float = false ->
  (c <=? -0.05)%float = false ->
  (c =? c)%float = true ->
  (PrimFloat.abs c <? 0.3)%float = true.
Proof.
  destruct prim2sf_constants as (_ & _ & H1 & H2 & H3).
  rewrite !FloatAxioms.leb_spec, FloatAxioms.ltb_spec, FloatAxioms.eqb_spec,
    FloatAxioms.abs_spec, H1, H2, H3.
  apply SFltb_between; lia.
Qed.

(** X19: the alignment test of the bias scorer against the sentiment
    labels it computes and drops.  For a rating other than 3 the test is
    the stricter one: a draft it finds aligned has the label the rating
    expects, while a draft of rating 5 and polarity 0.07 has that label
    and is not aligned.  For rating 3 it is the more lenient one: a
    draft labelled neutral is aligned when its polarity is a number,
    while a draft of polarity 0.2 is aligned and labelled positive. *)
Theorem alignment_against_labels :
  forall (E : Env) (text : string) (rating : Z),
    let compound := polarity_compound E text in
    (rating <= 2 \/ 4 <= rating ->
     sentiment_aligned_of rating compound = true ->
     get_sentiment_label E text = rating_to_expected_sentiment rating)
    /\ (2 < rating < 4 ->
        (compound =? compound)%float = true ->
        get_sentiment_label E text = rating_to_expected_sentiment rating ->
        sentiment_aligned_of rating compound = true)
    /\ (polarity_compound E text = 0.07%float ->
        get_sentiment_label E text = rating_to_expected_sentiment 5
        /\ sentiment_aligned_of 5 compound = false)
    /\ (polarity_compound E text = 0.2%float ->
        sentiment_aligned_of 3 compound = true
        /\ get_sentiment_label E text <> rating_to_expected_sentiment 3).
Proof.
  intros E text rating compound.
  unfold get_sentiment_label, rating_to_expected_sentiment, sentiment_aligned_of.
  fold compound. split; [|split; [|split]].
  - intros Hr.
    destruct (4 <=? rating) eqn:H4; [apply Z.leb_le in H4 | apply Z.leb_gt in H4].
    + intros Ha. now rewrite (aligned_positive_label compound Ha).
    + destruct (rating <=? 2) eqn:H2; [|apply Z.leb_gt in H2; lia].
      intros Ha. destruct (aligned_negative_label compound Ha) as [Hn Hp].
      now rewrite Hp, Hn.
  - intros [Hlo Hhi] Hnum.
    destruct (4 <=? rating) eqn:H4; [apply Z.leb_le in H4; lia|].
    destruct (rating <=? 2) eqn:H2; [apply Z.leb_le in H2; lia|].
    destruct (0.05 <=? compound)%float eqn:Hp; [discriminate|].
    destruct (compound <=? -0.05)%float eqn:Hn; [discriminate|].
    intros _. now apply neutral_label_aligned.
  - unfold compound. intros ->. split; reflexivity.
  - unfold compound. intros ->. split; [reflexivity | discriminate].
Qed.

(** ** Ratings *)

Lemma sample_draws_listed_rating (E : Env) (t : nat) (s s' : GlobalState) :
  sample_persona_and_rating E t s = Py.Ok s' ->
  In (rating (current_review s')) (map fst (Schema.rating_distribution (config s))).
Proof.
  intros H. unfold sample_persona_and_rating in H.
  destruct (choice E t 0 (Schema.personas (config s))) as [p|]; [|discriminate H].
  cbn [Py.bind] in H.
  destruct (choice E t 1 (map fst (Schema.rating_distribution (config s))))
    as [stars|] eqn:Hr; [|discriminate H].
  cbn [Py.bind] in H.
  destruct (choice E t 2 (Schema.models (config s))) as [m|]; [|discriminate H].
  cbn [Py.bind] in H. apply Ok_inj in H. subst s'.
  exact (choice_in E t 1 _ stars Hr).
Qed.

Lemma rating_listed_step (E : Env) (x y : Run) :
  rating_listed x -> node x <> END -> step E x = Py.Ok y -> rating_listed y.
Proof.
  intros Hx Hend Hstep Hy.
  destruct (step_inv E x y Hstep) as (Hf & Hn & _ & _).
  destruct (node_effect E _ _ _ _ Hf) as (Hc & _).
  rewrite Hc.
  assert (Hcases : node x = sample \/ node x <> sample)
    by (destruct (node x); auto; right; discriminate).
  destruct Hcases as [Hs|Hs].
  - rewrite Hs in Hf. cbn [node_function] in Hf.
    exact (sample_draws_listed_rating E _ _ _ Hf).
  - destruct (node_keeps_identity E _ _ _ _ Hs Hf) as (_ & Hrat & _).
    rewrite Hrat. exact (Hx Hs).
Qed.

Lemma validated_ratings (E : Env) (repr : float -> string)
    (v v' : list (Z * float)) (stars : Z) :
  validate_rating_distribution E repr v = Py.Ok v' ->
  In stars (map fst v) -> 1 <= stars <= 5.
Proof.
  unfold validate_rating_distribution.
  destruct (forallb _ (map fst v)) eqn:Hall; [|discriminate].
  intros _ Hin. rewrite forallb_forall in Hall. specialize (Hall stars Hin).
  cbn [existsb] in Hall. rewrite orb_false_r in Hall.
  repeat (apply orb_prop in Hall; destruct Hall as [Hall|Hall]);
    apply Z.eqb_eq in Hall; lia.
Qed.

(** X20: the ratings of a validated configuration.  When the rating
    distribution passes [validate_rating_distribution], every attempt of
    a run carries a rating from 1 to 5 that the distribution lists, from
    sampling on and through every retry; so the last branch of the
    rating guidance of [build_prompt], written for rating 1, is taken
    for rating 1 only. *)
Theorem validated_rating_in_range :
  forall (E : Env) (repr : float -> string) (s0 : GlobalState) (r : Run)
         (v : list (Z * float)),
    validate_rating_distribution E repr (Schema.rating_distribution (config s0))
    = Py.Ok v ->
    reaches E (start s0) r ->
    node r <> sample ->
    let stars := rating (current_review (state r)) in
    In stars (map fst (Schema.rating_distribution (config s0)))
    /\ 1 <= stars <= 5
    /\ ((stars =? 5) || (stars =? 4) || (stars =? 3) || (stars =? 2) = false ->
        stars = 1).
Proof.
  intros E repr s0 r v Hvalid Hreach Hnode stars.
  assert (Hinv : config (state r) = config s0 /\ rating_listed r).
  { apply (reaches_invariant E
             (fun r => config (state r) = config s0 /\ rating_listed r)
             (start s0) r); [| |exact Hreach].
    - intros x y [Hc Hk] Hx Hstep. split.
      + destruct (step_effect E x y Hstep) as (_ & _ & Hc' & _). congruence.
      + exact (rating_listed_step E x y Hk Hx Hstep).
    - split; [reflexivity|]. intros H. now destruct H. }
  destruct Hinv as [Hc Hlisted]. specialize (Hlisted Hnode). rewrite Hc in Hlisted.
  pose proof (validated_ratings E repr _ v stars Hvalid Hlisted) as Hrange.
  split; [exact Hlisted|]. split; [exact Hrange|].
  intros Hnot. repeat (apply orb_false_elim in Hnot; destruct Hnot as [Hnot ?]).
  repeat match goal with K : (_ =? _) = false |- _ => apply Z.eqb_neq in K end.
  lia.
Qed.

Lemma validated_rating_in_range_witness :
  exists r,
    run Example.world_happy 1 (start (Example.initial_state Example.test_config 1))
    = RecursionLimit r
    /\ rating (current_review (state r)) = 5
    /\ 1 <= rating (current_review (state r)) <= 5.
Proof.
  pose proof (run_reaches Example.world_happy 1
                (start (Example.initial_state Example.test_config 1))) as Hreach.
  assert (Hrun : exists R,
             run Example.world_happy 1
               (start (Example.initial_state Example.test_config 1))
             = RecursionLimit R
             /\ rating (current_review (state R)) = 5
             /\ node R = generate_node)
    by (eexists; split; [vm_compute; reflexivity | split; reflexivity]).
  destruct Hrun as (R & Hrun & Hfive & Hnode).
  rewrite Hrun in Hreach. destruct Hreach as [Hreach _].
  exists R. split; [exact Hrun|]. split; [exact Hfive|].
  apply (validated_rating_in_range Example.world_happy (fun _ => "1.0")
           (Example.initial_state Example.test_config 1) R
           (Schema.rating_distribution Example.test_config)).
  - vm_compute. reflexivity.
  - exact Hreach.
  - rewrite Hnode. discriminate.
Defined.

(** ** The summary of rejections *)

Lemma first_part_label (sep : ascii) (label rest : string) :
  has_char sep label = false ->
  first_part sep (label ++ String sep rest) = label.
Proof.
  unfold has_char.
  induction label as [|c label IH]; cbn [append first_part Py.existsb_char].
  - intros _. now rewrite Ascii.eqb_refl.
  - intros H. apply orb_false_elim in H. destruct H as [Hc Hl].
    rewrite Ascii.eqb_sym, Hc, (IH Hl). reflexivity.
Qed.

Lemma first_part_app (sep : ascii) (a b : string) :
  first_part sep (a ++ b)
  = if has_char sep a then first_part sep a else a ++ first_part sep b.
Proof.
  unfold has_char.
  induction a as [|c a IH]; cbn [append first_part Py.existsb_char];
    [reflexivity|].
  rewrite (Ascii.eqb_sym sep c).
  destruct (Ascii.eqb c sep); cbn [orb]; [reflexivity|].
  rewrite IH. destruct (Py.existsb_char (Ascii.eqb sep) a); reflexivity.
Qed.

(** A reason that opens with a label and a colon is filed under the
    label. *)
Lemma main_reason_label (label rest : string) :
  has_char ":" label = false ->
  has_char ";" label = false ->
  main_reason (label ++ ": " ++ rest) = label.
Proof.
  intros Hc Hs. unfold main_reason.
  rewrite has_char_app, Hc. cbn [orb].
  change (has_char ":" (": " ++ rest)) with true. cbv iota.
  rewrite first_part_app, Hs.
  change (": " ++ rest) with (String ":" (" " ++ rest)).
  cbn [first_part]. change (Ascii.eqb ":" ";") with false. cbv iota.
  apply first_part_label. exact Hc.
Qed.

Lemma main_reason_opening (label rest tail : string) :
  has_char ":" label = false ->
  has_char ";" label = false ->
  main_reason ((label ++ ": " ++ rest) ++ tail) = label.
Proof.
  intros Hc Hs.
  rewrite (append_associative label), (append_associative ": ").
  now apply main_reason_label.
Qed.

(** The reason the aggregator gives an invalid attempt is filed under
    what stopped it. *)
Lemma aggregate_files_by_cause (s s' : GlobalState) :
  aggregate_guardrails s = Py.Ok s' ->
  is_valid (current_review s') = false ->
  filed_by_cause (current_review s').
Proof.
  unfold aggregate_guardrails, filed_by_cause, first_failure, failing,
    guardrails_in_order.
  rewrite early_exit_blank.
  destruct (draft_blank (review_text (current_review s))) eqn:Hblank.
  - intros H _. apply Ok_inj in H. subst s'.
    cbn [current_review set_current_review set_verdict review_text quality_scores
         rejection_reason].
    rewrite Hblank. eexists. split; [reflexivity|].
    split; [reflexivity | left; reflexivity].
  - destruct (diversity_pass_of (quality_scores (current_review s))) eqn:Hd;
    destruct (bias_pass_of (quality_scores (current_review s))) eqn:Hb;
    destruct (realism_pass_of (quality_scores (current_review s))) eqn:Hr;
    cbn [andb negb]; intros H Hv; returned H;
    repeat match goal with
      | K : _ = Py.Ok _ |- _ =>
          progress (unfold append_unless, diversity_reason, bias_reason,
                      realism_reason in K;
                    returned K)
      end;
    cbn [current_review set_current_review set_verdict review_text quality_scores
         rejection_reason is_valid] in *;
    try discriminate Hv;
    rewrite Hblank; cbn [filter guardrail_passed]; rewrite ?Hd, ?Hb, ?Hr;
    cbn [negb guardrail_name app Py.join];
    (eexists; split; [reflexivity|]);
    match goal with
    | |- main_reason ?reason = ?label /\ _ =>
        assert (Hm : main_reason reason = label)
          by (first [ apply (main_reason_opening "Diversity FAILED")
                    | apply (main_reason_label "Diversity FAILED")
                    | apply (main_reason_opening "Bias FAILED")
                    | apply (main_reason_label "Bias FAILED")
                    | apply (main_reason_opening "Realism FAILED")
                    | apply (main_reason_label "Realism FAILED") ];
              reflexivity)
    end;
    (split; [exact Hm|]); rewrite Hm; cbn [append In]; auto 6.
Qed.

(** X21: the rejection summary of the command line files every
    rejected review of a run under what stopped it.  The reason a
    rejected review carries is never missing and always holds a colon,
    so no review is filed under Unknown: the heading is "Generation
    error" for a blank draft, and else the name of the first guardrail
    that failed on the last draft, in the order diversity, bias,
    realism, whichever others failed with it. *)
Theorem rejections_filed_by_cause :
  forall (E : Env) (s0 : GlobalState) (r : Run),
    Forall filed_by_cause (rejected_reviews s0) ->
    reaches E (start s0) r ->
    Forall filed_by_cause (rejected_reviews (state r)).
Proof.
  intros E s0 r H0 Hreach.
  enough (H : Forall filed_by_cause (rejected_reviews (state r))
              /\ (node r = reject -> filed_by_cause (current_review (state r))))
    by exact (proj1 H).
  apply (reaches_invariant E
           (fun r => Forall filed_by_cause (rejected_reviews (state r))
                     /\ (node r = reject ->
                         filed_by_cause (current_review (state r))))
           (start s0) r); [|split; [exact H0 | discriminate]|exact Hreach].
  intros x y [Hall Hrej] Hend Hstep.
  destruct (step_inv E x y Hstep) as (Hf & Hn & _ & _).
  destruct (node_effect E _ _ _ _ Hf) as (_ & _ & _ & _ & Hj).
  split.
  - rewrite Hj.
    assert (Hcases : node x = reject \/ node x <> reject)
      by (destruct (node x); auto; right; discriminate).
    destruct Hcases as [Hr|Hr].
    + rewrite Hr. apply Forall_app. split; [exact Hall|].
      constructor; [auto | constructor].
    + destruct (node x); try exact Hall. now destruct Hr.
  - intros Hy. rewrite Hy in Hn. symmetry in Hn.
    destruct (successor_reject _ _ Hn) as (Ha & Hv & _).
    rewrite Ha in Hf. cbn [node_function] in Hf.
    exact (aggregate_files_by_cause _ _ Hf Hv).
Qed.

Lemma rejections_filed_by_cause_witness :
  exists r reason,
    run Example.world_happy 26 (start (Example.initial_state Example.test_config 2))
    = RecursionLimit r
    /\ map rejection_reason (rejected_reviews (state r)) = [Some reason]
    /\ main_reason reason = "Diversity FAILED"
    /\ Forall filed_by_cause (rejected_reviews (state r)).
Proof.
  pose proof (run_reaches Example.world_happy 26
                (start (Example.initial_state Example.test_config 2))) as Hreach.
  eexists _, _. split; [vm_compute; reflexivity|].
  split; [vm_compute; reflexivity|]. split; [vm_compute; reflexivity|].
  match goal with
  | |- Forall _ (rejected_reviews (state ?R)) =>
      assert (Hrun : run Example.world_happy 26
                       (start (Example.initial_state Example.test_config 2))
                     = RecursionLimit R) by (vm_compute; reflexivity)
  end.
  rewrite Hrun in Hreach. destruct Hreach as [Hreach _].
  apply (rejections_filed_by_cause Example.world_happy
           (Example.initial_state Example.test_config 2) _ (Forall_nil _) Hreach).
Defined.
